(** * Blood-bank decision support: the scoring, matching and analytics formulas

    A shallow embedding of the three engines of [blood_bank_mvp]
    ([model1_prediction.py], [model2_matching.py], [model3_analytics.py])
    and the properties their specification states about them.

    Numbers.  The Python code computes on binary64 floats.  Here every float
    is an exact rational ([Q]); the great-circle distance, which needs
    [sin], [cos], [sqrt] and [atan2], is stated over the reals ([R]).
    Rounding error of the machine arithmetic is outside this development.
    Where a returned number is the rounding of a computed one, the theorems
    bound it within half a unit of the last kept digit of the exact value
    instead of fixing which neighbour a tie falls to, and thresholds on
    computed means are stated with a guard band.  Integers written to the
    database are SQLite integers, signed and 64 bits wide.

    Environment.  The clock ([datetime.now]), the date parser
    ([datetime.strptime]), the numeric distance routine and the data-frame sort
    ([DataFrame.sort_values]) are library code; they enter as the records
    [runtime] and [Matching.sort_values], with exactly what their documentation
    promises.  The distance routine raises on the machine when rounding
    pushes its intermediate [a] above 1; the request handler that has to
    answer in that case takes the raised text as [Emergency.distance_error].
    Rows come back from SQLite in the order its plan produces: groups of a
    [GROUP BY] by ascending key, a selection through the primary-key index
    in index order, any other selection in table order. *)

From Stdlib Require Import ZArith QArith Qminmax Qround Qabs Psatz Reals.
From Stdlib Require Import List String Bool Permutation Sorted.
Import ListNotations.

Open Scope string_scope.
Open Scope Q_scope.

(** ** Python built-ins used by the engines *)

Module Py.

(** [a < b] on floats. *)
Definition ltb (a b : Q) : bool := negb (Qle_bool b a).

(** [a <= b] on floats. *)
Definition leb (a b : Q) : bool := Qle_bool a b.

(** [min(a, b)]: the first argument, unless the second is strictly smaller. *)
Definition min (a b : Q) : Q := if ltb b a then b else a.

(** [max(a, b)]: the first argument, unless the second is strictly larger. *)
Definition max (a b : Q) : Q := if ltb a b then b else a.

(** [d.get(k, default)] on a dict literal, kept as its list of items. *)
Fixpoint dict_get {V : Type} (d : list (string * V)) (k : string) (default : V) : V :=
  match d with
  | [] => default
  | (k', v) :: d' => if String.eqb k' k then v else dict_get d' k default
  end.

(** [x in l] for a list of strings. *)
Definition str_in (x : string) (l : list string) : bool :=
  existsb (String.eqb x) l.

(** [round(x, ndigits)]: to the nearest multiple of [10^-ndigits], ties to
    the even one. *)
Definition round_half_even (x : Q) : Z :=
  let f := Qfloor x in
  let r := x - inject_Z f in
  if ltb r 0.5 then f
  else if ltb 0.5 r then (f + 1)%Z
  else if Z.even f then f else (f + 1)%Z.

Definition round (x : Q) (ndigits : nat) : Q :=
  let scale := inject_Z (10 ^ Z.of_nat ndigits) in
  inject_Z (round_half_even (x * scale)) / scale.

(** [int(x)]: truncation toward zero. *)
Definition int (x : Q) : Z := Z.quot (Qnum x) (Z.pos (Qden x)).

(** Truth value of an optional text argument ([if hospital_id:]): [None] and
    the empty text are false. *)
Definition truthy (o : option string) : bool :=
  match o with
  | Some s => negb (String.eqb s "")
  | None => false
  end.

(** [df.head(n)]: the first [n] rows; for negative [n], all rows but the
    last [-n]. *)
Definition head {A : Type} (n : Z) (l : list A) : list A :=
  if (0 <=? n)%Z then firstn (Z.to_nat n) l
  else firstn (List.length l - Z.to_nat (- n)) l.

(** Sum and mean of a column. *)
Definition sumZ (l : list Z) : Z := fold_right Z.add 0%Z l.
Definition sumQ (l : list Q) : Q := fold_right Qplus 0 l.
Definition mean (l : list Q) : Q := sumQ l / inject_Z (Z.of_nat (List.length l)).

End Py.

(** ** What the engines take from their libraries and from the clock *)

Record runtime : Type := {
  (** [datetime.now()], local time, in days (with the time of day as the
      fractional part); one instant per request *)
  now_days : Q;
  (** [datetime.now().strftime('%Y%m%d%H%M%S')] *)
  now_stamp : string;
  (** [datetime.strptime(s, '%Y-%m-%d')] as the day number of the parsed
      date, [None] when it raises [ValueError] *)
  strptime_ymd : string -> option Z;
  (** SQLite's [date('now', '<k> days')], a ['YYYY-MM-DD'] text *)
  sql_date : Z -> string;
  (** the float that [_haversine_distance] evaluates to *)
  haversine_km : Q -> Q -> Q -> Q -> Q
}.

(** The calendar day of [datetime.now()]. *)
Definition now_ordinal (rt : runtime) : Z := Qfloor (now_days rt).

(** A value of the [last_donation_date] column: a text, or SQL NULL. *)
Inductive date_field : Type :=
| DateText (s : string)
| DateNull.

(** ** The relational store (schema of [import_data.py]) *)

Module Store.

Record donor : Type := {
  donor_id : string;
  donor_blood_type : string;
  location_lat : Q;
  location_lng : Q;
  last_donation_date : date_field;
  is_available : Z
}.

Record movement : Type := {
  mv_hospital_id : string;
  mv_blood_type : string;
  units_collected : Z;
  mv_units_used : Z;
  units_expired : Z;
  movement_date : string
}.

Record usage : Type := {
  us_hospital_id : string;
  us_blood_type : string;
  date_of_usage : string;
  units_used : Z
}.

Record event : Type := {
  event_name : string;
  event_date : string;
  impact_level : Q;
  description : string
}.

Record database : Type := {
  donors : list donor;
  inventory_movements : list movement;
  blood_usage_history : list usage;
  events : list event
}.

(** Texts compare byte by byte in SQLite (the BINARY collation). *)
Definition text_le (a b : string) : bool := String.leb a b.

(** The key of a [GROUP BY hospital_id, blood_type]. *)
Definition group_key : Type := (string * string)%type.

Definition key_eqb (k1 k2 : group_key) : bool :=
  String.eqb (fst k1) (fst k2) && String.eqb (snd k1) (snd k2).

(** The distinct keys of the rows, each at its first occurrence. *)
Fixpoint distinct_keys (ks : list group_key) : list group_key :=
  match ks with
  | [] => []
  | k :: ks' => k :: filter (fun k' => negb (key_eqb k k')) (distinct_keys ks')
  end.

(** A row put into a list that is in ascending order of [le]: it goes
    before the first row it does not exceed, so rows that compare equal keep
    the order in which they were met. *)
Fixpoint put_in_order {A : Type} (le : A -> A -> bool) (x : A) (l : list A) : list A :=
  match l with
  | [] => [x]
  | y :: l' => if le x y then x :: y :: l' else y :: put_in_order le x l'
  end.

(** The rows in ascending order of [le], rows that compare equal in the order
    of the input: the order in which SQLite walks an index or empties a
    sorter. *)
Definition in_order {A : Type} (le : A -> A -> bool) (l : list A) : list A :=
  fold_right (put_in_order le) [] l.

(** The order of two keys: by [hospital_id], then by [blood_type], each byte
    by byte. *)
Definition key_leb (k1 k2 : group_key) : bool :=
  if String.eqb (fst k1) (fst k2) then text_le (snd k1) (snd k2)
  else text_le (fst k1) (fst k2).

(** The keys of a [GROUP BY hospital_id, blood_type].  The tables grouped
    here have no index, so SQLite groups through a sorter and the groups come
    out in ascending order of the key. *)
Definition group_keys (ks : list group_key) : list group_key :=
  in_order key_leb (distinct_keys ks).

(** [AND col = ?], present only when the argument is truthy. *)
Definition opt_filter (arg : option string) (col : string) : bool :=
  if Py.truthy arg then
    match arg with
    | Some v => String.eqb col v
    | None => true
    end
  else true.

End Store.

(** ** model2_matching.py *)

Module Matching.

Definition compatibility : list (string * list string) :=
  [ ("O-",  ["O-"]);
    ("O+",  ["O-"; "O+"]);
    ("A-",  ["O-"; "A-"]);
    ("A+",  ["O-"; "O+"; "A-"; "A+"]);
    ("B-",  ["O-"; "B-"]);
    ("B+",  ["O-"; "O+"; "B-"; "B+"]);
    ("AB-", ["O-"; "A-"; "B-"; "AB-"]);
    ("AB+", ["O-"; "O+"; "A-"; "A+"; "B-"; "B+"; "AB-"; "AB+"]) ].

(** [_get_compatible_blood_types]: the donor types that may give to
    [blood_type]. *)
Definition _get_compatible_blood_types (blood_type : string) : list string :=
  Py.dict_get compatibility blood_type [blood_type].

(** The 8-member ABO/Rh set. *)
Definition abo_rh_types : list string :=
  ["O-"; "O+"; "A-"; "A+"; "B-"; "B+"; "AB-"; "AB+"].

Definition urgency_table : list (string * Q) :=
  [ ("CRITICAL", 1.2); ("HIGH", 1.1); ("MEDIUM", 1.0); ("LOW", 0.9) ].

(** The [try] block of [_calculate_matching_score]: [strptime] raises
    [TypeError] on a value that is not a text and [ValueError] on a text that
    does not parse; the bare [except] turns both into [None] here. *)
Definition days_since_donation (rt : runtime) (last_donation : date_field) : option Z :=
  match last_donation with
  | DateText s =>
      match strptime_ymd rt s with
      | Some last_date => Some (now_ordinal rt - last_date)%Z
      | None => None
      end
  | DateNull => None
  end.

(** [_calculate_matching_score] *)
Definition _calculate_matching_score (rt : runtime)
    (donor_blood_type needed_blood_type : string) (distance : Q)
    (last_donation : date_field) (urgency : string) : Q :=
  let blood_score :=
    if String.eqb donor_blood_type needed_blood_type then 1.0
    else if Py.str_in donor_blood_type (_get_compatible_blood_types needed_blood_type)
         then 0.7
         else 0.0 in
  let distance_score :=
    if Py.leb distance 5 then 1.0
    else if Py.leb distance 10 then 0.7
    else if Py.leb distance 20 then 0.4
    else Py.max 0.1 (1.0 - distance / 100) in
  let donation_score :=
    match days_since_donation rt last_donation with
    | Some days_since =>
        if (90 <=? days_since)%Z then 1.0
        else if (56 <=? days_since)%Z then 0.8
        else 0.3
    | None => 0.5
    end in
  let urgency_multiplier := Py.dict_get urgency_table urgency 1.0 in
  let score :=
    (blood_score * 0.4 + distance_score * 0.3 + donation_score * 0.2 + 0.1)
    * urgency_multiplier in
  Py.min score 1.0.

Record location : Type := {
  latitude : Q;
  longitude : Q
}.

(** A row of [donors_df] once the two computed columns are there. *)
Record scored_donor : Type := {
  row : Store.donor;
  distance_km : Q;
  matching_score : Q
}.

(** Non-increasing order of the score. *)
Definition score_desc (a b : scored_donor) : Prop :=
  matching_score b <= matching_score a.

(** [donors_df.sort_values('matching_score', ascending=False)].  The call
    leaves [kind] at its default, ['quicksort'], which pandas documents as not
    stable: the result holds the same rows, in non-increasing order of the
    score, and nothing is promised about rows of equal score. *)
Record sort_values : Type := {
  sort_rows : list scored_donor -> list scored_donor;
  sort_rows_perm : forall l, Permutation l (sort_rows l);
  sort_rows_desc : forall l, StronglySorted score_desc (sort_rows l)
}.

(** An entry of [matched_donors]. *)
Record matched_donor : Type := {
  md_donor_id : string;
  md_blood_type : string;
  md_matching_score : Q;
  md_distance_km : Q;
  md_location : location;
  md_last_donation_date : date_field;
  md_is_available : bool
}.

(** The dict [match_donors] returns; a key the dict does not have is
    [None]. *)
Record match_result : Type := {
  request_id : string;
  matched_donors : list matched_donor;
  total_matches : Z;
  message : option string;
  urgency_level : option string
}.

(** [_generate_request_id] *)
Definition _generate_request_id (rt : runtime) : string :=
  String.append "REQ" (now_stamp rt).

(** The donor query of [match_donors]:
    [WHERE blood_type IN (compatible_types) AND is_available = 1]. *)
Definition query_donors (db : Store.database) (compatible_types : list string)
  : list Store.donor :=
  filter (fun d => Py.str_in (Store.donor_blood_type d) compatible_types
                   && (Store.is_available d =? 1)%Z)
         (Store.donors db).

(** The two [apply] calls: distance, then score, row by row. *)
Definition score_donor (rt : runtime) (blood_type : string)
    (hospital_location : location) (urgency_level : string)
    (d : Store.donor) : scored_donor :=
  let distance :=
    haversine_km rt (latitude hospital_location) (longitude hospital_location)
                 (Store.location_lat d) (Store.location_lng d) in
  {| row := d;
     distance_km := distance;
     matching_score :=
       _calculate_matching_score rt (Store.donor_blood_type d) blood_type
         distance (Store.last_donation_date d) urgency_level |}.

(** [top_donors]: the sorted frame cut by [head]. *)
Definition top_donors (srt : sort_values) (units_needed : Z)
    (donors_df : list scored_donor) : list scored_donor :=
  Py.head (Z.min 10 (units_needed * 2)) (sort_rows srt donors_df).

Definition matched_entry (donor : scored_donor) : matched_donor :=
  {| md_donor_id := Store.donor_id (row donor);
     md_blood_type := Store.donor_blood_type (row donor);
     md_matching_score := Py.round (matching_score donor) 2;
     md_distance_km := Py.round (distance_km donor) 2;
     md_location := {| latitude := Store.location_lat (row donor);
                       longitude := Store.location_lng (row donor) |};
     md_last_donation_date := Store.last_donation_date (row donor);
     md_is_available := negb (Store.is_available (row donor) =? 0)%Z |}.

(** [match_donors] *)
Definition match_donors (rt : runtime) (srt : sort_values) (db : Store.database)
    (hospital_id blood_type : string) (units_needed : Z)
    (hospital_location : location) (urgency_level : string) : match_result :=
  let compatible_types := _get_compatible_blood_types blood_type in
  let donors_df := query_donors db compatible_types in
  match donors_df with
  | [] =>
      {| request_id := _generate_request_id rt;
         matched_donors := [];
         total_matches := 0;
         message := Some "No available donors found";
         urgency_level := None |}
  | _ :: _ =>
      let donors_df :=
        map (score_donor rt blood_type hospital_location urgency_level) donors_df in
      let matched_donors := map matched_entry (top_donors srt units_needed donors_df) in
      {| request_id := _generate_request_id rt;
         matched_donors := matched_donors;
         total_matches := Z.of_nat (List.length matched_donors);
         message := None;
         urgency_level := Some urgency_level |}
  end.

(** The candidates of a request: the queried donors, scored. *)
Definition candidates (rt : runtime) (db : Store.database) (blood_type : string)
    (hospital_location : location) (urgency_level : string) : list scored_donor :=
  map (score_donor rt blood_type hospital_location urgency_level)
      (query_donors db (_get_compatible_blood_types blood_type)).



(** An ordering that meets what [sort_values] promises: row by row into a
    frame kept in non-increasing score order, a row before the rows of its
    score, so that rows of equal score stay in input order. *)
Fixpoint insert_before (x : scored_donor) (l : list scored_donor) : list scored_donor :=
  match l with
  | [] => [x]
  | y :: l' =>
      if Py.leb (matching_score y) (matching_score x) then x :: y :: l'
      else y :: insert_before x l'
  end.

Definition sort_ties_kept (l : list scored_donor) : list scored_donor :=
  fold_right insert_before [] l.

(** ** The donor score as the specification words it (DonorScorer, 4.3)

    Each term of the weighted sum is a relation between the inputs and the
    value of the term, one rule per sentence of the specification. *)

Module DonorScorerSpec.

Inductive bloodScore (donorType requestedType : string) : Q -> Prop :=
| blood_exact :
    donorType = requestedType -> bloodScore donorType requestedType 1.0
| blood_compatible :
    donorType <> requestedType ->
    In donorType (_get_compatible_blood_types requestedType) ->
    bloodScore donorType requestedType 0.7
| blood_otherwise :
    donorType <> requestedType ->
    ~ In donorType (_get_compatible_blood_types requestedType) ->
    bloodScore donorType requestedType 0.0.

Inductive distanceScore (distance : Q) : Q -> Prop :=
| distance_within_5 : distance <= 5 -> distanceScore distance 1.0
| distance_within_10 : 5 < distance -> distance <= 10 -> distanceScore distance 0.7
| distance_within_20 : 10 < distance -> distance <= 20 -> distanceScore distance 0.4
| distance_beyond (v : Q) :
    20 < distance -> v == Qmax 0.1 (1.0 - distance / 100) ->
    distanceScore distance v.

Inductive recencyScore (rt : runtime) (lastDonationDate : date_field) : Q -> Prop :=
| recency_90 (s : string) (day : Z) :
    lastDonationDate = DateText s -> strptime_ymd rt s = Some day ->
    (90 <= now_ordinal rt - day)%Z ->
    recencyScore rt lastDonationDate 1.0
| recency_56 (s : string) (day : Z) :
    lastDonationDate = DateText s -> strptime_ymd rt s = Some day ->
    (56 <= now_ordinal rt - day < 90)%Z ->
    recencyScore rt lastDonationDate 0.8
| recency_otherwise (s : string) (day : Z) :
    lastDonationDate = DateText s -> strptime_ymd rt s = Some day ->
    (now_ordinal rt - day < 56)%Z ->
    recencyScore rt lastDonationDate 0.3
| recency_missing :
    lastDonationDate = DateNull -> recencyScore rt lastDonationDate 0.5
| recency_unparseable (s : string) :
    lastDonationDate = DateText s -> strptime_ymd rt s = None ->
    recencyScore rt lastDonationDate 0.5.

Inductive urgencyMultiplier (urgency : string) : Q -> Prop :=
| urgency_critical : urgency = "CRITICAL" -> urgencyMultiplier urgency 1.2
| urgency_high : urgency = "HIGH" -> urgencyMultiplier urgency 1.1
| urgency_medium : urgency = "MEDIUM" -> urgencyMultiplier urgency 1.0
| urgency_low : urgency = "LOW" -> urgencyMultiplier urgency 0.9
| urgency_other :
    ~ In urgency ["CRITICAL"; "HIGH"; "MEDIUM"; "LOW"] ->
    urgencyMultiplier urgency 1.0.

(** The weighted sum times the multiplier, capped at 1.0. *)
Definition donorScore (bloodScore distanceScore recencyScore urgencyMultiplier : Q) : Q :=
  Qmin ((bloodScore * 0.4 + distanceScore * 0.3 + recencyScore * 0.2 + 0.1)
        * urgencyMultiplier)
       1.0.

End DonorScorerSpec.

End Matching.

(** ** model1_prediction.py *)

Module Prediction.

(** The local variables of [_calculate_risk] once the risk branch has run. *)
Record risk_locals : Type := {
  avg_daily_usage_used : Q;
  days_remaining : Q;
  risk_score : Q;
  risk_level : string
}.

(** The dict [_calculate_risk] returns. *)
Record prediction : Type := {
  p_hospital_id : string;
  p_blood_type : string;
  p_current_units : Z;
  p_avg_daily_usage : Q;
  p_risk_score : Q;
  p_risk_level : string;
  p_expected_shortage_date : option Z;
  p_days_to_shortage : option Z
}.

(** [_calculate_risk], up to the end of the risk branch. *)
Definition calculate_risk_locals (current_units avg_daily_usage : Q) : risk_locals :=
  let avg_daily_usage := if Qeq_bool avg_daily_usage 0 then 1 else avg_daily_usage in
  let days_remaining := current_units / avg_daily_usage in
  if Py.leb days_remaining 3 then
    {| avg_daily_usage_used := avg_daily_usage;
       days_remaining := days_remaining;
       risk_score := Py.min (0.90 + (3 - days_remaining) * 0.033) 1.0;
       risk_level := "CRITICAL" |}
  else if Py.leb days_remaining 7 then
    {| avg_daily_usage_used := avg_daily_usage;
       days_remaining := days_remaining;
       risk_score := 0.60 + (7 - days_remaining) * 0.075;
       risk_level := "HIGH" |}
  else if Py.leb days_remaining 14 then
    {| avg_daily_usage_used := avg_daily_usage;
       days_remaining := days_remaining;
       risk_score := 0.30 + (14 - days_remaining) * 0.043;
       risk_level := "MEDIUM" |}
  else
    {| avg_daily_usage_used := avg_daily_usage;
       days_remaining := days_remaining;
       risk_score := Py.max 0.10 (Py.min 0.30 (30 / days_remaining));
       risk_level := "LOW" |}.

(** [_calculate_risk]: the shortage date is kept as a day number, the day of
    [datetime.now() + timedelta(days=days_remaining)]. *)
Definition _calculate_risk (rt : runtime) (current_units avg_daily_usage : Q)
    (hospital_id blood_type : string) : prediction :=
  let v := calculate_risk_locals current_units avg_daily_usage in
  let shortage :=
    if Py.ltb (days_remaining v) 30
    then (Some (Qfloor (now_days rt + days_remaining v)),
          Some (Py.int (days_remaining v)))
    else (None, None) in
  {| p_hospital_id := hospital_id;
     p_blood_type := blood_type;
     p_current_units := Py.int current_units;
     p_avg_daily_usage := Py.round (avg_daily_usage_used v) 2;
     p_risk_score := Py.round (risk_score v) 2;
     p_risk_level := risk_level v;
     p_expected_shortage_date := fst shortage;
     p_days_to_shortage := snd shortage |}.

(** The range of the risk score with its branch ranges read as written: within
    [[0.10, 1.0]] overall, within [[0.90, 1.0]] on the CRITICAL branch,
    strictly between 0.30 and 0.91 on the HIGH and MEDIUM branches, within
    [[0.10, 0.30]] on the LOW branch. *)
Definition risk_score_in_stated_ranges (current_units avg_daily_usage : Q) : Prop :=
  let v := calculate_risk_locals current_units avg_daily_usage in
  0.10 <= risk_score v <= 1.0
  /\ (risk_level v = "CRITICAL" -> 0.90 <= risk_score v <= 1.0)
  /\ (risk_level v = "HIGH" \/ risk_level v = "MEDIUM" ->
      0.30 < risk_score v /\ risk_score v < 0.91)
  /\ (risk_level v = "LOW" -> 0.10 <= risk_score v <= 0.30).

End Prediction.

(** ** model3_analytics.py *)

Module Analytics.

(** A row of the grouped movement query. *)
Record waste_group : Type := {
  wg_hospital_id : string;
  wg_blood_type : string;
  total_collected : Z;
  total_used : Z;
  total_expired : Z
}.

(** The same row with the two computed columns. *)
Record waste_row : Type := {
  group : waste_group;
  waste_rate : Q;
  status : string
}.

(** An entry of the returned [waste_rates] list. *)
Record waste_entry : Type := {
  we_hospital_id : string;
  we_blood_type : string;
  we_waste_rate : Q;
  we_units_expired : Z;
  we_total_units : Z;
  we_status : string
}.

(** The free-text recommendations, kept as their content. *)
Inductive recommendation : Type :=
| HighWasteRate (rate : Q) (blood_type hospital_id : string)
| OverallAboveThreshold
| WithinLimits.

Record waste_result : Type := {
  waste_rates : list waste_entry;
  overall_waste_rate : Q;
  total_expired_units : option Z;
  total_collected_units : option Z;
  recommendations : list recommendation
}.

(** The [WHERE] clause of [calculate_waste_rates]. *)
Definition movement_selected (hospital_id blood_type start_date end_date : option string)
    (m : Store.movement) : bool :=
  Store.opt_filter hospital_id (Store.mv_hospital_id m)
  && Store.opt_filter blood_type (Store.mv_blood_type m)
  && (if Py.truthy start_date then
        match start_date with
        | Some d => Store.text_le d (Store.movement_date m)
        | None => true
        end
      else true)
  && (if Py.truthy end_date then
        match end_date with
        | Some d => Store.text_le (Store.movement_date m) d
        | None => true
        end
      else true).

Definition movement_key (m : Store.movement) : Store.group_key :=
  (Store.mv_hospital_id m, Store.mv_blood_type m).

(** The movements of one group. *)
Definition movements_of (k : Store.group_key) (ms : list Store.movement)
  : list Store.movement :=
  filter (fun m => Store.key_eqb k (movement_key m)) ms.

(** [SELECT ..., SUM(...) ... GROUP BY hospital_id, blood_type] over the
    selected movements. *)
Definition group_movements (ms : list Store.movement) : list waste_group :=
  map (fun k =>
         let g := movements_of k ms in
         {| wg_hospital_id := fst k;
            wg_blood_type := snd k;
            total_collected := Py.sumZ (map Store.units_collected g);
            total_used := Py.sumZ (map Store.mv_units_used g);
            total_expired := Py.sumZ (map Store.units_expired g) |})
      (Store.group_keys (map movement_key ms)).

(** [get_status] *)
Definition get_status (rate : Q) : string :=
  if Py.ltb rate 0.05 then "LOW"
  else if Py.ltb rate 0.10 then "ACCEPTABLE"
  else if Py.ltb rate 0.20 then "HIGH"
  else "CRITICAL".

(** The frame [df] after the [waste_rate] and [status] columns are set.  The
    sums are integers here, so [fillna(0)] has nothing to replace; a zero
    denominator needs [total_collected = -1], which no count is. *)
Definition waste_frame (groups : list waste_group) : list waste_row :=
  map (fun g =>
         let rate := inject_Z (total_expired g) / inject_Z (total_collected g + 1) in
         {| group := g; waste_rate := rate; status := get_status rate |})
      groups.

(** The local [overall_rate]. *)
Definition overall_rate (df : list waste_row) : Q :=
  inject_Z (Py.sumZ (map (fun r => total_expired (group r)) df))
  / inject_Z (Py.sumZ (map (fun r => total_collected (group r)) df) + 1).

(** [_generate_waste_recommendations] *)
Definition _generate_waste_recommendations (df : list waste_row) : list recommendation :=
  let high_waste := filter (fun r => Py.ltb 0.15 (waste_rate r)) df in
  let recommendations :=
    List.app
      (map (fun r => HighWasteRate (waste_rate r) (wg_blood_type (group r))
                                   (wg_hospital_id (group r)))
           high_waste)
      (if Py.ltb 0.10 (Py.mean (map waste_rate df))
       then [OverallAboveThreshold] else []) in
  match recommendations with
  | [] => [WithinLimits]
  | _ :: _ => recommendations
  end.

(** [calculate_waste_rates] *)
Definition calculate_waste_rates (db : Store.database)
    (hospital_id blood_type start_date end_date : option string) : waste_result :=
  let selected :=
    filter (movement_selected hospital_id blood_type start_date end_date)
           (Store.inventory_movements db) in
  match group_movements selected with
  | [] =>
      {| waste_rates := [];
         overall_waste_rate := 0.0;
         total_expired_units := None;
         total_collected_units := None;
         recommendations := [] |}
  | groups =>
      let df := waste_frame groups in
      {| waste_rates :=
           map (fun r =>
                  {| we_hospital_id := wg_hospital_id (group r);
                     we_blood_type := wg_blood_type (group r);
                     we_waste_rate := Py.round (waste_rate r) 3;
                     we_units_expired := total_expired (group r);
                     we_total_units := total_collected (group r);
                     we_status := status r |})
               df;
         overall_waste_rate := Py.round (overall_rate df) 3;
         total_expired_units :=
           Some (Py.sumZ (map (fun r => total_expired (group r)) df));
         total_collected_units :=
           Some (Py.sumZ (map (fun r => total_collected (group r)) df));
         recommendations := _generate_waste_recommendations df |}
  end.

(** A row of the grouped usage query of [forecast_demand]. *)
Record demand_group : Type := {
  dg_hospital_id : string;
  dg_blood_type : string;
  avg_daily_demand : Q;
  days_of_data : Z;
  peak_usage : Z
}.

(** An entry of the list [forecast_demand] returns; the key
    [next_<days>_days_forecast] is the pair of [f_days] and [f_forecast]. *)
Record forecast : Type := {
  f_hospital_id : string;
  f_blood_type : string;
  f_avg_daily_demand : Q;
  f_days : Z;
  f_forecast : Q;
  f_demand_trend : string;
  f_peak_days : list Z;
  f_confidence_level : Q
}.

(** The [WHERE] clause of the usage query: the trailing 90 days, and the two
    optional filters. *)
Definition usage_selected (rt : runtime) (hospital_id blood_type : option string)
    (u : Store.usage) : bool :=
  Store.text_le (sql_date rt (-90)) (Store.date_of_usage u)
  && Store.opt_filter hospital_id (Store.us_hospital_id u)
  && Store.opt_filter blood_type (Store.us_blood_type u).

Definition usage_key (u : Store.usage) : Store.group_key :=
  (Store.us_hospital_id u, Store.us_blood_type u).

Definition usages_of (k : Store.group_key) (us : list Store.usage) : list Store.usage :=
  filter (fun u => Store.key_eqb k (usage_key u)) us.

(** [SELECT ..., AVG(units_used), COUNT( * ), MAX(units_used) ... GROUP BY
    hospital_id, blood_type] over the selected usage rows. *)
Definition group_usage (us : list Store.usage) : list demand_group :=
  map (fun k =>
         let g := map Store.units_used (usages_of k us) in
         {| dg_hospital_id := fst k;
            dg_blood_type := snd k;
            avg_daily_demand :=
              inject_Z (Py.sumZ g) / inject_Z (Z.of_nat (List.length g));
            days_of_data := Z.of_nat (List.length g);
            peak_usage := fold_right Z.max (hd 0%Z g) g |})
      (Store.group_keys (map usage_key us)).

(** [WHERE event_date BETWEEN date('now') AND date('now', '+30 days')] *)
Definition event_in_window (rt : runtime) (e : Store.event) : bool :=
  Store.text_le (sql_date rt 0) (Store.event_date e)
  && Store.text_le (Store.event_date e) (sql_date rt 30).

(** [_calculate_trend] *)
Definition _calculate_trend (hospital_id blood_type : string) : string :=
  "STABLE".

(** The local [total_forecast] of one pass of the loop over [df]. *)
Definition total_forecast (row : demand_group) (days : Z)
    (events_df : list Store.event) : Q :=
  let base_forecast := avg_daily_demand row * inject_Z days in
  let event_adjustment :=
    fold_left (fun event_adjustment event =>
                 event_adjustment
                 + avg_daily_demand row * (Store.impact_level event - 1.0))
              events_df 0 in
  base_forecast + event_adjustment.

(** [forecast_demand] *)
Definition forecast_demand (rt : runtime) (db : Store.database)
    (hospital_id blood_type : option string) (days : Z) : list forecast :=
  let df :=
    group_usage (filter (usage_selected rt hospital_id blood_type)
                        (Store.blood_usage_history db)) in
  let events_df := filter (event_in_window rt) (Store.events db) in
  map (fun row =>
         let total_forecast := total_forecast row days events_df in
         let trend := _calculate_trend (dg_hospital_id row) (dg_blood_type row) in
         {| f_hospital_id := dg_hospital_id row;
            f_blood_type := dg_blood_type row;
            f_avg_daily_demand := Py.round (avg_daily_demand row) 2;
            f_days := days;
            f_forecast := Py.round total_forecast 1;
            f_demand_trend := trend;
            f_peak_days := [];
            f_confidence_level :=
              if (60 <? days_of_data row)%Z then 0.85 else 0.65 |})
      df.

End Analytics.

(** ** Great-circle distance ([_haversine_distance] of model2_matching.py) *)

Module Geo.

Local Open Scope R_scope.

(** [math.radians] *)
Definition radians (x : R) : R := x * (PI / 180).

(** [math.sqrt]: raises [ValueError] below zero. *)
Definition py_sqrt (x : R) : option R :=
  if Rle_dec 0 x then Some (sqrt x) else None.

(** [math.atan2(y, x)]: the angle of the point [(x, y)], in [(-PI, PI]]. *)
Definition atan2 (y x : R) : R :=
  if Rlt_dec 0 x then atan (y / x)
  else if Rlt_dec x 0 then
    (if Rle_dec 0 y then atan (y / x) + PI else atan (y / x) - PI)
  else if Rlt_dec 0 y then PI / 2
  else if Rlt_dec y 0 then - (PI / 2)
  else 0.

(** [_haversine_distance]; [None] is the [ValueError] of a square root. *)
Definition _haversine_distance (lat1 lon1 lat2 lon2 : R) : option R :=
  let R := 6371 in
  let lat1 := radians lat1 in
  let lon1 := radians lon1 in
  let lat2 := radians lat2 in
  let lon2 := radians lon2 in
  let dlat := lat2 - lat1 in
  let dlon := lon2 - lon1 in
  let a := sin (dlat / 2) ^ 2 + cos lat1 * cos lat2 * sin (dlon / 2) ^ 2 in
  match py_sqrt a, py_sqrt (1 - a) with
  | Some sqrt_a, Some sqrt_1a => Some (R * (2 * atan2 sqrt_a sqrt_1a))
  | _, _ => None
  end.

(** The local [a] of [_haversine_distance], as a function of the four
    arguments. *)
Definition haversine_a (lat1 lon1 lat2 lon2 : R) : R :=
  sin ((radians lat2 - radians lat1) / 2) ^ 2
  + cos (radians lat1) * cos (radians lat2)
    * sin ((radians lon2 - radians lon1) / 2) ^ 2.

(** Coordinates in degrees: latitude in [[-90, 90]], longitude in
    [[-180, 180]]. *)
Definition valid_coordinates (lat lon : R) : Prop :=
  -90 <= lat <= 90 /\ -180 <= lon <= 180.

End Geo.

(** ** The locals of [_calculate_matching_score], as functions of its
    arguments *)

Module ScoreTerms.

Import Matching.

Definition blood_score (donor_blood_type needed_blood_type : string) : Q :=
  if String.eqb donor_blood_type needed_blood_type then 1.0
  else if Py.str_in donor_blood_type (_get_compatible_blood_types needed_blood_type)
       then 0.7
       else 0.0.

Definition distance_score (distance : Q) : Q :=
  if Py.leb distance 5 then 1.0
  else if Py.leb distance 10 then 0.7
  else if Py.leb distance 20 then 0.4
  else Py.max 0.1 (1.0 - distance / 100).

Definition donation_score (rt : runtime) (last_donation : date_field) : Q :=
  match days_since_donation rt last_donation with
  | Some days_since =>
      if (90 <=? days_since)%Z then 1.0
      else if (56 <=? days_since)%Z then 0.8
      else 0.3
  | None => 0.5
  end.

Definition urgency_multiplier (urgency : string) : Q :=
  Py.dict_get urgency_table urgency 1.0.

(** The sum that the multiplier scales: the local [score] before the
    multiplication. *)
Definition weighted_sum (rt : runtime) (donor_blood_type needed_blood_type : string)
    (distance : Q) (last_donation : date_field) : Q :=
  blood_score donor_blood_type needed_blood_type * 0.4
  + distance_score distance * 0.3
  + donation_score rt last_donation * 0.2
  + 0.1.

End ScoreTerms.

(** ** Order of the risk levels, and the Rh-negative types *)

Module Levels.

(** LOW, MEDIUM, HIGH, CRITICAL by rising severity; any other text counts as
    LOW. *)
Definition level_rank (level : string) : nat :=
  if String.eqb level "CRITICAL" then 3
  else if String.eqb level "HIGH" then 2
  else if String.eqb level "MEDIUM" then 1
  else 0.

(** The four Rh-negative types. *)
Definition rh_negative_types : list string := ["O-"; "A-"; "B-"; "AB-"].

End Levels.

(** ** The inventory table and its two endpoints ([get_inventory],
    [update_inventory] of app.py) *)

Module Inventory.

Record inventory_row : Type := {
  inv_hospital_id : string;
  inv_blood_type : string;
  current_units : Z;
  last_updated : string
}.

(** The table [blood_inventory], in row order. *)
Definition table : Type := list inventory_row.

(** The primary key [(hospital_id, blood_type)]. *)
Definition row_key (r : inventory_row) : Store.group_key :=
  (inv_hospital_id r, inv_blood_type r).

(** [SELECT ... FROM blood_inventory WHERE 1=1], with [AND hospital_id = ?]
    and [AND blood_type = ?] for the arguments that are truthy.  The
    statement has no [ORDER BY].  Without the [hospital_id] term SQLite scans
    the table, which gives the rows in table order; with it SQLite searches
    the index of the primary key [(hospital_id, blood_type)], which gives the
    rows of that hospital in ascending order of [blood_type]. *)
Definition select_inventory (t : table) (hospital_id blood_type : option string)
  : list inventory_row :=
  let rows :=
    filter (fun r => Store.opt_filter hospital_id (inv_hospital_id r)
                     && Store.opt_filter blood_type (inv_blood_type r))
           t in
  if Py.truthy hospital_id
  then Store.in_order
         (fun r1 r2 => Store.text_le (inv_blood_type r1) (inv_blood_type r2)) rows
  else rows.

(** What [get_inventory] answers with status 200. *)
Record inventory_response : Type := {
  inventory : list inventory_row;
  total_count : Z
}.

(** [get_inventory] *)
Definition get_inventory (t : table) (hospital_id blood_type : option string)
  : inventory_response :=
  let inventory := select_inventory t hospital_id blood_type in
  {| inventory := inventory;
     total_count := Z.of_nat (List.length inventory) |}.

(** [INSERT ... ON CONFLICT(hospital_id, blood_type) DO UPDATE SET
    current_units = ?, last_updated = ?]: the row of that key gets the new
    units and the second timestamp; without such a row a new one is added
    with the first timestamp. *)
Fixpoint upsert (hospital_id blood_type : string) (units : Z)
    (stamp_insert stamp_update : string) (t : table) : table :=
  match t with
  | [] =>
      [ {| inv_hospital_id := hospital_id;
           inv_blood_type := blood_type;
           current_units := units;
           last_updated := stamp_insert |} ]
  | r :: t' =>
      if Store.key_eqb (hospital_id, blood_type) (row_key r)
      then {| inv_hospital_id := inv_hospital_id r;
              inv_blood_type := inv_blood_type r;
              current_units := units;
              last_updated := stamp_update |} :: t'
      else r :: upsert hospital_id blood_type units stamp_insert stamp_update t'
  end.

(** The JSON body of [update_inventory], with values of the documented
    types; a field is [None] when the body lacks the key. *)
Record update_body : Type := {
  ub_hospital_id : option string;
  ub_blood_type : option string;
  ub_current_units : option Z
}.

Inductive update_response : Type :=
| Updated (updated : update_body)       (* 200, 'Inventory updated successfully' *)
| UpdateError (message : string).       (* 500, str(e) *)

(** [str(KeyError(key))] *)
Definition key_error (key : string) : string :=
  String.append "'" (String.append key "'").

(** The integers SQLite stores: 64 bits, signed.  [cursor.execute] raises
    [OverflowError] on a Python int outside this range while it binds the
    parameters, before anything is written. *)
Definition sqlite_integer (n : Z) : bool :=
  (- 2 ^ 63 <=? n)%Z && (n <? 2 ^ 63)%Z.

(** [str(e)] of that [OverflowError] *)
Definition overflow_error : string :=
  "Python int too large to convert to SQLite INTEGER".

(** [update_inventory]: the two timestamps are the two calls of
    [datetime.now().isoformat()]; a missing key raises [KeyError] while the
    parameter tuple is built, before the statement runs; units that SQLite
    cannot store raise [OverflowError] when the statement is run, and the
    table stays as it was. *)
Definition update_inventory (t : table) (data : update_body)
    (stamp_insert stamp_update : string) : table * update_response :=
  match ub_hospital_id data with
  | None => (t, UpdateError (key_error "hospital_id"))
  | Some hospital_id =>
      match ub_blood_type data with
      | None => (t, UpdateError (key_error "blood_type"))
      | Some blood_type =>
          match ub_current_units data with
          | None => (t, UpdateError (key_error "current_units"))
          | Some units =>
              if sqlite_integer units
              then (upsert hospital_id blood_type units stamp_insert stamp_update t,
                    Updated data)
              else (t, UpdateError overflow_error)
          end
      end
  end.

End Inventory.

(** ** [predict_shortages] of model1_prediction.py and the two endpoints that
    call it *)

Module Shortages.

Import Prediction.

(** A row of the grouped usage query. *)
Record usage_avg : Type := {
  ua_hospital_id : string;
  ua_blood_type : string;
  avg_daily_usage : Q;
  days_of_data : Z
}.

(** The [WHERE] clause of the usage query: the trailing 30 days and the two
    optional filters. *)
Definition usage_selected (rt : runtime) (hospital_id blood_type : option string)
    (u : Store.usage) : bool :=
  Store.text_le (sql_date rt (-30)) (Store.date_of_usage u)
  && Store.opt_filter hospital_id (Store.us_hospital_id u)
  && Store.opt_filter blood_type (Store.us_blood_type u).

(** [SELECT hospital_id, blood_type, AVG(units_used), COUNT( * ) ... GROUP BY
    hospital_id, blood_type] *)
Definition usage_frame (us : list Store.usage) : list usage_avg :=
  map (fun k =>
         let g := map Store.units_used (Analytics.usages_of k us) in
         {| ua_hospital_id := fst k;
            ua_blood_type := snd k;
            avg_daily_usage :=
              inject_Z (Py.sumZ g) / inject_Z (Z.of_nat (List.length g));
            days_of_data := Z.of_nat (List.length g) |})
      (Store.group_keys (map Analytics.usage_key us)).

(** The column [avg_daily_usage] of the left merge, after [fillna(0)]: the
    average of the usage row of the same key, 0 without one. *)
Definition merged_avg_daily_usage (usage_df : list usage_avg)
    (row : Inventory.inventory_row) : Q :=
  match find (fun g => Store.key_eqb (Inventory.row_key row)
                                     (ua_hospital_id g, ua_blood_type g))
             usage_df with
  | Some g => avg_daily_usage g
  | None => 0
  end.

(** The average a row should get from the merge: the mean of the selected
    usage records of the row's key, and 0 when there is none. *)
Definition recent_mean (us : list Store.usage) (row : Inventory.inventory_row) : Q :=
  match map Store.units_used (Analytics.usages_of (Inventory.row_key row) us) with
  | [] => 0
  | g => inject_Z (Py.sumZ g) / inject_Z (Z.of_nat (List.length g))
  end.

(** [predict_shortages] *)
Definition predict_shortages (rt : runtime) (inv : Inventory.table)
    (db : Store.database) (hospital_id blood_type : option string)
  : list prediction :=
  let inventory_df := Inventory.select_inventory inv hospital_id blood_type in
  let usage_df :=
    usage_frame (filter (usage_selected rt hospital_id blood_type)
                        (Store.blood_usage_history db)) in
  map (fun row =>
         _calculate_risk rt
           (inject_Z (Inventory.current_units row))
           (merged_avg_daily_usage usage_df row)
           (Inventory.inv_hospital_id row)
           (Inventory.inv_blood_type row))
      inventory_df.

(** [str.upper], on ASCII text: the letters a to z become A to Z, every
    other character stays. *)
Definition upper_char (c : Ascii.ascii) : Ascii.ascii :=
  let n := Ascii.nat_of_ascii c in
  if (97 <=? n)%nat && (n <=? 122)%nat then Ascii.ascii_of_nat (n - 32) else c.

Fixpoint upper (s : string) : string :=
  match s with
  | EmptyString => EmptyString
  | String c s' => String (upper_char c) (upper s')
  end.

(** Text of ASCII characters only. *)
Fixpoint is_ascii (s : string) : bool :=
  match s with
  | EmptyString => true
  | String c s' => (Ascii.nat_of_ascii c <? 128)%nat && is_ascii s'
  end.

(** What [predict_shortage] and [get_risks] answer with status 200. *)
Record risks_response : Type := {
  risks : list prediction;
  total_count : Z
}.

(** [predict_shortage] (POST): the two filters come from the body. *)
Definition predict_shortage (rt : runtime) (inv : Inventory.table)
    (db : Store.database) (hospital_id blood_type : option string) : risks_response :=
  let predictions := predict_shortages rt inv db hospital_id blood_type in
  {| risks := predictions;
     total_count := Z.of_nat (List.length predictions) |}.

(** [get_risks] (GET) *)
Definition get_risks (rt : runtime) (inv : Inventory.table) (db : Store.database)
    (hospital_id blood_type risk_level : option string) : risks_response :=
  let predictions := predict_shortages rt inv db hospital_id blood_type in
  let predictions :=
    if Py.truthy risk_level then
      match risk_level with
      | Some level =>
          filter (fun p => String.eqb (p_risk_level p) (upper level)) predictions
      | None => predictions
      end
    else predictions in
  {| risks := predictions;
     total_count := Z.of_nat (List.length predictions) |}.

End Shortages.

(** ** [search_donors] of model2_matching.py and its endpoint *)

Module Search.

(** A record of the returned list: the donor's columns, and [distance_km]
    when the frame got that column. *)
Record found_donor : Type := {
  fd_donor : Store.donor;
  fd_distance_km : option Q
}.

(** The [WHERE] clause: [AND blood_type = ?] for a truthy [blood_type],
    [AND is_available = ?] for an [is_available] that is not [None]. *)
Definition donor_selected (blood_type : option string) (is_available : option bool)
    (d : Store.donor) : bool :=
  Store.opt_filter blood_type (Store.donor_blood_type d)
  && match is_available with
     | Some a => (Store.is_available d =? (if a then 1 else 0))%Z
     | None => true
     end.

(** [search_donors] *)
Definition search_donors (rt : runtime) (db : Store.database)
    (blood_type : option string) (location : option (Q * Q)) (radius_km : Q)
    (is_available : option bool) : list found_donor :=
  let donors_df := filter (donor_selected blood_type is_available) (Store.donors db) in
  match location, donors_df with
  | Some (lat, lng), _ :: _ =>
      let with_distance :=
        map (fun d =>
               (d, haversine_km rt lat lng (Store.location_lat d) (Store.location_lng d)))
            donors_df in
      map (fun dk => {| fd_donor := fst dk; fd_distance_km := Some (snd dk) |})
          (filter (fun dk => Py.leb (snd dk) radius_km) with_distance)
  | _, _ =>
      map (fun d => {| fd_donor := d; fd_distance_km := None |}) donors_df
  end.

(** Truth value of an optional float ([if latitude]): [None] and 0.0 are
    false. *)
Definition float_truthy (x : option Q) : bool :=
  match x with
  | Some q => negb (Qeq_bool q 0)
  | None => false
  end.

(** What the endpoint answers with status 200. *)
Record donors_response : Type := {
  donors : list found_donor;
  total_count : Z
}.

(** The endpoint [search_donors] of app.py.  The query arguments arrive
    parsed: a float that is missing or does not parse is [None]. *)
Definition search_donors_endpoint (rt : runtime) (db : Store.database)
    (blood_type : option string) (latitude longitude radius_km : option Q)
    (is_available : option string) : donors_response :=
  let radius_km := match radius_km with Some r => r | None => 10 end in
  let location :=
    if float_truthy latitude && float_truthy longitude then
      match latitude, longitude with
      | Some lat, Some lng => Some (lat, lng)
      | _, _ => None
      end
    else None in
  let is_available :=
    if Py.truthy is_available then
      match is_available with
      | Some text => Some (String.eqb text "true")
      | None => None
      end
    else None in
  let donors := search_donors rt db blood_type location radius_km is_available in
  {| donors := donors;
     total_count := Z.of_nat (List.length donors) |}.

End Search.

(** ** [generate_heatmap] of model3_analytics.py *)

Module Heatmap.

Record area : Type := {
  area_id : string;
  area_latitude : Q;
  area_longitude : Q;
  demand_score : Q;
  donor_density : Z;
  risk_level : string;
  area_hospital_id : string
}.

Record heatmap : Type := {
  areas : list area;
  total_areas : Z;
  high_risk_areas : Z
}.

(** The local [demand_score] of one hospital row. *)
Definition demand_of (current_units : Z) : Q :=
  Py.max 0.1 (1.0 - inject_Z current_units / 50).

(** The risk branch of the loop. *)
Definition area_risk (demand_score : Q) (donor_density : Z) : string :=
  if Py.leb 0.9 demand_score || (donor_density <? 5)%Z then "CRITICAL"
  else if Py.leb 0.75 demand_score || (donor_density <? 10)%Z then "HIGH"
  else if Py.leb 0.5 demand_score then "MEDIUM"
  else "LOW".

(** The rows of the hospital query with the two [RANDOM()] draws of each
    row, a 64-bit integer each. *)
Fixpoint with_draws (random : nat -> Z * Z) (i : nat) (inv : Inventory.table)
  : list (Inventory.inventory_row * (Z * Z)) :=
  match inv with
  | [] => []
  | r :: inv' => (r, random i) :: with_draws random (S i) inv'
  end.

(** [generate_heatmap]; [bounds] and [blood_type] are arguments the function
    does not read. *)
Definition generate_heatmap (random : nat -> Z * Z) (inv : Inventory.table)
    (db : Store.database) (bounds : option (Q * Q * Q * Q))
    (blood_type : option string) : heatmap :=
  let donors_df := filter (fun d => (Store.is_available d =? 1)%Z) (Store.donors db) in
  let areas :=
    map (fun hospital =>
           let row := fst hospital in
           let demand_score := demand_of (Inventory.current_units row) in
           let donor_density := Z.of_nat (List.length donors_df) in
           {| area_id := String.append "AREA_" (Inventory.inv_hospital_id row);
              area_latitude := 30.0444 + inject_Z (fst (snd hospital)) * 0.1;
              area_longitude := 31.2357 + inject_Z (snd (snd hospital)) * 0.1;
              demand_score := Py.round demand_score 2;
              donor_density := donor_density;
              risk_level := area_risk demand_score donor_density;
              area_hospital_id := Inventory.inv_hospital_id row |})
        (with_draws random 0 inv) in
  let high_risk_count :=
    List.length
      (filter (fun a => Py.str_in (risk_level a) ["HIGH"; "CRITICAL"]) areas) in
  {| areas := areas;
     total_areas := Z.of_nat (List.length areas);
     high_risk_areas := Z.of_nat high_risk_count |}.

(** The number of available donors, the [donor_density] of every area. *)
Definition available_donors (db : Store.database) : Z :=
  Z.of_nat (List.length (filter (fun d => (Store.is_available d =? 1)%Z)
                                (Store.donors db))).

End Heatmap.

(** ** The endpoint [match_emergency] of app.py *)

Module Emergency.

Import Matching.

(** The JSON body, with values of the documented types; a field is [None]
    when the object lacks the key.  [location] is an object that may itself
    lack [latitude] or [longitude]. *)
Record location_body : Type := {
  lb_latitude : option Q;
  lb_longitude : option Q
}.

Record emergency_body : Type := {
  eb_hospital_id : option string;
  eb_blood_type_needed : option string;
  eb_units_needed : option Z;
  eb_location : option location_body;
  eb_urgency_level : option string
}.

Inductive emergency_response : Type :=
| Matched (result : match_result)        (* 200, 'status': 'success' *)
| BadRequest (message : string)          (* 400 *)
| InternalError (message : string).      (* 500, str(e) *)

(** [required] *)
Definition required : list string :=
  ["hospital_id"; "blood_type_needed"; "units_needed"; "location"; "urgency_level"].

Definition present {A : Type} (o : option A) : bool :=
  match o with
  | Some _ => true
  | None => false
  end.

(** [field in data] *)
Definition has_field (data : emergency_body) (field : string) : bool :=
  if String.eqb field "hospital_id" then present (eb_hospital_id data)
  else if String.eqb field "blood_type_needed" then present (eb_blood_type_needed data)
  else if String.eqb field "units_needed" then present (eb_units_needed data)
  else if String.eqb field "location" then present (eb_location data)
  else if String.eqb field "urgency_level" then present (eb_urgency_level data)
  else false.

(** [data[key]]: the value, or the [KeyError] that the handler turns into a
    500. *)
Definition subscript {A : Type} (o : option A) (key : string)
    (k : A -> emergency_response) : emergency_response :=
  match o with
  | Some v => k v
  | None => InternalError (Inventory.key_error key)
  end.

(** What a call of [_haversine_distance] does when it does not return.  On
    binary64 floats the haversine term can round above 1 (two points that are
    nearly antipodal), and [math.sqrt(1 - a)] then raises [ValueError]:
    [raised lat1 lon1 lat2 lon2] is the text of the exception when the call
    raises, and [None] when it returns. *)
Definition distance_error : Type := Q -> Q -> Q -> Q -> option string.

(** The first [apply] of [match_donors] calls [_haversine_distance] donor by
    donor, in row order: the exception of the first call that raises, if one
    does. *)
Fixpoint first_error (raised : distance_error) (hospital_lat hospital_lng : Q)
    (donors_df : list Store.donor) : option string :=
  match donors_df with
  | [] => None
  | d :: donors_df' =>
      match raised hospital_lat hospital_lng
                   (Store.location_lat d) (Store.location_lng d) with
      | Some text => Some text
      | None => first_error raised hospital_lat hospital_lng donors_df'
      end
  end.

(** [match_emergency].  The loop over [required] answers 400 at the first
    field the body lacks.  [match_donors] reads [latitude] and [longitude] of
    the location only after the donor query, when that returned a donor; a
    missing key raises [KeyError] there, and a distance that cannot be
    computed raises [ValueError]; the handler turns both into a 500. *)
Definition match_emergency (rt : runtime) (srt : sort_values)
    (raised : distance_error) (db : Store.database)
    (data : emergency_body) : emergency_response :=
  match find (fun field => negb (has_field data field)) required with
  | Some field => BadRequest (String.append "Missing required field: " field)
  | None =>
      subscript (eb_hospital_id data) "hospital_id" (fun hospital_id =>
      subscript (eb_blood_type_needed data) "blood_type_needed" (fun blood_type =>
      subscript (eb_units_needed data) "units_needed" (fun units_needed =>
      subscript (eb_location data) "location" (fun hospital_location =>
      subscript (eb_urgency_level data) "urgency_level" (fun urgency_level =>
        match query_donors db (_get_compatible_blood_types blood_type) with
        | [] =>
            Matched {| request_id := _generate_request_id rt;
                       matched_donors := [];
                       total_matches := 0;
                       message := Some "No available donors found";
                       urgency_level := None |}
        | donors_df =>
            subscript (lb_latitude hospital_location) "latitude" (fun hospital_lat =>
            subscript (lb_longitude hospital_location) "longitude" (fun hospital_lng =>
              match first_error raised hospital_lat hospital_lng donors_df with
              | Some text => InternalError text
              | None =>
                  Matched (match_donors rt srt db hospital_id blood_type units_needed
                                        {| latitude := hospital_lat;
                                           longitude := hospital_lng |}
                                        urgency_level)
              end))
        end)))))
  end.

End Emergency.

(** ** Sample data, used to run the engines on concrete inputs *)

Module Samples.

(** A request served on day 20000 at noon; two dates parse, the rest do
    not; distances on a flat grid of 111 km per degree. *)
Definition rt : runtime :=
  {| now_days := 20000.5;
     now_stamp := "20241003120000";
     strptime_ymd := fun s =>
       if String.eqb s "2024-06-01" then Some 19876%Z
       else if String.eqb s "2024-09-20" then Some 19987%Z
       else None;
     sql_date := fun k =>
       if (k =? 0)%Z then "2024-10-03"
       else if (k =? 30)%Z then "2024-11-02"
       else "2024-07-05";
     haversine_km := fun lat1 lon1 lat2 lon2 =>
       111 * (Qabs (lat2 - lat1) + Qabs (lon2 - lon1)) |}.

Definition donor (id bt : string) (lat lng : Q) (last : string) (avail : Z)
  : Store.donor :=
  {| Store.donor_id := id;
     Store.donor_blood_type := bt;
     Store.location_lat := lat;
     Store.location_lng := lng;
     Store.last_donation_date := DateText last;
     Store.is_available := avail |}.

Definition movement (h bt : string) (collected used expired : Z) (date : string)
  : Store.movement :=
  {| Store.mv_hospital_id := h;
     Store.mv_blood_type := bt;
     Store.units_collected := collected;
     Store.mv_units_used := used;
     Store.units_expired := expired;
     Store.movement_date := date |}.

Definition usage (h bt date : string) (used : Z) : Store.usage :=
  {| Store.us_hospital_id := h;
     Store.us_blood_type := bt;
     Store.date_of_usage := date;
     Store.units_used := used |}.

Definition event (name date : string) (impact : Q) : Store.event :=
  {| Store.event_name := name;
     Store.event_date := date;
     Store.impact_level := impact;
     Store.description := name |}.

(** Two O- donors at the same place with the same donation date, an A+ donor
    farther away, and a B- donor who is not available. *)
Definition db : Store.database :=
  {| Store.donors :=
       [ donor "D001" "O-" 30.05 31.24 "2024-06-01" 1;
         donor "D002" "O-" 30.05 31.24 "2024-06-01" 1;
         donor "D003" "A+" 30.10 31.30 "2024-09-20" 1;
         donor "D004" "B-" 30.06 31.25 "not recorded" 0 ];
     Store.inventory_movements :=
       [ movement "H001" "O+" 150 140 10 "2024-08-01";
         movement "H001" "O+" 100 95 5 "2024-09-01";
         movement "H002" "AB-" 20 10 9 "2024-09-01" ];
     Store.blood_usage_history :=
       [ usage "H001" "O+" "2024-09-30" 12;
         usage "H001" "O+" "2024-10-01" 14;
         usage "H001" "O+" "2024-01-15" 40;
         usage "H002" "A-" "2024-10-02" 3 ];
     Store.events :=
       [ event "Marathon" "2024-10-20" 1.5;
         event "Holiday" "2024-12-25" 2.0;
         event "Blood drive" "2024-11-02" 0.8 ] |}.

(** The same store with every donor marked unavailable. *)
Definition db_idle : Store.database :=
  {| Store.donors :=
       map (fun d => donor (Store.donor_id d) (Store.donor_blood_type d)
                           (Store.location_lat d) (Store.location_lng d)
                           "2024-06-01" 0)
           (Store.donors db);
     Store.inventory_movements := [];
     Store.blood_usage_history := [];
     Store.events := [] |}.

Definition hospital : Matching.location :=
  {| Matching.latitude := 30.05; Matching.longitude := 31.24 |}.


End Samples.

(** ** Sample inventory and requests for the endpoints *)

Module Scenario.

Definition inv_row (h bt : string) (units : Z) (stamp : string)
  : Inventory.inventory_row :=
  {| Inventory.inv_hospital_id := h;
     Inventory.inv_blood_type := bt;
     Inventory.current_units := units;
     Inventory.last_updated := stamp |}.

Definition inventory : Inventory.table :=
  [ inv_row "H001" "O+" 45 "2024-10-01T08:00:00";
    inv_row "H001" "O-" 0 "2024-10-01T08:00:00";
    inv_row "H002" "A-" 12 "2024-10-02T09:30:00";
    inv_row "H002" "B+" 28 "2024-10-02T09:30:00" ].

(** The clock of [Samples.rt], with the date 30 days back as well. *)
Definition rt : runtime :=
  {| now_days := now_days Samples.rt;
     now_stamp := now_stamp Samples.rt;
     strptime_ymd := strptime_ymd Samples.rt;
     sql_date := fun k =>
       if (k =? -30)%Z then "2024-09-03" else sql_date Samples.rt k;
     haversine_km := haversine_km Samples.rt |}.

(** Two draws of [RANDOM()] per row. *)
Definition random (i : nat) : Z * Z :=
  (Z.of_nat i * 7919 - 1234567, 987654321 - Z.of_nat i * 104729)%Z.

Definition complete_body : Emergency.emergency_body :=
  {| Emergency.eb_hospital_id := Some "H001";
     Emergency.eb_blood_type_needed := Some "AB+";
     Emergency.eb_units_needed := Some 2%Z;
     Emergency.eb_location :=
       Some {| Emergency.lb_latitude := Some 30.05;
               Emergency.lb_longitude := Some 31.24 |};
     Emergency.eb_urgency_level := Some "HIGH" |}.

End Scenario.

(** * Properties *)

(** ** The built-ins *)

Module PyFacts.

Lemma ltb_lt (a b : Q) : Py.ltb a b = true <-> a < b.
Proof.
  unfold Py.ltb. rewrite negb_true_iff.
  split; intro H.
  - apply Qnot_le_lt. intro Hle. apply Qle_bool_iff in Hle. congruence.
  - apply not_true_is_false. intro Hle. apply Qle_bool_iff in Hle.
    apply (Qlt_not_le _ _ H Hle).
Qed.

Lemma ltb_ge (a b : Q) : Py.ltb a b = false <-> b <= a.
Proof.
  unfold Py.ltb. rewrite negb_false_iff. apply Qle_bool_iff.
Qed.

Lemma leb_le (a b : Q) : Py.leb a b = true <-> a <= b.
Proof. apply Qle_bool_iff. Qed.

Lemma leb_gt (a b : Q) : Py.leb a b = false <-> b < a.
Proof.
  unfold Py.leb. split; intro H.
  - apply Qnot_le_lt. intro Hle. apply Qle_bool_iff in Hle. congruence.
  - apply not_true_is_false. intro Hle. apply Qle_bool_iff in Hle.
    apply (Qlt_not_le _ _ H Hle).
Qed.

Lemma min_Qmin (a b : Q) : Py.min a b == Qmin a b.
Proof.
  unfold Py.min. destruct (Py.ltb b a) eqn:E.
  - apply ltb_lt in E. symmetry. apply Q.min_r. apply Qlt_le_weak, E.
  - apply ltb_ge in E. symmetry. apply Q.min_l, E.
Qed.

Lemma max_Qmax (a b : Q) : Py.max a b == Qmax a b.
Proof.
  unfold Py.max. destruct (Py.ltb a b) eqn:E.
  - apply ltb_lt in E. symmetry. apply Q.max_r. apply Qlt_le_weak, E.
  - apply ltb_ge in E. symmetry. apply Q.max_l, E.
Qed.

Lemma str_in_In (x : string) (l : list string) : Py.str_in x l = true <-> In x l.
Proof.
  unfold Py.str_in. rewrite existsb_exists. split.
  - intros [y [Hy He]]. apply String.eqb_eq in He. now subst.
  - intro H. exists x. split; [exact H | apply String.eqb_refl].
Qed.

Lemma str_in_not_In (x : string) (l : list string) :
  Py.str_in x l = false <-> ~ In x l.
Proof.
  rewrite <- str_in_In. destruct (Py.str_in x l); split; congruence.
Qed.

End PyFacts.

(** Case analysis on the float comparisons of a goal, each test turned into
    the order fact it decides. *)
Ltac py_cases :=
  repeat match goal with
  | |- context [Py.leb ?a ?b] =>
      let E := fresh "E" in
      destruct (Py.leb a b) eqn:E;
      [apply PyFacts.leb_le in E | apply PyFacts.leb_gt in E]
  | |- context [Py.ltb ?a ?b] =>
      let E := fresh "E" in
      destruct (Py.ltb a b) eqn:E;
      [apply PyFacts.ltb_lt in E | apply PyFacts.ltb_ge in E]
  end.

(** ** Rounding *)

Module RoundFacts.

Lemma frac_range (x : Q) :
  0 <= x - inject_Z (Qfloor x) /\ x - inject_Z (Qfloor x) < 1.
Proof.
  pose proof (Qfloor_le x) as Hlo. pose proof (Qlt_floor x) as Hhi.
  rewrite inject_Z_plus in Hhi. change (inject_Z 1) with 1 in Hhi.
  split; lra.
Qed.

(** The three cases of [round_half_even], by the fractional part. *)
Lemma round_half_even_cases (x : Q) :
  let f := Qfloor x in
  let r := x - inject_Z f in
  (r < 0.5 /\ Py.round_half_even x = f)
  \/ (0.5 < r /\ Py.round_half_even x = (f + 1)%Z)
  \/ (r == 0.5 /\ Z.even f = true /\ Py.round_half_even x = f)
  \/ (r == 0.5 /\ Z.even f = false /\ Py.round_half_even x = (f + 1)%Z).
Proof.
  cbv zeta. unfold Py.round_half_even. cbv zeta.
  destruct (Py.ltb (x - inject_Z (Qfloor x)) 0.5) eqn:E1;
    [apply PyFacts.ltb_lt in E1; left; auto | apply PyFacts.ltb_ge in E1].
  destruct (Py.ltb 0.5 (x - inject_Z (Qfloor x))) eqn:E2;
    [apply PyFacts.ltb_lt in E2; right; left; auto | apply PyFacts.ltb_ge in E2].
  assert (Heq : x - inject_Z (Qfloor x) == 0.5) by lra.
  destruct (Z.even (Qfloor x)) eqn:Ev; auto 10.
Qed.

Lemma round_half_even_near (x : Q) :
  x - 0.5 <= inject_Z (Py.round_half_even x) <= x + 0.5.
Proof.
  pose proof (frac_range x) as [H0 H1].
  destruct (round_half_even_cases x) as [[Hr ->] | [[Hr ->] | [[Hr [_ ->]] | [Hr [_ ->]]]]];
    rewrite ?inject_Z_plus; change (inject_Z 1) with 1; split; lra.
Qed.

Lemma round_half_even_Z (z : Z) : Py.round_half_even (inject_Z z) = z.
Proof.
  destruct (round_half_even_cases (inject_Z z))
    as [[Hr ->] | [[Hr ->] | [[Hr [_ ->]] | [Hr [_ ->]]]]];
    rewrite Qfloor_Z in *; try reflexivity; lra.
Qed.

Lemma round_half_even_mono (x y : Q) :
  x <= y -> (Py.round_half_even x <= Py.round_half_even y)%Z.
Proof.
  intro Hxy.
  pose proof (Qfloor_resp_le x y Hxy) as Hf.
  pose proof (frac_range x) as [Hx0 Hx1].
  pose proof (frac_range y) as [Hy0 Hy1].
  destruct (Z.eq_dec (Qfloor x) (Qfloor y)) as [Heq | Hne].
  - destruct (round_half_even_cases x)
      as [[Hrx Hx] | [[Hrx Hx] | [[Hrx [Hex Hx]] | [Hrx [Hex Hx]]]]];
    destruct (round_half_even_cases y)
      as [[Hry Hy] | [[Hry Hy] | [[Hry [Hey Hy]] | [Hry [Hey Hy]]]]];
    rewrite Hx, Hy; rewrite <- ?Heq in *; try lia; try lra; congruence.
  - assert (Hlt : (Qfloor x + 1 <= Qfloor y)%Z) by lia.
    apply Z.le_trans with (Qfloor x + 1)%Z.
    + destruct (round_half_even_cases x)
        as [[_ ->] | [[_ ->] | [[_ [_ ->]] | [_ [_ ->]]]]]; lia.
    + apply Z.le_trans with (Qfloor y); [exact Hlt | ].
      destruct (round_half_even_cases y)
        as [[_ ->] | [[_ ->] | [[_ [_ ->]] | [_ [_ ->]]]]]; lia.
Qed.

Lemma round_half_even_comp (x y : Q) :
  x == y -> Py.round_half_even x = Py.round_half_even y.
Proof.
  intro Hxy. pose proof (Qfloor_comp x y Hxy) as Hf.
  destruct (round_half_even_cases x)
    as [[Hrx Hx] | [[Hrx Hx] | [[Hrx [Hex Hx]] | [Hrx [Hex Hx]]]]];
  destruct (round_half_even_cases y)
    as [[Hry Hy] | [[Hry Hy] | [[Hry [Hey Hy]] | [Hry [Hey Hy]]]]];
  rewrite Hx, Hy; rewrite <- ?Hf in *; try reflexivity; try lra; congruence.
Qed.

Lemma scale_pos (n : nat) : 0 < inject_Z (10 ^ Z.of_nat n).
Proof.
  rewrite <- (Zlt_Qlt 0). apply Z.pow_pos_nonneg; lia.
Qed.

(** [round] is monotone. *)
Lemma round_mono (x y : Q) (n : nat) : x <= y -> Py.round x n <= Py.round y n.
Proof.
  intro Hxy. unfold Py.round. cbv zeta.
  pose proof (scale_pos n) as Hs.
  apply Qmult_le_compat_r.
  - rewrite <- Zle_Qle. apply round_half_even_mono.
    apply Qmult_le_compat_r; [exact Hxy | lra].
  - apply Qlt_le_weak. now apply Qinv_lt_0_compat.
Qed.

(** [round] leaves a value with at most [n] decimals as it is. *)
Lemma round_exact (k : Z) (n : nat) :
  Py.round (inject_Z k / inject_Z (10 ^ Z.of_nat n)) n
  == inject_Z k / inject_Z (10 ^ Z.of_nat n).
Proof.
  unfold Py.round. cbv zeta.
  pose proof (scale_pos n) as Hs.
  assert (Hk : inject_Z k / inject_Z (10 ^ Z.of_nat n) * inject_Z (10 ^ Z.of_nat n)
               == inject_Z k).
  { field. lra. }
  rewrite (round_half_even_comp _ _ Hk), round_half_even_Z.
  reflexivity.
Qed.

(** [round] stays within half a unit of the last decimal it keeps.  The
    returned values are stated through this bound: at a value halfway
    between two decimals the float that the code rounds may lie on either
    side of it. *)
Lemma round_near (x : Q) (n : nat) :
  Qabs (Py.round x n - x) <= (1 # 2) / inject_Z (10 ^ Z.of_nat n).
Proof.
  unfold Py.round. cbv zeta.
  pose proof (scale_pos n) as Hs.
  set (s := inject_Z (10 ^ Z.of_nat n)) in *.
  pose proof (round_half_even_near (x * s)) as [Hlo Hhi].
  set (r := inject_Z (Py.round_half_even (x * s))) in *. clearbody r.
  assert (Hq : 0 < / s) by now apply Qinv_lt_0_compat.
  assert (Hsq : s * / s == 1) by (apply Qmult_inv_r; lra).
  unfold Qdiv. set (q := / s) in *. clearbody q s.
  assert (Hx : x == x * s * q) by (rewrite <- Qmult_assoc, Hsq; ring).
  assert (H1 : 0 <= (r - (x * s - 0.5)) * q) by (apply Qmult_le_0_compat; lra).
  assert (H2 : 0 <= (x * s + 0.5 - r) * q) by (apply Qmult_le_0_compat; lra).
  apply Qabs_Qle_condition. split; lra.
Qed.

Lemma round_near_1 (x : Q) : Qabs (Py.round x 1 - x) <= 0.05.
Proof.
  apply (Qle_trans _ _ _ (round_near x 1)). intro H. discriminate H.
Qed.

Lemma round_near_2 (x : Q) : Qabs (Py.round x 2 - x) <= 0.005.
Proof.
  apply (Qle_trans _ _ _ (round_near x 2)). intro H. discriminate H.
Qed.

Lemma round_near_3 (x : Q) : Qabs (Py.round x 3 - x) <= 0.0005.
Proof.
  apply (Qle_trans _ _ _ (round_near x 3)). intro H. discriminate H.
Qed.

End RoundFacts.

(** ** CompatibilityTable *)

Import Matching.

(** A type outside the table misses every key of the dict. *)
Lemma compatibility_miss (bt : string) :
  ~ In bt abo_rh_types -> _get_compatible_blood_types bt = [bt].
Proof.
  intro Hout. unfold _get_compatible_blood_types, compatibility.
  cbn [Py.dict_get].
  repeat match goal with
  | |- context [String.eqb ?k bt] =>
      destruct (String.eqb_spec k bt) as [Heq | _];
      [exfalso; apply Hout; rewrite <- Heq; cbn; tauto | ]
  end.
  reflexivity.
Qed.

(** C4. The compatibility lookup gives, for 'AB+', all 8 ABO/Rh types (each
    once); for 'O-', the one type 'O-'; and for a requested type outside the
    8-member set, the requested type alone. *)
Theorem compatible_donors_lookup :
  (NoDup (_get_compatible_blood_types "AB+")
   /\ List.length (_get_compatible_blood_types "AB+") = 8%nat
   /\ forall t, In t (_get_compatible_blood_types "AB+") <-> In t abo_rh_types)
  /\ _get_compatible_blood_types "O-" = ["O-"]
  /\ forall bt, ~ In bt abo_rh_types -> _get_compatible_blood_types bt = [bt].
Proof.
  split; [ | split ].
  - split; [ | split ].
    + cbv [_get_compatible_blood_types compatibility Py.dict_get].
      cbn.
      repeat (constructor; [ cbn; intuition discriminate | ]).
      constructor.
    + reflexivity.
    + intro t. reflexivity.
  - reflexivity.
  - apply compatibility_miss.
Qed.

(** The lookup on a lower-case spelling, a type outside the table. *)
Lemma compatible_donors_lookup_witness :
  ~ In "ab+" abo_rh_types /\ _get_compatible_blood_types "ab+" = ["ab+"].
Proof.
  split.
  - cbn. intuition discriminate.
  - apply (proj2 (proj2 compatible_donors_lookup)).
    cbn. intuition discriminate.
Defined.

(** ** DonorScorer *)

Import DonorScorerSpec.

(** The four locals of [_calculate_matching_score], each against the rule
    the specification gives for it. *)

Lemma blood_score_spec (donor needed : string) :
  bloodScore donor needed
    (if String.eqb donor needed then 1.0
     else if Py.str_in donor (_get_compatible_blood_types needed) then 0.7
          else 0.0).
Proof.
  destruct (String.eqb_spec donor needed) as [Heq | Hne].
  - now apply blood_exact.
  - destruct (Py.str_in donor (_get_compatible_blood_types needed)) eqn:Hin.
    + apply blood_compatible; [exact Hne | now apply PyFacts.str_in_In].
    + apply blood_otherwise; [exact Hne | now apply PyFacts.str_in_not_In].
Qed.

Lemma distance_score_spec (distance : Q) :
  distanceScore distance
    (if Py.leb distance 5 then 1.0
     else if Py.leb distance 10 then 0.7
     else if Py.leb distance 20 then 0.4
     else Py.max 0.1 (1.0 - distance / 100)).
Proof.
  destruct (Py.leb distance 5) eqn:E5;
    [apply PyFacts.leb_le in E5; now apply distance_within_5
    | apply PyFacts.leb_gt in E5].
  destruct (Py.leb distance 10) eqn:E10;
    [apply PyFacts.leb_le in E10; now apply distance_within_10
    | apply PyFacts.leb_gt in E10].
  destruct (Py.leb distance 20) eqn:E20;
    [apply PyFacts.leb_le in E20; now apply distance_within_20
    | apply PyFacts.leb_gt in E20].
  apply distance_beyond; [exact E20 | apply PyFacts.max_Qmax].
Qed.

Lemma donation_score_spec (rt : runtime) (last_donation : date_field) :
  recencyScore rt last_donation
    (match days_since_donation rt last_donation with
     | Some days_since =>
         if (90 <=? days_since)%Z then 1.0
         else if (56 <=? days_since)%Z then 0.8
         else 0.3
     | None => 0.5
     end).
Proof.
  destruct last_donation as [s | ]; cbn [days_since_donation].
  - destruct (strptime_ymd rt s) as [day | ] eqn:Hparse.
    + destruct (Z.leb_spec 90 (now_ordinal rt - day)) as [H90 | H90].
      * now apply (recency_90 rt (DateText s) s day).
      * destruct (Z.leb_spec 56 (now_ordinal rt - day)) as [H56 | H56].
        -- apply (recency_56 rt (DateText s) s day); auto with zarith.
        -- now apply (recency_otherwise rt (DateText s) s day).
    + now apply (recency_unparseable rt (DateText s) s).
  - now apply recency_missing.
Qed.

Lemma urgency_multiplier_spec (urgency : string) :
  urgencyMultiplier urgency (Py.dict_get urgency_table urgency 1.0).
Proof.
  unfold urgency_table. cbn [Py.dict_get].
  destruct (String.eqb_spec "CRITICAL" urgency) as [H | Hc];
    [now apply urgency_critical | ].
  destruct (String.eqb_spec "HIGH" urgency) as [H | Hh];
    [now apply urgency_high | ].
  destruct (String.eqb_spec "MEDIUM" urgency) as [H | Hm];
    [now apply urgency_medium | ].
  destruct (String.eqb_spec "LOW" urgency) as [H | Hl];
    [now apply urgency_low | ].
  apply urgency_other. cbn. intuition congruence.
Qed.

(** Each rule set determines its value. *)

Lemma bloodScore_functional (d r : string) (x y : Q) :
  bloodScore d r x -> bloodScore d r y -> x = y.
Proof.
  intros Hx Hy. destruct Hx; destruct Hy; try reflexivity; contradiction.
Qed.

Lemma distanceScore_functional (d x y : Q) :
  distanceScore d x -> distanceScore d y -> x == y.
Proof.
  intros Hx Hy. destruct Hx; destruct Hy; try reflexivity; lra.
Qed.

Lemma recencyScore_functional (rt : runtime) (l : date_field) (x y : Q) :
  recencyScore rt l x -> recencyScore rt l y -> x = y.
Proof.
  intros Hx Hy.
  destruct Hx; destruct Hy; try reflexivity; subst;
    try discriminate;
    match goal with
    | H : DateText _ = DateText _ |- _ => injection H as ->
    end;
    match goal with
    | H1 : strptime_ymd rt ?s = _, H2 : strptime_ymd rt ?s = _ |- _ =>
        rewrite H1 in H2; first [discriminate | injection H2 as ->]
    end; lia.
Qed.

Lemma urgencyMultiplier_functional (u : string) (x y : Q) :
  urgencyMultiplier u x -> urgencyMultiplier u y -> x = y.
Proof.
  intros Hx Hy.
  destruct Hx; destruct Hy; try reflexivity; subst; try discriminate;
    match goal with
    | H : ~ In _ _ |- _ => exfalso; apply H; cbn; tauto
    end.
Qed.

Lemma donorScore_compat (b d d' r m : Q) :
  d == d' -> donorScore b d r m == donorScore b d' r m.
Proof.
  intro H. unfold donorScore. now rewrite H.
Qed.

(** C1. The donor score is the weighted sum of the blood-type, distance and
    recency terms plus 0.1, times the urgency multiplier, capped at 1.0, with
    each term as the specification's rules give it: the rules always give a
    value for each term, and whatever values they give, the score is that
    formula of them. *)
Theorem donor_score_formula (rt : runtime) (donor_blood_type needed_blood_type : string)
    (distance : Q) (last_donation : date_field) (urgency : string) :
  (exists b d r m,
      bloodScore donor_blood_type needed_blood_type b
      /\ distanceScore distance d
      /\ recencyScore rt last_donation r
      /\ urgencyMultiplier urgency m)
  /\ (forall b d r m,
         bloodScore donor_blood_type needed_blood_type b ->
         distanceScore distance d ->
         recencyScore rt last_donation r ->
         urgencyMultiplier urgency m ->
         _calculate_matching_score rt donor_blood_type needed_blood_type
           distance last_donation urgency
         == donorScore b d r m).
Proof.
  split.
  - eexists. eexists. eexists. eexists.
    split; [apply blood_score_spec | ].
    split; [apply distance_score_spec | ].
    split; [apply donation_score_spec | apply urgency_multiplier_spec].
  - intros b d r m Hb Hd Hr Hm.
    rewrite (bloodScore_functional _ _ _ _ Hb (blood_score_spec _ _)).
    rewrite (recencyScore_functional _ _ _ _ Hr (donation_score_spec _ _)).
    rewrite (urgencyMultiplier_functional _ _ _ Hm (urgency_multiplier_spec _)).
    rewrite (donorScore_compat _ _ _ _ _
               (distanceScore_functional _ _ _ Hd (distance_score_spec _))).
    unfold _calculate_matching_score, donorScore. cbv zeta.
    apply PyFacts.min_Qmin.
Qed.

(** The score of an O- donor 7 km away, with no donation date on file, for an
    A+ request of HIGH urgency: (0.7*0.4 + 0.7*0.3 + 0.5*0.2 + 0.1) * 1.1. *)
Lemma donor_score_formula_witness :
  _calculate_matching_score Samples.rt "O-" "A+" 7 DateNull "HIGH"
  == donorScore 0.7 0.7 0.5 1.1.
Proof.
  apply (proj2 (donor_score_formula Samples.rt "O-" "A+" 7 DateNull "HIGH")).
  - apply blood_compatible; [discriminate | cbn; tauto].
  - apply distance_within_10; reflexivity || (intro H; discriminate H).
  - apply recency_missing; reflexivity.
  - apply urgency_high; reflexivity.
Defined.

(** The bounds of the four locals of the score. *)

Lemma distance_score_bounds (distance : Q) :
  let distance_score :=
    if Py.leb distance 5 then 1.0
    else if Py.leb distance 10 then 0.7
    else if Py.leb distance 20 then 0.4
    else Py.max 0.1 (1.0 - distance / 100) in
  0.1 <= distance_score <= 1.0.
Proof.
  cbv zeta. unfold Py.max, Qdiv. change (/ 100) with (1 # 100).
  py_cases; lra.
Qed.

Lemma urgency_multiplier_cases (urgency : string) :
  let m := Py.dict_get urgency_table urgency 1.0 in
  m = 1.2 \/ m = 1.1 \/ m = 1.0 \/ m = 0.9.
Proof.
  cbv zeta. unfold urgency_table. cbn [Py.dict_get].
  repeat match goal with
  | |- context [String.eqb ?k urgency] => destruct (String.eqb k urgency)
  end; auto.
Qed.

(** C3. For a distance >= 0 and any donor type, requested type, donation date
    and urgency (documented or not), the score lies in [0, 1.0]: it is at most
    1.0, and it is at least 0.1 * 0.9, the base term under the smallest
    multiplier, hence positive. *)
Theorem donor_score_range (rt : runtime) (donor_blood_type needed_blood_type : string)
    (distance : Q) (last_donation : date_field) (urgency : string) :
  0 <= distance ->
  let score :=
    _calculate_matching_score rt donor_blood_type needed_blood_type
      distance last_donation urgency in
  0 <= score <= 1.0 /\ 0 < 0.1 * 0.9 <= score.
Proof.
  intros _. cbv zeta. unfold _calculate_matching_score. cbv zeta.
  pose proof (distance_score_bounds distance) as Hd. cbv zeta in Hd.
  set (distance_score := if Py.leb distance 5 then _ else _) in *.
  clearbody distance_score.
  pose proof (urgency_multiplier_cases urgency) as Hm. cbv zeta in Hm.
  set (m := Py.dict_get urgency_table urgency 1.0) in *. clearbody m.
  set (blood_score := if String.eqb _ _ then _ else _).
  assert (Hb : 0 <= blood_score <= 1.0).
  { subst blood_score.
    destruct (String.eqb _ _); [lra | ].
    destruct (Py.str_in _ _); lra. }
  clearbody blood_score.
  set (donation_score := match days_since_donation _ _ with Some _ => _ | None => _ end).
  assert (Hr : 0.3 <= donation_score <= 1.0).
  { subst donation_score.
    destruct (days_since_donation rt last_donation) as [n | ]; [ | lra].
    destruct (90 <=? n)%Z; [lra | ].
    destruct (56 <=? n)%Z; lra. }
  clearbody donation_score.
  unfold Py.min.
  destruct Hm as [-> | [-> | [-> | ->]]]; py_cases; lra.
Qed.

(** The range at the sample request: a B+ donor 42 km away for an O- request
    of LOW urgency. *)
Lemma donor_score_range_witness :
  0 <= _calculate_matching_score Samples.rt "B+" "O-" 42 (DateText "2024-09-20") "LOW" <= 1.0
  /\ 0 < 0.1 * 0.9
       <= _calculate_matching_score Samples.rt "B+" "O-" 42 (DateText "2024-09-20") "LOW".
Proof.
  apply (donor_score_range Samples.rt "B+" "O-" 42 (DateText "2024-09-20") "LOW").
  intro H. discriminate H.
Defined.

(** ** MatchingService *)

(** The insertion ordering meets what [sort_values] promises. *)

Lemma score_desc_trans : Relation_Definitions.transitive _ score_desc.
Proof.
  intros a b c Hab Hbc. unfold score_desc in *.
  apply (Qle_trans _ (matching_score b)); assumption.
Qed.

Lemma insert_before_perm (x : scored_donor) (l : list scored_donor) :
  Permutation (x :: l) (insert_before x l).
Proof.
  induction l as [ | y l IH]; cbn.
  - apply Permutation_refl.
  - destruct (Py.leb (matching_score y) (matching_score x)).
    + apply Permutation_refl.
    + apply perm_trans with (y :: x :: l).
      * apply perm_swap.
      * apply perm_skip, IH.
Qed.

Lemma insert_before_hd (y x : scored_donor) (l : list scored_donor) :
  score_desc y x -> HdRel score_desc y l -> HdRel score_desc y (insert_before x l).
Proof.
  intros Hyx Hl. destruct l as [ | z l]; cbn.
  - now constructor.
  - destruct (Py.leb (matching_score z) (matching_score x)).
    + now constructor.
    + constructor. now inversion Hl.
Qed.

Lemma insert_before_sorted (x : scored_donor) (l : list scored_donor) :
  Sorted score_desc l -> Sorted score_desc (insert_before x l).
Proof.
  induction l as [ | y l IH]; cbn; intro Hs.
  - repeat constructor.
  - inversion Hs as [ | ? ? Hl Hhd]; subst.
    destruct (Py.leb (matching_score y) (matching_score x)) eqn:E.
    + apply PyFacts.leb_le in E. constructor; [exact Hs | now constructor].
    + apply PyFacts.leb_gt in E. constructor; [now apply IH | ].
      apply insert_before_hd; [ | exact Hhd].
      unfold score_desc. now apply Qlt_le_weak.
Qed.

Lemma sort_ties_kept_perm (l : list scored_donor) :
  Permutation l (sort_ties_kept l).
Proof.
  induction l as [ | x l IH]; cbn.
  - constructor.
  - apply perm_trans with (x :: sort_ties_kept l).
    + apply perm_skip, IH.
    + apply insert_before_perm.
Qed.

Lemma sort_ties_kept_desc (l : list scored_donor) :
  StronglySorted score_desc (sort_ties_kept l).
Proof.
  apply Sorted_StronglySorted; [exact score_desc_trans | ].
  induction l as [ | x l IH]; cbn.
  - constructor.
  - apply insert_before_sorted, IH.
Qed.

(** [sort_values] keeping ties in input order. *)
Definition ties_kept : sort_values :=
  {| sort_rows := sort_ties_kept;
     sort_rows_perm := sort_ties_kept_perm;
     sort_rows_desc := sort_ties_kept_desc |}.



Lemma head_nonneg {A : Type} (n : Z) (l : list A) :
  (0 <= n)%Z -> Py.head n l = firstn (Z.to_nat n) l.
Proof.
  intro H. unfold Py.head. apply Z.leb_le in H. now rewrite H.
Qed.

Lemma match_donors_matched (rt : runtime) (srt : sort_values) (db : Store.database)
    (hospital_id blood_type : string) (units_needed : Z)
    (hospital_location : location) (urgency_level : string) :
  matched_donors
    (match_donors rt srt db hospital_id blood_type units_needed
                  hospital_location urgency_level)
  = map matched_entry
        (top_donors srt units_needed
           (candidates rt db blood_type hospital_location urgency_level)).
Proof.
  unfold match_donors, candidates.
  destruct (query_donors db (_get_compatible_blood_types blood_type)) as [ | d ds] eqn:Hq.
  - cbn [matched_donors map]. unfold top_donors.
    assert (Hnil : sort_rows srt [] = []).
    { apply Permutation_nil, (sort_rows_perm srt). }
    rewrite Hnil. unfold Py.head.
    destruct (0 <=? Z.min 10 (units_needed * 2))%Z; now rewrite firstn_nil.
  - reflexivity.
Qed.




(** C7. When the query for available donors of a compatible type returns no
    row, [match_donors] returns a result (it is a total function: nothing is
    raised) whose matched-donor list is empty, whose [total_matches] is 0 and
    whose message is 'No available donors found'. *)
Theorem match_donors_no_donors (rt : runtime) (srt : sort_values) (db : Store.database)
    (hospital_id blood_type : string) (units_needed : Z)
    (hospital_location : location) (urgency_level : string) :
  query_donors db (_get_compatible_blood_types blood_type) = [] ->
  let result :=
    match_donors rt srt db hospital_id blood_type units_needed
                 hospital_location urgency_level in
  matched_donors result = []
  /\ total_matches result = 0%Z
  /\ message result = Some "No available donors found".
Proof.
  intro Hq. cbv zeta. unfold match_donors. rewrite Hq.
  repeat split.
Qed.

(** An AB+ request on the store where every donor is unavailable. *)
Lemma match_donors_no_donors_witness :
  query_donors Samples.db_idle (_get_compatible_blood_types "AB+") = []
  /\ matched_donors
       (match_donors Samples.rt ties_kept Samples.db_idle "H001" "AB+" 3
                     Samples.hospital "CRITICAL") = []
  /\ total_matches
       (match_donors Samples.rt ties_kept Samples.db_idle "H001" "AB+" 3
                     Samples.hospital "CRITICAL") = 0%Z
  /\ message
       (match_donors Samples.rt ties_kept Samples.db_idle "H001" "AB+" 3
                     Samples.hospital "CRITICAL")
     = Some "No available donors found".
Proof.
  split; [reflexivity | ].
  apply (match_donors_no_donors Samples.rt ties_kept Samples.db_idle "H001" "AB+" 3
           Samples.hospital "CRITICAL").
  reflexivity.
Defined.

(** ** ShortageEstimator *)

Import Prediction.


(** What [_calculate_risk] returns of the locals. *)
Lemma calculate_risk_returns (rt : runtime) (current_units avg_daily_usage : Q)
    (hospital_id blood_type : string) :
  let v := calculate_risk_locals current_units avg_daily_usage in
  let p := _calculate_risk rt current_units avg_daily_usage hospital_id blood_type in
  p_risk_level p = risk_level v /\ p_risk_score p = Py.round (risk_score v) 2.
Proof.
  split; reflexivity.
Qed.

(** The branch taken, by the days remaining. *)
Lemma calculate_risk_branches (current_units avg_daily_usage : Q) :
  let v := calculate_risk_locals current_units avg_daily_usage in
  let d := days_remaining v in
  (d <= 3 /\ risk_level v = "CRITICAL"
   /\ risk_score v = Py.min (0.90 + (3 - d) * 0.033) 1.0)
  \/ (3 < d /\ d <= 7 /\ risk_level v = "HIGH"
      /\ risk_score v = 0.60 + (7 - d) * 0.075)
  \/ (7 < d /\ d <= 14 /\ risk_level v = "MEDIUM"
      /\ risk_score v = 0.30 + (14 - d) * 0.043)
  \/ (14 < d /\ risk_level v = "LOW"
      /\ risk_score v = Py.max 0.10 (Py.min 0.30 (30 / d))).
Proof.
  cbv zeta. unfold calculate_risk_locals.
  set (usage := if Qeq_bool avg_daily_usage 0 then 1 else avg_daily_usage).
  set (d := current_units / usage).
  destruct (Py.leb d 3) eqn:E3;
    [apply PyFacts.leb_le in E3; left; cbn; auto | apply PyFacts.leb_gt in E3].
  destruct (Py.leb d 7) eqn:E7;
    [apply PyFacts.leb_le in E7; right; left; cbn; auto | apply PyFacts.leb_gt in E7].
  destruct (Py.leb d 14) eqn:E14;
    [apply PyFacts.leb_le in E14; right; right; left; cbn; auto
    | apply PyFacts.leb_gt in E14].
  right; right; right; cbn; auto.
Qed.



(** With no negative input the days remaining are not negative. *)
Lemma days_remaining_nonneg (current_units avg_daily_usage : Q) :
  0 <= current_units -> 0 <= avg_daily_usage ->
  0 <= days_remaining (calculate_risk_locals current_units avg_daily_usage).
Proof.
  intros Hu Ha.
  assert (Hd : days_remaining (calculate_risk_locals current_units avg_daily_usage)
               = current_units
                 / (if Qeq_bool avg_daily_usage 0 then 1 else avg_daily_usage)).
  { unfold calculate_risk_locals.
    repeat match goal with
    | |- context [Py.leb ?a ?b] => destruct (Py.leb a b)
    end; reflexivity. }
  rewrite Hd. apply Qle_shift_div_l.
  - destruct (Qeq_bool avg_daily_usage 0) eqn:E; [reflexivity | ].
    apply Qeq_bool_neq in E. lra.
  - lra.
Qed.

(** C10, as the code has it.  For [current_units >= 0] and
    [avg_daily_usage >= 0] the risk score, before the output rounding, lies in
    [[0.10, 1.0]]: within [[0.90, 1.0]] on the CRITICAL branch, at least 0.30
    and below 0.91 on the HIGH and MEDIUM branches, within [[0.10, 0.30]] on
    the LOW branch. *)
Theorem risk_score_range (current_units avg_daily_usage : Q) :
  0 <= current_units -> 0 <= avg_daily_usage ->
  let v := calculate_risk_locals current_units avg_daily_usage in
  0.10 <= risk_score v <= 1.0
  /\ (risk_level v = "CRITICAL" -> 0.90 <= risk_score v <= 1.0)
  /\ (risk_level v = "HIGH" \/ risk_level v = "MEDIUM" ->
      0.30 <= risk_score v /\ risk_score v < 0.91)
  /\ (risk_level v = "LOW" -> 0.10 <= risk_score v <= 0.30).
Proof.
  intros Hu Ha. cbv zeta.
  pose proof (calculate_risk_branches current_units avg_daily_usage) as Hb.
  cbv zeta in Hb.
  pose proof (days_remaining_nonneg current_units avg_daily_usage Hu Ha) as Hd.
  set (v := calculate_risk_locals current_units avg_daily_usage) in *.
  destruct Hb as [[H1 [Hl Hs]] | [[H1 [H2 [Hl Hs]]] | [[H1 [H2 [Hl Hs]]] | [H1 [Hl Hs]]]]];
    rewrite Hl, Hs; unfold Py.max, Py.min;
    try (set (q := 30 / days_remaining v) in *; clearbody q);
    (repeat split; intros;
     repeat match goal with
     | H : _ = _ \/ _ = _ |- _ => destruct H as [H | H]
     end;
     try match goal with
     | H : @eq string _ _ |- _ => discriminate H
     end;
     py_cases; lra).
Qed.

(** The range at 14 units used at 1 a day: 14 days, MEDIUM, score 0.30. *)
Lemma risk_score_range_witness :
  let v := calculate_risk_locals 14 1 in
  risk_level v = "MEDIUM"
  /\ 0.10 <= risk_score v <= 1.0
  /\ 0.30 <= risk_score v /\ risk_score v < 0.91.
Proof.
  cbv zeta.
  destruct (risk_score_range 14 1) as [Hall [_ [Hmid _]]].
  - intro H. discriminate H.
  - intro H. discriminate H.
  - split; [reflexivity | ]. split; [exact Hall | ].
    apply Hmid. right. reflexivity.
Defined.

(** C10, as worded, fails at 14 units used at 1 a day: the branch is MEDIUM
    and the score is [0.30 + (14 - 14) * 0.043 = 0.30], which is not strictly
    above 0.30. *)
Lemma risk_score_medium_attains_030 :
  0 <= 14 /\ 0 <= 1 /\ ~ risk_score_in_stated_ranges 14 1.
Proof.
  split; [intro H; discriminate H | ].
  split; [intro H; discriminate H | ].
  unfold risk_score_in_stated_ranges. cbv zeta.
  intros [_ [_ [Hmid _]]].
  destruct Hmid as [Hlt _]; [right; reflexivity | ].
  vm_compute in Hlt. discriminate Hlt.
Qed.

(** ** Grouping ([GROUP BY hospital_id, blood_type]) *)

Lemma key_eqb_eq (k1 k2 : Store.group_key) : Store.key_eqb k1 k2 = true <-> k1 = k2.
Proof.
  destruct k1 as [h1 b1], k2 as [h2 b2]. unfold Store.key_eqb. cbn.
  rewrite andb_true_iff, !String.eqb_eq.
  split; [intros [-> ->]; reflexivity | intro H; now inversion H].
Qed.

Lemma key_eqb_refl (k : Store.group_key) : Store.key_eqb k k = true.
Proof. now apply key_eqb_eq. Qed.

Lemma distinct_keys_In (ks : list Store.group_key) (k : Store.group_key) :
  In k (Store.distinct_keys ks) <-> In k ks.
Proof.
  induction ks as [ | k0 ks IH]; cbn; [tauto | ].
  rewrite filter_In, IH. split.
  - intros [H | [H _]]; auto.
  - intros [H | H]; [now left | ].
    destruct (Store.key_eqb k0 k) eqn:E.
    + left. now apply key_eqb_eq.
    + right. split; [exact H | reflexivity].
Qed.

Lemma distinct_keys_NoDup (ks : list Store.group_key) : NoDup (Store.distinct_keys ks).
Proof.
  induction ks as [ | k0 ks IH]; cbn; constructor.
  - rewrite filter_In. intros [_ H]. now rewrite key_eqb_refl in H.
  - now apply NoDup_filter.
Qed.

(** Rows put in order are the same rows. *)
Lemma put_in_order_perm {A : Type} (le : A -> A -> bool) (x : A) (l : list A) :
  Permutation (x :: l) (Store.put_in_order le x l).
Proof.
  induction l as [ | y l IH]; cbn [Store.put_in_order]; [reflexivity | ].
  destruct (le x y); [reflexivity | ].
  rewrite perm_swap. now apply perm_skip.
Qed.

Lemma in_order_perm {A : Type} (le : A -> A -> bool) (l : list A) :
  Permutation l (Store.in_order le l).
Proof.
  unfold Store.in_order.
  induction l as [ | x l IH]; cbn [fold_right]; [reflexivity | ].
  rewrite <- put_in_order_perm. now apply perm_skip.
Qed.

(** Under a total order they are in ascending order. *)
Lemma put_in_order_ascending {A : Type} (le : A -> A -> bool) (x : A) (l : list A) :
  (forall a b, le a b = false -> le b a = true) ->
  Sorted (fun a b => le a b = true) l ->
  Sorted (fun a b => le a b = true) (Store.put_in_order le x l).
Proof.
  intros Htotal Hl.
  induction l as [ | y l IH]; cbn [Store.put_in_order].
  - repeat constructor.
  - destruct (le x y) eqn:Exy.
    + constructor; [exact Hl | now constructor].
    + apply Sorted_inv in Hl. destruct Hl as [Hl Hy].
      constructor; [now apply IH | ].
      destruct l as [ | z l]; cbn [Store.put_in_order].
      * constructor. now apply Htotal.
      * destruct (le x z); constructor; [now apply Htotal | now inversion Hy].
Qed.

Lemma in_order_ascending {A : Type} (le : A -> A -> bool) (l : list A) :
  (forall a b, le a b = false -> le b a = true) ->
  Sorted (fun a b => le a b = true) (Store.in_order le l).
Proof.
  intro Htotal. unfold Store.in_order.
  induction l as [ | x l IH]; cbn [fold_right]; [constructor | ].
  now apply put_in_order_ascending.
Qed.

(** Rows that all compare equal stay as they are. *)
Lemma in_order_same {A : Type} (le : A -> A -> bool) (l : list A) :
  (forall a b, In a l -> In b l -> le a b = true) -> Store.in_order le l = l.
Proof.
  unfold Store.in_order.
  induction l as [ | x l IH]; intro Hle; cbn [fold_right]; [reflexivity | ].
  rewrite IH by (intros a b Ha Hb; apply Hle; now right).
  destruct l as [ | y l]; cbn [Store.put_in_order]; [reflexivity | ].
  rewrite Hle; [reflexivity | now left | right; now left].
Qed.

Lemma key_leb_total (k1 k2 : Store.group_key) :
  Store.key_leb k1 k2 = false -> Store.key_leb k2 k1 = true.
Proof.
  unfold Store.key_leb, Store.text_le. rewrite (String.eqb_sym (fst k2)).
  destruct (String.eqb (fst k1) (fst k2)); intro H.
  - destruct (String.leb_total (snd k1) (snd k2)); congruence.
  - destruct (String.leb_total (fst k1) (fst k2)); congruence.
Qed.

(** The group keys are the keys of the rows, each once, in ascending
    order. *)
Lemma group_keys_In (ks : list Store.group_key) (k : Store.group_key) :
  In k (Store.group_keys ks) <-> In k ks.
Proof.
  unfold Store.group_keys. split; intro H.
  - apply distinct_keys_In.
    exact (Permutation_in _ (Permutation_sym (in_order_perm _ _)) H).
  - apply (Permutation_in _ (in_order_perm _ _)). now apply distinct_keys_In.
Qed.

Lemma group_keys_NoDup (ks : list Store.group_key) : NoDup (Store.group_keys ks).
Proof.
  unfold Store.group_keys.
  apply (Permutation_NoDup (in_order_perm _ _)), distinct_keys_NoDup.
Qed.

Lemma group_keys_ascending (ks : list Store.group_key) :
  Sorted (fun k1 k2 => Store.key_leb k1 k2 = true) (Store.group_keys ks).
Proof.
  apply in_order_ascending, key_leb_total.
Qed.

Lemma sumZ_map_add {K : Type} (g h : K -> Z) (ks : list K) :
  Py.sumZ (map (fun k => g k + h k)%Z ks)
  = (Py.sumZ (map g ks) + Py.sumZ (map h ks))%Z.
Proof.
  unfold Py.sumZ.
  induction ks as [ | k ks IH]; cbn; [reflexivity | rewrite IH; lia].
Qed.

Lemma sumZ_map_zero {K : Type} (g : K -> Z) (ks : list K) :
  (forall k, In k ks -> g k = 0%Z) -> Py.sumZ (map g ks) = 0%Z.
Proof.
  unfold Py.sumZ.
  induction ks as [ | k ks IH]; cbn; intro H; [reflexivity | ].
  rewrite (H k), IH; auto.
Qed.

(** Among distinct keys exactly one is the key of a given row. *)
Lemma sumZ_one_key (ks : list Store.group_key) (k0 : Store.group_key) (c : Z) :
  NoDup ks -> In k0 ks ->
  Py.sumZ (map (fun k => if Store.key_eqb k k0 then c else 0%Z) ks) = c.
Proof.
  induction ks as [ | k ks IH]; intros Hnd Hin; [contradiction | ].
  inversion Hnd as [ | ? ? Hnotin Hnd']; subst.
  change (((if Store.key_eqb k k0 then c else 0)
           + Py.sumZ (map (fun k => if Store.key_eqb k k0 then c else 0) ks))%Z = c).
  destruct (Store.key_eqb k k0) eqn:E.
  - apply key_eqb_eq in E. subst k0.
    rewrite sumZ_map_zero; [lia | ].
    intros k' Hk'. destruct (Store.key_eqb k' k) eqn:E'; [ | reflexivity].
    apply key_eqb_eq in E'. now subst k'.
  - destruct Hin as [-> | Hin]; [now rewrite key_eqb_refl in E | ].
    rewrite IH; auto.
Qed.

(** The groups partition the rows: a column summed group by group is the
    column summed over all rows. *)
Lemma group_sums_partition {A : Type} (key : A -> Store.group_key) (f : A -> Z)
    (rows : list A) (ks : list Store.group_key) :
  NoDup ks -> (forall r, In r rows -> In (key r) ks) ->
  Py.sumZ (map (fun k => Py.sumZ (map f (filter (fun r => Store.key_eqb k (key r)) rows))) ks)
  = Py.sumZ (map f rows).
Proof.
  intros Hnd. induction rows as [ | r rows IH]; intro Hin.
  - cbn [filter map]. now apply sumZ_map_zero.
  - rewrite (map_ext _
               (fun k => ((if Store.key_eqb k (key r) then f r else 0)
                          + Py.sumZ (map f (filter (fun r0 => Store.key_eqb k (key r0)) rows)))%Z)).
    + rewrite sumZ_map_add, sumZ_one_key, IH; auto.
      * intros r0 H0. apply Hin. now right.
      * apply Hin. now left.
    + intro k. cbn [filter].
      destruct (Store.key_eqb k (key r)); reflexivity.
Qed.

(** ** WasteAnalyzer *)

Import Analytics.

Lemma get_status_tiers (rate : Q) :
  (rate < 0.05 -> get_status rate = "LOW")
  /\ (0.05 <= rate -> rate < 0.10 -> get_status rate = "ACCEPTABLE")
  /\ (0.10 <= rate -> rate < 0.20 -> get_status rate = "HIGH")
  /\ (0.20 <= rate -> get_status rate = "CRITICAL").
Proof.
  unfold get_status.
  repeat split; intros; py_cases; reflexivity || lra.
Qed.

(** The rows of the frame are the groups of the distinct keys. *)
Lemma waste_frame_rows (ms : list Store.movement) (r : waste_row) :
  In r (waste_frame (group_movements ms)) ->
  let k := (wg_hospital_id (group r), wg_blood_type (group r)) in
  In k (map movement_key ms)
  /\ total_expired (group r) = Py.sumZ (map Store.units_expired (movements_of k ms))
  /\ total_collected (group r) = Py.sumZ (map Store.units_collected (movements_of k ms))
  /\ waste_rate r
     = inject_Z (total_expired (group r)) / inject_Z (total_collected (group r) + 1)
  /\ status r = get_status (waste_rate r).
Proof.
  unfold waste_frame, group_movements. rewrite map_map.
  intro Hin. apply in_map_iff in Hin. destruct Hin as [[h b] [<- Hk]].
  apply (proj1 (group_keys_In _ _)) in Hk. cbn.
  repeat split; [exact Hk].
Qed.

Lemma sumZ_nonneg (l : list Z) : Forall (fun z => (0 <= z)%Z) l -> (0 <= Py.sumZ l)%Z.
Proof.
  unfold Py.sumZ. induction 1; cbn; lia.
Qed.

Lemma waste_frame_totals (ms : list Store.movement) :
  let df := waste_frame (group_movements ms) in
  Py.sumZ (map (fun r => total_expired (group r)) df)
  = Py.sumZ (map Store.units_expired ms)
  /\ Py.sumZ (map (fun r => total_collected (group r)) df)
     = Py.sumZ (map Store.units_collected ms).
Proof.
  cbv zeta. unfold waste_frame, group_movements. rewrite !map_map. cbn.
  split.
  - apply (group_sums_partition movement_key Store.units_expired).
    + apply group_keys_NoDup.
    + intros m Hm. apply group_keys_In. now apply in_map.
  - apply (group_sums_partition movement_key Store.units_collected).
    + apply group_keys_NoDup.
    + intros m Hm. apply group_keys_In. now apply in_map.
Qed.

(** The returned entries are the rows of the frame, each with its rate
    rounded. *)
Lemma waste_rates_entries (db : Store.database)
    (hospital_id blood_type start_date end_date : option string) :
  let selected :=
    filter (movement_selected hospital_id blood_type start_date end_date)
           (Store.inventory_movements db) in
  waste_rates (calculate_waste_rates db hospital_id blood_type start_date end_date)
  = map (fun r =>
           {| we_hospital_id := wg_hospital_id (group r);
              we_blood_type := wg_blood_type (group r);
              we_waste_rate := Py.round (waste_rate r) 3;
              we_units_expired := total_expired (group r);
              we_total_units := total_collected (group r);
              we_status := status r |})
        (waste_frame (group_movements selected)).
Proof.
  cbv zeta. unfold calculate_waste_rates.
  destruct (group_movements _); reflexivity.
Qed.

(** The frame has one row per key. *)
Lemma waste_frame_keys (ms : list Store.movement) :
  map (fun r => (wg_hospital_id (group r), wg_blood_type (group r)))
      (waste_frame (group_movements ms))
  = Store.group_keys (map movement_key ms).
Proof.
  unfold waste_frame, group_movements. rewrite !map_map. cbn.
  rewrite <- (map_id (Store.group_keys _)) at 2.
  apply map_ext. now intros [h b].
Qed.

(** C8. Over the movement records selected by the filters, with collected
    units that are counts (not negative): every selected record falls in a
    group of its (hospital, blood type); each group carries the sums of its
    records, its waste rate is [total_expired / (total_collected + 1)] with a
    positive denominator, and its status is LOW below 0.05, ACCEPTABLE below
    0.10, HIGH below 0.20, CRITICAL otherwise; the overall rate is the sum of
    the expired units over the sum of the collected units plus 1, over the
    groups and so over the selected records.  The returned list has exactly
    one entry per group, with the group's sums and status and with its rate
    to 3 decimals (a value within 0.0005 of it), and the returned overall
    rate is the overall rate to 3 decimals.  A group with 250 collected and
    15 expired has rate 15/251 (about 0.0598) and status ACCEPTABLE. *)
Theorem waste_rates_formula (db : Store.database)
    (hospital_id blood_type start_date end_date : option string) :
  let selected :=
    filter (movement_selected hospital_id blood_type start_date end_date)
           (Store.inventory_movements db) in
  Forall (fun m => (0 <= Store.units_collected m)%Z) selected ->
  let df := waste_frame (group_movements selected) in
  let result := calculate_waste_rates db hospital_id blood_type start_date end_date in
  let entry_of r e :=
    we_hospital_id e = wg_hospital_id (group r)
    /\ we_blood_type e = wg_blood_type (group r)
    /\ we_units_expired e = total_expired (group r)
    /\ we_total_units e = total_collected (group r)
    /\ we_status e = status r
    /\ Qabs (we_waste_rate e - waste_rate r) <= 0.0005 in
  (forall m, In m selected ->
     exists r, In r df
               /\ (wg_hospital_id (group r), wg_blood_type (group r)) = movement_key m)
  /\ (forall r, In r df ->
        let k := (wg_hospital_id (group r), wg_blood_type (group r)) in
        total_expired (group r)
          = Py.sumZ (map Store.units_expired (movements_of k selected))
        /\ total_collected (group r)
           = Py.sumZ (map Store.units_collected (movements_of k selected))
        /\ (0 < total_collected (group r) + 1)%Z
        /\ waste_rate r
           == inject_Z (total_expired (group r)) / inject_Z (total_collected (group r) + 1)
        /\ (waste_rate r < 0.05 -> status r = "LOW")
        /\ (0.05 <= waste_rate r -> waste_rate r < 0.10 -> status r = "ACCEPTABLE")
        /\ (0.10 <= waste_rate r -> waste_rate r < 0.20 -> status r = "HIGH")
        /\ (0.20 <= waste_rate r -> status r = "CRITICAL"))
  /\ overall_rate df
     == inject_Z (Py.sumZ (map (fun r => total_expired (group r)) df))
        / inject_Z (Py.sumZ (map (fun r => total_collected (group r)) df) + 1)
  /\ overall_rate df
     == inject_Z (Py.sumZ (map Store.units_expired selected))
        / inject_Z (Py.sumZ (map Store.units_collected selected) + 1)
  /\ (forall r, In r df -> exists e, In e (waste_rates result) /\ entry_of r e)
  /\ (forall e, In e (waste_rates result) -> exists r, In r df /\ entry_of r e)
  /\ NoDup (map (fun e => (we_hospital_id e, we_blood_type e)) (waste_rates result))
  /\ (selected <> [] ->
      Qabs (overall_waste_rate result - overall_rate df) <= 0.0005)
  /\ (forall g, total_collected g = 250%Z -> total_expired g = 15%Z ->
        Forall (fun r => waste_rate r == 15 # 251 /\ status r = "ACCEPTABLE")
               (waste_frame [g])).
Proof.
  intros selected Hcount df result entry_of.
  pose proof (waste_rates_entries db hospital_id blood_type start_date end_date)
    as Hentries.
  cbv zeta in Hentries. fold selected in Hentries. fold df in Hentries.
  fold result in Hentries.
  split; [ | split; [ | split; [ | split; [ | split; [ | split; [ | split;
    [ | split ]]]]]]].
  - intros m Hm.
    assert (Hk : In (movement_key m) (Store.group_keys (map movement_key selected))).
    { apply group_keys_In. now apply in_map. }
    subst df. unfold waste_frame, group_movements. rewrite map_map.
    eexists. split.
    + apply in_map_iff. exists (movement_key m). split; [reflexivity | exact Hk].
    + reflexivity.
  - intros r Hr. cbv zeta.
    destruct (waste_frame_rows selected r Hr) as [_ [He [Hc [Hw Hs]]]].
    split; [exact He | ]. split; [exact Hc | ].
    split.
    { rewrite Hc.
      assert (0 <= Py.sumZ (map Store.units_collected
                (movements_of (wg_hospital_id (group r), wg_blood_type (group r))
                              selected)))%Z; [ | lia].
      apply sumZ_nonneg. apply Forall_map. unfold movements_of.
      apply Forall_forall. intros m Hm. apply filter_In in Hm.
      apply (proj1 (Forall_forall _ _) Hcount). tauto. }
    split; [rewrite Hw; reflexivity | ].
    rewrite Hs. apply get_status_tiers.
  - reflexivity.
  - unfold overall_rate.
    destruct (waste_frame_totals selected) as [He Hc].
    fold df in He, Hc. rewrite He, Hc. reflexivity.
  - intros r Hr. rewrite Hentries. eexists. split.
    + apply in_map_iff. exists r. split; [reflexivity | exact Hr].
    + subst entry_of. cbn. repeat split. apply RoundFacts.round_near_3.
  - intros e He. rewrite Hentries in He. apply in_map_iff in He.
    destruct He as [r [<- Hr]]. exists r. split; [exact Hr | ].
    subst entry_of. cbn. repeat split. apply RoundFacts.round_near_3.
  - rewrite Hentries, map_map. cbn.
    subst df. rewrite waste_frame_keys. apply group_keys_NoDup.
  - intro Hsel. subst result df. unfold calculate_waste_rates. fold selected.
    destruct (group_movements selected) as [ | g gs] eqn:Hg.
    + exfalso. destruct selected as [ | m ms]; [now apply Hsel | ].
      assert (Hk : In (movement_key m) (Store.group_keys (map movement_key (m :: ms)))).
      { apply group_keys_In. now left. }
      unfold group_movements in Hg. apply map_eq_nil in Hg.
      rewrite Hg in Hk. exact Hk.
    + apply RoundFacts.round_near_3.
  - intros g Hc He. constructor; [ | constructor].
    cbn. rewrite Hc, He. split; reflexivity.
Qed.

(** The sample store without filters: 24 expired over 270 collected. *)
Lemma waste_rates_formula_witness :
  let selected :=
    filter (movement_selected None None None None)
           (Store.inventory_movements Samples.db) in
  Forall (fun m => (0 <= Store.units_collected m)%Z) selected
  /\ overall_rate (waste_frame (group_movements selected))
     == inject_Z (Py.sumZ (map Store.units_expired selected))
        / inject_Z (Py.sumZ (map Store.units_collected selected) + 1).
Proof.
  cbv zeta.
  assert (Hcount : Forall (fun m => (0 <= Store.units_collected m)%Z)
                          (filter (movement_selected None None None None)
                                  (Store.inventory_movements Samples.db))).
  { cbn. repeat (constructor; [cbn; lia | ]). constructor. }
  split; [exact Hcount | ].
  destruct (waste_rates_formula Samples.db None None None None Hcount)
    as [_ [_ [_ [Hoverall _]]]].
  exact Hoverall.
Defined.

(** ** DemandForecaster *)

(** The loop over the events adds up the adjustments. *)
Lemma fold_left_adjustment {E : Type} (g : E -> Q) (l : list E) (a : Q) :
  fold_left (fun acc e => acc + g e) l a == a + Py.sumQ (map g l).
Proof.
  revert a. induction l as [ | e l IH]; intro a; cbn.
  - ring.
  - rewrite IH. unfold Py.sumQ. cbn. ring.
Qed.

(** The rows of the usage frame: one per key, with the average of its
    selected usage records. *)
Lemma group_usage_rows (us : list Store.usage) (row : demand_group) :
  In row (group_usage us) ->
  let k := (dg_hospital_id row, dg_blood_type row) in
  let g := map Store.units_used (usages_of k us) in
  In k (map usage_key us)
  /\ avg_daily_demand row = inject_Z (Py.sumZ g) / inject_Z (Z.of_nat (List.length g))
  /\ days_of_data row = Z.of_nat (List.length g).
Proof.
  unfold group_usage. intro Hin.
  apply in_map_iff in Hin. destruct Hin as [[h b] [<- Hk]].
  apply (proj1 (group_keys_In _ _)) in Hk. cbn.
  repeat split; [exact Hk].
Qed.

Lemma Forall2_map_same {A B : Type} (P : A -> B -> Prop) (f : A -> B) (l : list A) :
  (forall a, In a l -> P a (f a)) -> Forall2 P l (map f l).
Proof.
  induction l as [ | a l IH]; cbn; intro H; constructor; auto.
Qed.

(** The forecast list has one entry per group key, in the order of the
    keys. *)
Lemma forecast_keys (rt : runtime) (db : Store.database)
    (hospital_id blood_type : option string) (days : Z) :
  map (fun f => (f_hospital_id f, f_blood_type f))
      (forecast_demand rt db hospital_id blood_type days)
  = Store.group_keys
      (map usage_key (filter (usage_selected rt hospital_id blood_type)
                             (Store.blood_usage_history db))).
Proof.
  unfold forecast_demand, group_usage. rewrite !map_map. cbn.
  rewrite <- (map_id (Store.group_keys _)) at 2.
  apply map_ext. now intros [h b].
Qed.

(** A key that occurs among the rows has rows. *)
Lemma usages_of_key (k : Store.group_key) (us : list Store.usage) :
  In k (map usage_key us) -> usages_of k us <> [].
Proof.
  intros Hk Hnil. apply in_map_iff in Hk. destruct Hk as [u [Hu Hin]].
  assert (H : In u (usages_of k us)).
  { apply filter_In. split; [exact Hin | ]. rewrite Hu. apply key_eqb_refl. }
  rewrite Hnil in H. exact H.
Qed.

(** C9. For every (hospital, blood type) group of the usage records of the
    trailing 90 days and every horizon [days]: the group has exactly one
    forecast entry; the forecast of the loop is [avg_daily_demand * days] plus
    [avg_daily_demand * (impact_level - 1.0)] for each event dated between
    today and 30 days ahead, a set of events that does not depend on [days],
    where [avg_daily_demand] is the mean of the group's records; the entry
    carries that forecast to one decimal (a value within 0.05 of it) and the
    average to two decimals, and its trend is always 'STABLE'. *)
Theorem demand_forecast_formula (rt : runtime) (db : Store.database)
    (hospital_id blood_type : option string) (days : Z) :
  let selected :=
    filter (usage_selected rt hospital_id blood_type)
           (Store.blood_usage_history db) in
  let events_df := filter (event_in_window rt) (Store.events db) in
  let result := forecast_demand rt db hospital_id blood_type days in
  let demand k :=
    let g := map Store.units_used (usages_of k selected) in
    inject_Z (Py.sumZ g) / inject_Z (Z.of_nat (List.length g)) in
  (forall e, In e events_df <->
             In e (Store.events db)
             /\ Store.text_le (sql_date rt 0) (Store.event_date e) = true
             /\ Store.text_le (Store.event_date e) (sql_date rt 30) = true)
  /\ (forall u, In u selected ->
        exists f, In f result
                  /\ (f_hospital_id f, f_blood_type f) = usage_key u)
  /\ NoDup (map (fun f => (f_hospital_id f, f_blood_type f)) result)
  /\ (forall f, In f result ->
        let k := (f_hospital_id f, f_blood_type f) in
        usages_of k selected <> []
        /\ f_days f = days
        /\ Qabs (f_forecast f
                 - (demand k * inject_Z days
                    + Py.sumQ (map (fun e => demand k * (Store.impact_level e - 1.0))
                                   events_df)))
           <= 0.05
        /\ Qabs (f_avg_daily_demand f - demand k) <= 0.005
        /\ f_demand_trend f = "STABLE")
  /\ (forall row horizon,
        total_forecast row horizon events_df
        == avg_daily_demand row * inject_Z horizon
           + Py.sumQ (map (fun e => avg_daily_demand row
                                    * (Store.impact_level e - 1.0))
                          events_df))
  /\ (forall h b, _calculate_trend h b = "STABLE").
Proof.
  intros selected events_df result demand.
  pose proof (forecast_keys rt db hospital_id blood_type days) as Hkeys.
  fold selected in Hkeys. fold result in Hkeys.
  assert (Hloop : forall row horizon,
             total_forecast row horizon events_df
             == avg_daily_demand row * inject_Z horizon
                + Py.sumQ (map (fun e => avg_daily_demand row
                                         * (Store.impact_level e - 1.0))
                               events_df)).
  { intros row horizon. unfold total_forecast.
    rewrite (fold_left_adjustment
               (fun e => avg_daily_demand row * (Store.impact_level e - 1.0))).
    ring. }
  split; [ | split; [ | split; [ | split; [ | split ]]]].
  - intro e. subst events_df. rewrite filter_In.
    unfold event_in_window. rewrite andb_true_iff. tauto.
  - intros u Hu.
    assert (Hk : In (usage_key u)
                    (map (fun f => (f_hospital_id f, f_blood_type f)) result)).
    { rewrite Hkeys. apply group_keys_In. now apply in_map. }
    apply in_map_iff in Hk. destruct Hk as [f [Hf Hin]]. now exists f.
  - rewrite Hkeys. apply group_keys_NoDup.
  - intros f Hf. cbv zeta.
    assert (Hk : In (f_hospital_id f, f_blood_type f) (map usage_key selected)).
    { apply (proj1 (group_keys_In _ _)). rewrite <- Hkeys.
      apply in_map_iff. now exists f. }
    split; [now apply usages_of_key | ].
    subst result. unfold forecast_demand in Hf. fold selected in Hf.
    fold events_df in Hf. apply in_map_iff in Hf. destruct Hf as [row [<- Hrow]].
    cbn [f_hospital_id f_blood_type f_days f_forecast f_avg_daily_demand
         f_demand_trend].
    destruct (group_usage_rows selected row Hrow) as [_ [Havg _]].
    fold (demand (dg_hospital_id row, dg_blood_type row)) in Havg.
    rewrite <- Havg.
    split; [reflexivity | ].
    split; [rewrite <- (Hloop row days); apply RoundFacts.round_near_1 | ].
    split; [apply RoundFacts.round_near_2 | reflexivity].
  - exact Hloop.
  - reflexivity.
Qed.

(** The sample store, 30 days ahead: the usage record of H001/O+ dated
    2024-09-30 lies in the trailing 90 days, so that group has a forecast
    entry. *)
Lemma demand_forecast_formula_witness :
  exists f,
    In f (forecast_demand Samples.rt Samples.db None None 30)
    /\ (f_hospital_id f, f_blood_type f) = ("H001", "O+").
Proof.
  destruct (demand_forecast_formula Samples.rt Samples.db None None 30)
    as [_ [Hgroup _]].
  apply (Hgroup (Samples.usage "H001" "O+" "2024-09-30" 12)).
  left. reflexivity.
Defined.

(** ** GeoDistance *)

Module GeoFacts.

Import Geo.
Local Open Scope R_scope.

Lemma haversine_unfold (lat1 lon1 lat2 lon2 : R) :
  _haversine_distance lat1 lon1 lat2 lon2
  = match py_sqrt (haversine_a lat1 lon1 lat2 lon2),
          py_sqrt (1 - haversine_a lat1 lon1 lat2 lon2) with
    | Some sqrt_a, Some sqrt_1a => Some (6371 * (2 * atan2 sqrt_a sqrt_1a))
    | _, _ => None
    end.
Proof. reflexivity. Qed.

Lemma py_sqrt_nonneg (x : R) : 0 <= x -> py_sqrt x = Some (sqrt x).
Proof.
  intro H. unfold py_sqrt. destruct (Rle_dec 0 x); [reflexivity | contradiction].
Qed.

Lemma sin_sq_half (x : R) : sin (x / 2) ^ 2 = (1 - cos x) / 2.
Proof.
  replace (cos x) with (cos (2 * (x / 2))) by (f_equal; lra).
  rewrite cos_2a_sin. lra.
Qed.

Lemma radians_latitude (lat : R) :
  -90 <= lat <= 90 -> - (PI / 2) <= radians lat <= PI / 2.
Proof.
  intros [Hlo Hhi]. unfold radians. pose proof PI_RGT_0 as Hpi. split; nra.
Qed.

Lemma cos_latitude_nonneg (lat : R) : -90 <= lat <= 90 -> 0 <= cos (radians lat).
Proof.
  intro H. destruct (radians_latitude lat H) as [Hlo Hhi].
  apply cos_ge_0; assumption.
Qed.

(** The haversine term is symmetric in the two points. *)
Lemma haversine_a_sym (lat1 lon1 lat2 lon2 : R) :
  haversine_a lat1 lon1 lat2 lon2 = haversine_a lat2 lon2 lat1 lon1.
Proof.
  unfold haversine_a.
  replace ((radians lat2 - radians lat1) / 2)
    with (- ((radians lat1 - radians lat2) / 2)) by lra.
  replace ((radians lon2 - radians lon1) / 2)
    with (- ((radians lon1 - radians lon2) / 2)) by lra.
  rewrite !sin_neg. ring.
Qed.

(** Between two valid latitudes the exact haversine term lies in [[0, 1]], so
    over the reals neither square root raises.  (The machine value can exceed
    1 by a rounding step for two points opposite each other on the globe;
    [math.sqrt] then raises.) *)
Lemma haversine_a_range (lat1 lon1 lat2 lon2 : R) :
  -90 <= lat1 <= 90 -> -90 <= lat2 <= 90 ->
  0 <= haversine_a lat1 lon1 lat2 lon2 <= 1.
Proof.
  intros H1 H2.
  pose proof (cos_latitude_nonneg lat1 H1) as Hc1.
  pose proof (cos_latitude_nonneg lat2 H2) as Hc2.
  pose proof (Rmult_le_pos _ _ Hc1 Hc2) as Hcc.
  unfold haversine_a.
  set (p1 := radians lat1) in *. set (p2 := radians lat2) in *.
  set (dl := radians lon2 - radians lon1).
  split.
  - pose proof (pow2_ge_0 (sin ((p2 - p1) / 2))) as Hs1.
    pose proof (pow2_ge_0 (sin (dl / 2))) as Hs2.
    pose proof (Rmult_le_pos _ _ Hcc Hs2). lra.
  - rewrite !sin_sq_half. rewrite cos_minus.
    pose proof (COS_bound dl) as [Hdl _].
    pose proof (COS_bound (p1 + p2)) as [_ Hsum].
    rewrite cos_plus in Hsum.
    assert (Hprod : - (cos p1 * cos p2) <= cos p1 * cos p2 * cos dl) by nra.
    nra.
Qed.

Lemma atan_nonneg (x : R) : 0 <= x -> 0 <= atan x.
Proof.
  intros [Hpos | <-].
  - rewrite <- atan_0. left. now apply atan_increasing.
  - rewrite atan_0. lra.
Qed.

Lemma atan2_nonneg (y x : R) : 0 <= y -> 0 <= x -> 0 <= atan2 y x.
Proof.
  intros Hy Hx. unfold atan2. pose proof PI_RGT_0 as Hpi.
  destruct (Rlt_dec 0 x) as [Hpos | Hnpos].
  - apply atan_nonneg. unfold Rdiv. apply Rmult_le_pos; [exact Hy | ].
    left. now apply Rinv_0_lt_compat.
  - destruct (Rlt_dec x 0); [lra | ].
    destruct (Rlt_dec 0 y); [lra | ].
    destruct (Rlt_dec y 0); lra.
Qed.

End GeoFacts.

(** * Further properties of the engines and of their callers *)

(** ** CompatibilityTable, beyond the lookups *)

Lemma abo_rh_types_dec (bt : string) : {In bt abo_rh_types} + {~ In bt abo_rh_types}.
Proof. apply in_dec, string_dec. Defined.

(** A membership in a list of literals, split into its cases. *)
Ltac split_In H :=
  cbn in H;
  repeat match type of H with
  | _ \/ _ => destruct H as [H | H]
  end;
  try contradiction; try subst.

(** X1. The compatibility lookup is a partial order on all texts: every type may
    give to itself, giving is transitive, and two types that may give to each
    other are the same type.  This holds for types outside the table too,
    which may give to themselves only. *)
Theorem compatibility_partial_order :
  (forall t, In t (_get_compatible_blood_types t))
  /\ (forall a b c,
         In a (_get_compatible_blood_types b) ->
         In b (_get_compatible_blood_types c) ->
         In a (_get_compatible_blood_types c))
  /\ (forall a b,
         In a (_get_compatible_blood_types b) ->
         In b (_get_compatible_blood_types a) ->
         a = b).
Proof.
  split; [ | split ].
  - intro t. destruct (abo_rh_types_dec t) as [Hin | Hout].
    + split_In Hin; cbn; tauto.
    + rewrite (compatibility_miss t Hout). now left.
  - intros a b c Hab Hbc.
    destruct (abo_rh_types_dec c) as [Hc | Hc].
    + split_In Hc; split_In Hbc; split_In Hab; cbn; tauto.
    + rewrite (compatibility_miss c Hc) in *. split_In Hbc.
      now rewrite (compatibility_miss _ Hc) in Hab.
  - intros a b Hab Hba.
    destruct (abo_rh_types_dec b) as [Hb | Hb].
    + split_In Hb; split_In Hab; try reflexivity; split_In Hba; discriminate.
    + rewrite (compatibility_miss b Hb) in Hab. split_In Hab. reflexivity.
Qed.

(** O- gives to A+, A+ gives to AB+, hence O- gives to AB+. *)
Lemma compatibility_partial_order_witness :
  In "O-" (_get_compatible_blood_types "A+")
  /\ In "A+" (_get_compatible_blood_types "AB+")
  /\ In "O-" (_get_compatible_blood_types "AB+").
Proof.
  assert (H1 : In "O-" (_get_compatible_blood_types "A+")) by (cbn; tauto).
  assert (H2 : In "A+" (_get_compatible_blood_types "AB+")) by (cbn; tauto).
  split; [exact H1 | ]. split; [exact H2 | ].
  exact (proj1 (proj2 compatibility_partial_order) "O-" "A+" "AB+" H1 H2).
Defined.

(** ** DonorScorer, beyond the formula *)

Import ScoreTerms.

Lemma score_by_terms (rt : runtime) (donor needed : string) (distance : Q)
    (last : date_field) (urgency : string) :
  _calculate_matching_score rt donor needed distance last urgency
  = Py.min (weighted_sum rt donor needed distance last * urgency_multiplier urgency) 1.0.
Proof. reflexivity. Qed.

Lemma blood_score_range (donor needed : string) : 0 <= blood_score donor needed <= 1.
Proof.
  unfold blood_score.
  destruct (String.eqb donor needed); [lra | ].
  destruct (Py.str_in _ _); lra.
Qed.

Lemma distance_score_range (distance : Q) : 0.1 <= distance_score distance <= 1.
Proof.
  pose proof (distance_score_bounds distance) as H. cbv zeta in H.
  unfold distance_score. lra.
Qed.

Lemma donation_score_range (rt : runtime) (last : date_field) :
  0.3 <= donation_score rt last <= 1.
Proof.
  unfold donation_score.
  destruct (days_since_donation rt last) as [n | ]; [ | lra].
  destruct (90 <=? n)%Z; [lra | ]. destruct (56 <=? n)%Z; lra.
Qed.

Lemma weighted_sum_range (rt : runtime) (donor needed : string) (distance : Q)
    (last : date_field) :
  0.19 <= weighted_sum rt donor needed distance last <= 1.
Proof.
  unfold weighted_sum.
  pose proof (blood_score_range donor needed).
  pose proof (distance_score_range distance).
  pose proof (donation_score_range rt last).
  lra.
Qed.

Lemma urgency_multiplier_values (urgency : string) :
  (urgency = "CRITICAL" /\ urgency_multiplier urgency = 1.2)
  \/ (urgency = "HIGH" /\ urgency_multiplier urgency = 1.1)
  \/ (urgency = "LOW" /\ urgency_multiplier urgency = 0.9)
  \/ (urgency <> "CRITICAL" /\ urgency <> "HIGH" /\ urgency <> "LOW"
      /\ urgency_multiplier urgency = 1.0).
Proof.
  unfold urgency_multiplier, urgency_table. cbn [Py.dict_get].
  destruct (String.eqb_spec "CRITICAL" urgency) as [<- | Hc]; [auto | ].
  destruct (String.eqb_spec "HIGH" urgency) as [<- | Hh]; [auto | ].
  destruct (String.eqb_spec "MEDIUM" urgency) as [<- | Hm].
  - right; right; right. repeat split; discriminate.
  - destruct (String.eqb_spec "LOW" urgency) as [<- | Hl]; [auto | ].
    right; right; right. repeat split; congruence.
Qed.

(** The distance term over the four bands. *)
Lemma distance_score_bands (d : Q) :
  (d <= 5 /\ distance_score d = 1.0)
  \/ (5 < d /\ d <= 10 /\ distance_score d = 0.7)
  \/ (10 < d /\ d <= 20 /\ distance_score d = 0.4)
  \/ (20 < d /\ d < 90 /\ distance_score d = 1.0 - d * (1 # 100))
  \/ (90 <= d /\ distance_score d = 0.1).
Proof.
  unfold distance_score, Py.max, Qdiv. change (/ 100) with (1 # 100).
  py_cases; try (left; split; [lra | reflexivity]);
    try (right; left; repeat split; (lra || reflexivity));
    try (right; right; left; repeat split; (lra || reflexivity)).
  - right; right; right; left. repeat split; (lra || reflexivity).
  - right; right; right; right. split; [lra | reflexivity].
Qed.

(** Proof step for comparisons of two scores that differ in the distance or
    in the urgency only. *)
Ltac score_compare rt donor needed last :=
  rewrite ?score_by_terms; unfold weighted_sum;
  pose proof (blood_score_range donor needed);
  pose proof (donation_score_range rt last);
  set (b := blood_score donor needed) in *; clearbody b;
  set (r := donation_score rt last) in *; clearbody r.

(** X2. The score against the distance.  Within 20 km a nearer donor never
    scores lower, and beyond 20 km likewise; but across the 20 km mark the
    order turns: the distance term jumps from 0.4 back up to [1 - d/100], so
    a donor between 20 and 60 km away never scores lower than an otherwise
    equal donor between 10 and 20 km away (strictly higher under LOW
    urgency, where the cap cannot hide it), and a donor between 20 and 30 km
    never lower than one between 5 and 10 km. *)
Theorem distance_score_steps (rt : runtime) (donor needed : string)
    (last : date_field) (urgency : string) (d1 d2 : Q) :
  let score d := _calculate_matching_score rt donor needed d last urgency in
  (d1 <= d2 -> d2 <= 20 -> score d2 <= score d1)
  /\ (20 < d1 -> d1 <= d2 -> score d2 <= score d1)
  /\ (10 < d1 -> d1 <= 20 -> 20 < d2 -> d2 < 60 -> score d1 <= score d2)
  /\ (5 < d1 -> d1 <= 10 -> 20 < d2 -> d2 < 30 -> score d1 <= score d2)
  /\ (10 < d1 -> d1 <= 20 -> 20 < d2 -> d2 < 60 -> urgency = "LOW" ->
      score d1 < score d2).
Proof.
  cbv beta zeta. score_compare rt donor needed last.
  destruct (distance_score_bands d1)
    as [[A1 ->] | [[A1 [B1 ->]] | [[A1 [B1 ->]] | [[A1 [B1 ->]] | [A1 ->]]]]];
  destruct (distance_score_bands d2)
    as [[A2 ->] | [[A2 [B2 ->]] | [[A2 [B2 ->]] | [[A2 [B2 ->]] | [A2 ->]]]]];
  destruct (urgency_multiplier_values urgency)
    as [[Hu ->] | [[Hu ->] | [[Hu ->] | [Hu1 [Hu2 [Hu3 ->]]]]]];
  unfold Py.min;
  (repeat split; intros; try congruence; py_cases; lra).
Qed.

(** A donor 21 km away outscores the same donor 15 km away. *)
Lemma distance_score_steps_witness :
  _calculate_matching_score Samples.rt "O-" "O-" 15 DateNull "LOW"
  < _calculate_matching_score Samples.rt "O-" "O-" 21 DateNull "LOW".
Proof.
  apply (proj2 (proj2 (proj2 (proj2
           (distance_score_steps Samples.rt "O-" "O-" DateNull "LOW" 15 21)))));
    try reflexivity.
  intro H. discriminate H.
Defined.

(** [py_cases], on the hypotheses as well. *)
Ltac py_cases_hyps :=
  repeat match goal with
  | H : context [Py.leb ?a ?b] |- _ =>
      let E := fresh "E" in
      destruct (Py.leb a b) eqn:E;
      [apply PyFacts.leb_le in E | apply PyFacts.leb_gt in E]
  | H : context [Py.ltb ?a ?b] |- _ =>
      let E := fresh "E" in
      destruct (Py.ltb a b) eqn:E;
      [apply PyFacts.ltb_lt in E | apply PyFacts.ltb_ge in E]
  end.

(** X3. The score against the urgency.  The urgency never reverses two donors:
    if one scores strictly below another under some urgency, it does not
    score above it under any other.  For one donor the score does not
    decrease along LOW, MEDIUM, HIGH, CRITICAL; a text that is none of
    CRITICAL, HIGH, LOW (in these capitals) scores as MEDIUM; and the cap at
    1.0 can bind under HIGH and CRITICAL only: under any other urgency the
    score is the weighted sum times the multiplier. *)
Theorem urgency_keeps_order (rt : runtime) (needed : string)
    (donor1 donor2 : string) (d1 d2 : Q) (last1 last2 : date_field)
    (urgency urgency' : string) :
  let score1 u := _calculate_matching_score rt donor1 needed d1 last1 u in
  let score2 u := _calculate_matching_score rt donor2 needed d2 last2 u in
  (score1 urgency < score2 urgency -> score1 urgency' <= score2 urgency')
  /\ (score1 "LOW" <= score1 "MEDIUM"
      /\ score1 "MEDIUM" <= score1 "HIGH"
      /\ score1 "HIGH" <= score1 "CRITICAL")
  /\ (urgency <> "CRITICAL" -> urgency <> "HIGH" -> urgency <> "LOW" ->
      score1 urgency = score1 "MEDIUM")
  /\ (urgency <> "CRITICAL" -> urgency <> "HIGH" ->
      score1 urgency
      == weighted_sum rt donor1 needed d1 last1 * urgency_multiplier urgency).
Proof.
  cbv beta zeta. rewrite !score_by_terms.
  pose proof (weighted_sum_range rt donor1 needed d1 last1) as H1.
  pose proof (weighted_sum_range rt donor2 needed d2 last2) as H2.
  set (w1 := weighted_sum rt donor1 needed d1 last1) in *. clearbody w1.
  set (w2 := weighted_sum rt donor2 needed d2 last2) in *. clearbody w2.
  change (urgency_multiplier "LOW") with 0.9.
  change (urgency_multiplier "MEDIUM") with 1.0.
  change (urgency_multiplier "HIGH") with 1.1.
  change (urgency_multiplier "CRITICAL") with 1.2.
  destruct (urgency_multiplier_values urgency)
    as [[Hu ->] | [[Hu ->] | [[Hu ->] | [Hu1 [Hu2 [Hu3 ->]]]]]];
  destruct (urgency_multiplier_values urgency')
    as [[Hv ->] | [[Hv ->] | [[Hv ->] | [Hv1 [Hv2 [Hv3 ->]]]]]];
  unfold Py.min;
  (repeat split; intros; try congruence; try reflexivity;
   py_cases; py_cases_hyps; lra).
Qed.

(** Two donors under LOW and under CRITICAL. *)
Lemma urgency_keeps_order_witness :
  _calculate_matching_score Samples.rt "O-" "A+" 8 DateNull "LOW"
  < _calculate_matching_score Samples.rt "A+" "A+" 3 DateNull "LOW"
  /\ _calculate_matching_score Samples.rt "O-" "A+" 8 DateNull "CRITICAL"
     <= _calculate_matching_score Samples.rt "A+" "A+" 3 DateNull "CRITICAL".
Proof.
  assert (H : _calculate_matching_score Samples.rt "O-" "A+" 8 DateNull "LOW"
              < _calculate_matching_score Samples.rt "A+" "A+" 3 DateNull "LOW")
    by reflexivity.
  split; [exact H | ].
  exact (proj1 (urgency_keeps_order Samples.rt "A+" "O-" "A+" 8 3 DateNull DateNull
                  "LOW" "CRITICAL") H).
Defined.

(** ** MatchingService, beyond the ranking *)

(** [head] keeps a prefix. *)
Lemma head_prefix {A : Type} (n : Z) (l : list A) :
  exists k, Py.head n l = firstn k l.
Proof.
  unfold Py.head. destruct (0 <=? n)%Z; eexists; reflexivity.
Qed.

Lemma firstn_incl {A : Type} (k : nat) (l : list A) (x : A) :
  In x (firstn k l) -> In x l.
Proof.
  intro H. rewrite <- (firstn_skipn k l). apply in_or_app. now left.
Qed.

Lemma StronglySorted_firstn {A : Type} (R : A -> A -> Prop) (k : nat) (l : list A) :
  StronglySorted R l -> StronglySorted R (firstn k l).
Proof.
  revert k. induction l as [ | x l IH]; intros k Hs.
  - rewrite firstn_nil. constructor.
  - destruct k as [ | k]; [constructor | ].
    inversion Hs as [ | ? ? Hl Hx]; subst. cbn. constructor.
    + now apply IH.
    + apply Forall_forall. intros y Hy.
      apply (proj1 (Forall_forall _ _) Hx). now apply (firstn_incl k).
Qed.

Lemma StronglySorted_split {A : Type} (R : A -> A -> Prop) (l1 l2 : list A) :
  StronglySorted R (l1 ++ l2) -> Forall (fun x => Forall (R x) l2) l1.
Proof.
  induction l1 as [ | x l1 IH]; cbn; intro Hs; constructor.
  - inversion Hs as [ | ? ? _ Hx]; subst.
    apply Forall_forall. intros y Hy.
    apply (proj1 (Forall_forall _ _) Hx). apply in_or_app. now right.
  - apply IH. now inversion Hs.
Qed.

Lemma StronglySorted_map {A B : Type} (R : A -> A -> Prop) (S : B -> B -> Prop)
    (f : A -> B) (l : list A) :
  (forall x y, R x y -> S (f x) (f y)) ->
  StronglySorted R l -> StronglySorted S (map f l).
Proof.
  intros Hf. induction 1 as [ | x l Hl IH Hx]; cbn; constructor.
  - exact IH.
  - apply Forall_map. apply Forall_forall. intros y Hy.
    apply Hf. now apply (proj1 (Forall_forall _ _) Hx).
Qed.

Lemma NoDup_firstn {A : Type} (k : nat) (l : list A) : NoDup l -> NoDup (firstn k l).
Proof.
  revert k. induction l as [ | x l IH]; intros k Hnd.
  - rewrite firstn_nil. constructor.
  - destruct k as [ | k]; [constructor | ].
    inversion Hnd as [ | ? ? Hx Hl]; subst. cbn. constructor.
    + intro Hin. apply Hx. now apply (firstn_incl k).
    + now apply IH.
Qed.

Lemma selection_keeps_keys_distinct {Row Key : Type} (key : Row -> Key)
    (keep : Row -> bool) (rows : list Row) :
  NoDup (map key rows) -> NoDup (map key (filter keep rows)).
Proof.
  induction rows as [ | r rows IH]; cbn; intro Hnd; [constructor | ].
  inversion Hnd as [ | ? ? Hr Hrows]; subst.
  destruct (keep r); cbn; [ | now apply IH].
  constructor; [ | now apply IH].
  intro Hin. apply Hr. apply in_map_iff in Hin. destruct Hin as [r' [Hkey Hin]].
  apply in_map_iff. exists r'. split; [exact Hkey | ].
  apply filter_In in Hin. tauto.
Qed.

(** The rows [match_donors] keeps come from the scored candidates, and these
    from the donors the query selects. *)
Lemma top_donors_from_query (rt : runtime) (srt : sort_values) (db : Store.database)
    (blood_type : string) (units_needed : Z) (hospital_location : location)
    (urgency_level : string) (s : scored_donor) :
  In s (top_donors srt units_needed
          (candidates rt db blood_type hospital_location urgency_level)) ->
  s = score_donor rt blood_type hospital_location urgency_level (row s)
  /\ In (row s) (Store.donors db)
  /\ Store.is_available (row s) = 1%Z
  /\ In (Store.donor_blood_type (row s)) (_get_compatible_blood_types blood_type).
Proof.
  unfold top_donors. intro Hin.
  destruct (head_prefix (Z.min 10 (units_needed * 2))
              (sort_rows srt (candidates rt db blood_type hospital_location urgency_level)))
    as [k Hk].
  rewrite Hk in Hin. apply firstn_incl in Hin.
  apply (Permutation_in _ (Permutation_sym (sort_rows_perm srt _))) in Hin.
  unfold candidates in Hin. apply in_map_iff in Hin.
  destruct Hin as [d [<- Hd]]. cbn [row score_donor].
  unfold query_donors in Hd. apply filter_In in Hd. destruct Hd as [Hd Hsel].
  apply andb_true_iff in Hsel. destruct Hsel as [Htype Hav].
  apply PyFacts.str_in_In in Htype. apply Z.eqb_eq in Hav.
  repeat split; assumption.
Qed.

(** X4. Every matched donor is a donor of the store who is flagged available and
    whose blood type the compatibility lookup lists for the requested type;
    the entry carries that donor's id and type, reports the flag as true,
    and its score is the donor's score to two decimals: a value within 0.005
    of it. *)
Theorem matched_donors_eligible (rt : runtime) (srt : sort_values) (db : Store.database)
    (hospital_id blood_type : string) (units_needed : Z)
    (hospital_location : location) (urgency_level : string) :
  Forall (fun m =>
            exists d,
              In d (Store.donors db)
              /\ Store.is_available d = 1%Z
              /\ In (Store.donor_blood_type d) (_get_compatible_blood_types blood_type)
              /\ md_donor_id m = Store.donor_id d
              /\ md_blood_type m = Store.donor_blood_type d
              /\ md_is_available m = true
              /\ Qabs (md_matching_score m
                       - _calculate_matching_score rt (Store.donor_blood_type d)
                           blood_type
                           (haversine_km rt (latitude hospital_location)
                                         (longitude hospital_location)
                                         (Store.location_lat d) (Store.location_lng d))
                           (Store.last_donation_date d) urgency_level)
                 <= 0.005)
         (matched_donors
            (match_donors rt srt db hospital_id blood_type units_needed
                          hospital_location urgency_level)).
Proof.
  rewrite match_donors_matched. apply Forall_map, Forall_forall.
  intros s Hs.
  destruct (top_donors_from_query rt srt db blood_type units_needed
              hospital_location urgency_level s Hs) as [Hscore [Hd [Hav Htype]]].
  exists (row s). repeat split; try assumption.
  - cbn. now rewrite Hav.
  - cbn [md_matching_score matched_entry]. rewrite Hscore at 1.
    cbn [matching_score score_donor]. apply RoundFacts.round_near_2.
Qed.

Import Levels.

(** X5. A request for an Rh-negative type is matched with Rh-negative donors
    only, and a request for O- with O- donors only. *)
Theorem rh_negative_request (rt : runtime) (srt : sort_values) (db : Store.database)
    (hospital_id blood_type : string) (units_needed : Z)
    (hospital_location : location) (urgency_level : string) :
  let matched :=
    matched_donors (match_donors rt srt db hospital_id blood_type units_needed
                                 hospital_location urgency_level) in
  (In blood_type rh_negative_types ->
   Forall (fun m => In (md_blood_type m) rh_negative_types) matched)
  /\ (blood_type = "O-" -> Forall (fun m => md_blood_type m = "O-") matched).
Proof.
  cbv zeta. rewrite match_donors_matched.
  split; intro Hreq; apply Forall_map, Forall_forall; intros s Hs;
    destruct (top_donors_from_query rt srt db blood_type units_needed
                hospital_location urgency_level s Hs) as [_ [_ [_ Htype]]];
    cbn [md_blood_type matched_entry].
  - split_In Hreq; split_In Htype; cbn; tauto.
  - subst blood_type. split_In Htype. now symmetry.
Qed.

(** An O- request on the sample store. *)
Lemma rh_negative_request_witness :
  Forall (fun m => md_blood_type m = "O-")
         (matched_donors (match_donors Samples.rt ties_kept Samples.db "H001" "O-" 4
                                       Samples.hospital "HIGH")).
Proof.
  apply (proj2 (rh_negative_request Samples.rt ties_kept Samples.db "H001" "O-" 4
                  Samples.hospital "HIGH")).
  reflexivity.
Defined.

(** X6. How many donors come back.  [total_matches] is the length of the list.
    For [units_needed >= 0] it is the smaller of [min(10, 2 * units_needed)]
    and the number of candidates, so at most 10, and 0 for [units_needed = 0]
    even when there are candidates.  For [units_needed < 0] the call
    [head(2 * units_needed)] drops the last [-2 * units_needed] rows
    instead, so all but that many candidates come back, with no bound of
    10. *)
Theorem match_donors_count (rt : runtime) (srt : sort_values) (db : Store.database)
    (hospital_id blood_type : string) (units_needed : Z)
    (hospital_location : location) (urgency_level : string) :
  let result :=
    match_donors rt srt db hospital_id blood_type units_needed
                 hospital_location urgency_level in
  let n := List.length (candidates rt db blood_type hospital_location urgency_level) in
  total_matches result = Z.of_nat (List.length (matched_donors result))
  /\ ((0 <= units_needed)%Z ->
      List.length (matched_donors result)
      = Nat.min (Z.to_nat (Z.min 10 (units_needed * 2))) n
      /\ (List.length (matched_donors result) <= 10)%nat)
  /\ ((units_needed < 0)%Z ->
      List.length (matched_donors result) = (n - Z.to_nat (- (units_needed * 2)))%nat).
Proof.
  cbv zeta. split; [ | split ].
  - unfold match_donors.
    destruct (query_donors db (_get_compatible_blood_types blood_type));
      reflexivity.
  - intro Hu. rewrite match_donors_matched, length_map. unfold top_donors.
    rewrite head_nonneg by lia. rewrite length_firstn.
    rewrite <- (Permutation_length (sort_rows_perm srt _)).
    split; [reflexivity | lia].
  - intro Hu. rewrite match_donors_matched, length_map. unfold top_donors, Py.head.
    destruct (Z.leb_spec 0 (Z.min 10 (units_needed * 2))) as [H | _]; [lia | ].
    rewrite length_firstn.
    rewrite <- (Permutation_length (sort_rows_perm srt _)).
    replace (Z.min 10 (units_needed * 2)) with (units_needed * 2)%Z by lia.
    lia.
Qed.

(** Three candidates for an AB+ request: one unit wanted gives two entries,
    and minus one unit gives one entry (three rows less the last two). *)
Lemma match_donors_count_witness :
  List.length (matched_donors
                 (match_donors Samples.rt ties_kept Samples.db "H001" "AB+" 1
                               Samples.hospital "LOW")) = 2%nat
  /\ List.length (matched_donors
                    (match_donors Samples.rt ties_kept Samples.db "H001" "AB+" (-1)
                                  Samples.hospital "LOW")) = 1%nat.
Proof.
  split.
  - destruct (match_donors_count Samples.rt ties_kept Samples.db "H001" "AB+" 1
                Samples.hospital "LOW") as [_ [Hpos _]].
    destruct Hpos as [Hlen _]; [lia | ]. rewrite Hlen. reflexivity.
  - destruct (match_donors_count Samples.rt ties_kept Samples.db "H001" "AB+" (-1)
                Samples.hospital "LOW") as [_ [_ Hneg]].
    rewrite Hneg by lia. reflexivity.
Defined.

(** X7. The donors that come back are the best ones: the candidates split into
    the returned rows and the rest, and no row of the rest scores above a
    returned row. *)
Theorem match_donors_keeps_best (rt : runtime) (srt : sort_values) (db : Store.database)
    (hospital_id blood_type : string) (units_needed : Z)
    (hospital_location : location) (urgency_level : string) :
  exists top rest,
    Permutation (candidates rt db blood_type hospital_location urgency_level)
                (top ++ rest)
    /\ matched_donors
         (match_donors rt srt db hospital_id blood_type units_needed
                       hospital_location urgency_level)
       = map matched_entry top
    /\ Forall (fun x =>
                 Forall (fun y => matching_score y <= matching_score x) rest)
              top.
Proof.
  set (sorted := sort_rows srt (candidates rt db blood_type hospital_location urgency_level)).
  destruct (head_prefix (Z.min 10 (units_needed * 2)) sorted) as [k Hk].
  exists (firstn k sorted), (skipn k sorted).
  split; [ | split ].
  - rewrite firstn_skipn. apply sort_rows_perm.
  - rewrite match_donors_matched. unfold top_donors. fold sorted. now rewrite Hk.
  - apply (StronglySorted_split score_desc).
    rewrite firstn_skipn. apply sort_rows_desc.
Qed.

(** X8. While donor ids are unique in the store (the table's primary key), no
    donor is returned twice. *)
Theorem matched_donors_distinct (rt : runtime) (srt : sort_values) (db : Store.database)
    (hospital_id blood_type : string) (units_needed : Z)
    (hospital_location : location) (urgency_level : string) :
  NoDup (map Store.donor_id (Store.donors db)) ->
  NoDup (map md_donor_id
             (matched_donors
                (match_donors rt srt db hospital_id blood_type units_needed
                              hospital_location urgency_level))).
Proof.
  intro Hpk. rewrite match_donors_matched, map_map. unfold top_donors.
  destruct (head_prefix (Z.min 10 (units_needed * 2))
              (sort_rows srt (candidates rt db blood_type hospital_location urgency_level)))
    as [k ->].
  rewrite <- firstn_map. apply NoDup_firstn.
  apply (Permutation_NoDup
           (Permutation_map _ (sort_rows_perm srt
              (candidates rt db blood_type hospital_location urgency_level)))).
  unfold candidates. rewrite map_map. cbn.
  now apply selection_keeps_keys_distinct.
Qed.

Lemma matched_donors_distinct_witness :
  NoDup (map Store.donor_id (Store.donors Samples.db))
  /\ NoDup (map md_donor_id
                (matched_donors
                   (match_donors Samples.rt ties_kept Samples.db "H001" "AB+" 5
                                 Samples.hospital "HIGH"))).
Proof.
  assert (Hpk : NoDup (map Store.donor_id (Store.donors Samples.db))).
  { cbn. repeat (constructor; [cbn; intuition discriminate | ]). constructor. }
  split; [exact Hpk | ].
  apply (matched_donors_distinct Samples.rt ties_kept Samples.db "H001" "AB+" 5
           Samples.hospital "HIGH" Hpk).
Defined.

(** Rounding keeps a value between two bounds that have no more decimals
    than it keeps. *)
Lemma round_between (lo hi : Z) (x : Q) (n : nat) :
  inject_Z lo / inject_Z (10 ^ Z.of_nat n) <= x ->
  x <= inject_Z hi / inject_Z (10 ^ Z.of_nat n) ->
  inject_Z lo / inject_Z (10 ^ Z.of_nat n) <= Py.round x n
  /\ Py.round x n <= inject_Z hi / inject_Z (10 ^ Z.of_nat n).
Proof.
  intros Hlo Hhi. split.
  - rewrite <- (RoundFacts.round_exact lo n). now apply RoundFacts.round_mono.
  - rewrite <- (RoundFacts.round_exact hi n). now apply RoundFacts.round_mono.
Qed.

Lemma blood_score_compatible (donor needed : string) :
  In donor (_get_compatible_blood_types needed) -> 0.7 <= blood_score donor needed.
Proof.
  intro Hin. unfold blood_score.
  destruct (String.eqb donor needed); [lra | ].
  apply PyFacts.str_in_In in Hin. rewrite Hin. lra.
Qed.

(** X9. The scores as reported.  The rounded scores of the returned list are in
    non-increasing order, and each lies between 0.42 and 1: a returned donor
    is of a compatible type, so the blood-type term is at least 0.7 and the
    score at least [(0.28 + 0.03 + 0.06 + 0.1) * 0.9 = 0.423]. *)
Theorem matched_scores_reported (rt : runtime) (srt : sort_values) (db : Store.database)
    (hospital_id blood_type : string) (units_needed : Z)
    (hospital_location : location) (urgency_level : string) :
  let matched :=
    matched_donors (match_donors rt srt db hospital_id blood_type units_needed
                                 hospital_location urgency_level) in
  StronglySorted (fun a b => md_matching_score b <= md_matching_score a) matched
  /\ Forall (fun m => 0.42 <= md_matching_score m <= 1) matched.
Proof.
  cbv zeta. rewrite match_donors_matched. split.
  - apply (StronglySorted_map score_desc).
    + intros x y Hxy. cbn. now apply RoundFacts.round_mono.
    + unfold top_donors.
      destruct (head_prefix (Z.min 10 (units_needed * 2))
                  (sort_rows srt (candidates rt db blood_type hospital_location
                                             urgency_level))) as [k ->].
      apply StronglySorted_firstn, sort_rows_desc.
  - apply Forall_map, Forall_forall. intros s Hs.
    destruct (top_donors_from_query rt srt db blood_type units_needed
                hospital_location urgency_level s Hs) as [Hscore [_ [_ Htype]]].
    cbn [md_matching_score matched_entry].
    assert (Hrange : 0.423 <= matching_score s <= 1).
    { rewrite Hscore. cbn [matching_score score_donor].
      rewrite score_by_terms. unfold weighted_sum.
      pose proof (blood_score_compatible _ _ Htype) as Hb.
      pose proof (blood_score_range (Store.donor_blood_type (row s)) blood_type) as Hb'.
      pose proof (distance_score_range
                    (haversine_km rt (latitude hospital_location)
                       (longitude hospital_location)
                       (Store.location_lat (row s)) (Store.location_lng (row s)))) as Hd.
      pose proof (donation_score_range rt (Store.last_donation_date (row s))) as Hr.
      destruct (urgency_multiplier_values urgency_level)
        as [[_ ->] | [[_ ->] | [[_ ->] | [_ [_ [_ ->]]]]]];
        unfold Py.min; py_cases; lra. }
    assert (E42 : inject_Z 42 / inject_Z (10 ^ Z.of_nat 2) == 0.42) by reflexivity.
    assert (E100 : inject_Z 100 / inject_Z (10 ^ Z.of_nat 2) == 1) by reflexivity.
    destruct (round_between 42 100 (matching_score s) 2) as [Hlo Hhi].
    + rewrite E42. lra.
    + rewrite E100. lra.
    + rewrite E42 in Hlo. rewrite E100 in Hhi. split; assumption.
Qed.

(** ** ShortageEstimator, beyond the tiers *)

Lemma round_comp (x y : Q) (n : nat) : x == y -> Py.round x n = Py.round y n.
Proof.
  intro H. unfold Py.round. cbv zeta.
  rewrite (RoundFacts.round_half_even_comp (x * inject_Z (10 ^ Z.of_nat n))
             (y * inject_Z (10 ^ Z.of_nat n))); [reflexivity | ].
  now rewrite H.
Qed.

Lemma int_floor (x : Q) : 0 <= x -> Py.int x = Qfloor x.
Proof.
  destruct x as [n d]. unfold Qle. cbn. intro H.
  unfold Py.int. cbn. apply Z.quot_div_nonneg; lia.
Qed.

(** X10. The risk against the days remaining.  With more days left the level is
    never more severe.  The score never rises by more than 0.001, and does
    not rise at all unless the two inputs lie on either side of the 7-day
    mark: there the HIGH formula ends at 0.60 and the MEDIUM formula starts
    from below 0.601. *)
Theorem risk_against_days (current_units1 avg1 current_units2 avg2 : Q) :
  let v1 := calculate_risk_locals current_units1 avg1 in
  let v2 := calculate_risk_locals current_units2 avg2 in
  0 <= days_remaining v1 -> days_remaining v1 <= days_remaining v2 ->
  (level_rank (risk_level v2) <= level_rank (risk_level v1))%nat
  /\ risk_score v2 <= risk_score v1 + 0.001
  /\ (days_remaining v2 <= 7 \/ 7 < days_remaining v1 ->
      risk_score v2 <= risk_score v1).
Proof.
  cbv zeta. intros H0 Hle.
  pose proof (calculate_risk_branches current_units1 avg1) as B1.
  pose proof (calculate_risk_branches current_units2 avg2) as B2.
  cbv zeta in B1, B2.
  set (d1 := days_remaining (calculate_risk_locals current_units1 avg1)) in *.
  set (d2 := days_remaining (calculate_risk_locals current_units2 avg2)) in *.
  clearbody d1 d2.
  assert (Hq : 14 < d1 -> 30 / d2 <= 30 / d1 /\ 0 <= 30 / d2).
  { clear B1 B2. intro H14.
    assert (Hd : 30 / d1 * d1 == 30) by (field; lra).
    assert (Hp : 0 <= 30 / d1) by (apply Qle_shift_div_l; lra).
    split.
    - apply Qle_shift_div_r; [lra | ].
      set (q := 30 / d1) in *. clearbody q. nra.
    - apply Qle_shift_div_l; lra. }
  set (q1 := 30 / d1) in *. set (q2 := 30 / d2) in *.
  clearbody q1 q2.
  destruct B1 as [[A1 [L1 S1]] | [[A1 [A1' [L1 S1]]] | [[A1 [A1' [L1 S1]]] | [A1 [L1 S1]]]]];
  destruct B2 as [[A2 [L2 S2]] | [[A2 [A2' [L2 S2]]] | [[A2 [A2' [L2 S2]]] | [A2 [L2 S2]]]]];
  rewrite L1, L2, S1, S2; clear L1 L2 S1 S2; try lra;
  (split; [cbn; lia | ]);
  unfold Py.max, Py.min;
  (split; [ | intros [Hc | Hc]]); py_cases; py_cases_hyps; try lra;
  destruct (Hq ltac:(lra)); lra.
Qed.

(** 7 days and 7.001 days: HIGH with 0.60, then MEDIUM with 0.600957. *)
Lemma risk_against_days_witness :
  risk_score (calculate_risk_locals 7 1) < risk_score (calculate_risk_locals 7.001 1)
  /\ risk_score (calculate_risk_locals 7.001 1)
     <= risk_score (calculate_risk_locals 7 1) + 0.001
  /\ (level_rank (risk_level (calculate_risk_locals 7.001 1))
      <= level_rank (risk_level (calculate_risk_locals 7 1)))%nat.
Proof.
  split; [reflexivity | ].
  destruct (risk_against_days 7 1 7.001 1) as [Hl [Hs _]].
  - intro H. discriminate H.
  - intro H. discriminate H.
  - split; [exact Hs | exact Hl].
Defined.

(** The raw score by branch, for any input. *)
Lemma risk_score_by_level (current_units avg_daily_usage : Q) :
  let v := calculate_risk_locals current_units avg_daily_usage in
  (risk_level v = "CRITICAL" /\ 0.90 <= risk_score v <= 1)
  \/ (risk_level v = "HIGH" /\ 0.60 <= risk_score v <= 0.90)
  \/ (risk_level v = "MEDIUM" /\ 0.30 <= risk_score v <= 0.60 + 0.001)
  \/ (risk_level v = "LOW" /\ 0.10 <= risk_score v <= 0.30).
Proof.
  cbv zeta.
  pose proof (calculate_risk_branches current_units avg_daily_usage) as B.
  cbv zeta in B.
  set (v := calculate_risk_locals current_units avg_daily_usage) in *.
  set (d := days_remaining v) in *. clearbody d.
  set (q := 30 / d) in *. clearbody q.
  destruct B as [[A [L S]] | [[A [A' [L S]]] | [[A [A' [L S]]] | [A [L S]]]]];
    rewrite S; clear S; unfold Py.max, Py.min;
    [left | right; left | right; right; left | right; right; right];
    (split; [exact L | py_cases; lra]).
Qed.

(** X11. The returned level and score agree.  The level is one of the four, and
    the score as returned (two decimals) lies in the band of the level:
    [[0.90, 1]] for CRITICAL, [[0.60, 0.90]] for HIGH, [[0.30, 0.60]] for
    MEDIUM, [[0.10, 0.30]] for LOW.  No input is excluded. *)
Theorem returned_risk_band (rt : runtime) (current_units avg_daily_usage : Q)
    (hospital_id blood_type : string) :
  let p := _calculate_risk rt current_units avg_daily_usage hospital_id blood_type in
  (p_risk_level p = "CRITICAL" /\ 0.90 <= p_risk_score p <= 1)
  \/ (p_risk_level p = "HIGH" /\ 0.60 <= p_risk_score p <= 0.90)
  \/ (p_risk_level p = "MEDIUM" /\ 0.30 <= p_risk_score p <= 0.60)
  \/ (p_risk_level p = "LOW" /\ 0.10 <= p_risk_score p <= 0.30).
Proof.
  cbv zeta.
  destruct (calculate_risk_returns rt current_units avg_daily_usage hospital_id blood_type)
    as [-> ->].
  set (v := calculate_risk_locals current_units avg_daily_usage).
  assert (E10 : inject_Z 10 / inject_Z (10 ^ Z.of_nat 2) == 0.10) by reflexivity.
  assert (E30 : inject_Z 30 / inject_Z (10 ^ Z.of_nat 2) == 0.30) by reflexivity.
  assert (E60 : inject_Z 60 / inject_Z (10 ^ Z.of_nat 2) == 0.60) by reflexivity.
  assert (E90 : inject_Z 90 / inject_Z (10 ^ Z.of_nat 2) == 0.90) by reflexivity.
  assert (E100 : inject_Z 100 / inject_Z (10 ^ Z.of_nat 2) == 1) by reflexivity.
  destruct (risk_score_by_level current_units avg_daily_usage)
    as [[L [Hlo Hhi]] | [[L [Hlo Hhi]] | [[L [Hlo Hhi]] | [L [Hlo Hhi]]]]];
    fold v in L, Hlo, Hhi.
  - left. split; [exact L | ].
    destruct (round_between 90 100 (risk_score v) 2) as [H1 H2];
      [rewrite E90; lra | rewrite E100; lra | ].
    rewrite E90 in H1. rewrite E100 in H2. split; assumption.
  - right; left. split; [exact L | ].
    destruct (round_between 60 90 (risk_score v) 2) as [H1 H2];
      [rewrite E60; lra | rewrite E90; lra | ].
    rewrite E60 in H1. rewrite E90 in H2. split; assumption.
  - right; right; left. split; [exact L | ].
    split.
    + destruct (round_between 30 100 (risk_score v) 2) as [H1 _];
        [rewrite E30; lra | rewrite E100; lra | ].
      now rewrite E30 in H1.
    + (* 0.601 itself rounds down to 0.60 *)
      apply Qle_trans with (Py.round (0.60 + 0.001) 2).
      * now apply RoundFacts.round_mono.
      * intro H. discriminate H.
  - right; right; right. split; [exact L | ].
    destruct (round_between 10 30 (risk_score v) 2) as [H1 H2];
      [rewrite E10; lra | rewrite E30; lra | ].
    rewrite E10 in H1. rewrite E30 in H2. split; assumption.
Qed.

Lemma days_remaining_eq (current_units avg_daily_usage : Q) :
  days_remaining (calculate_risk_locals current_units avg_daily_usage)
  = current_units / (if Qeq_bool avg_daily_usage 0 then 1 else avg_daily_usage).
Proof.
  unfold calculate_risk_locals.
  repeat match goal with
  | |- context [Py.leb ?a ?b] => destruct (Py.leb a b)
  end; reflexivity.
Qed.

Lemma calculate_risk_shortage (rt : runtime) (current_units avg_daily_usage : Q)
    (hospital_id blood_type : string) :
  let v := calculate_risk_locals current_units avg_daily_usage in
  let p := _calculate_risk rt current_units avg_daily_usage hospital_id blood_type in
  (days_remaining v < 30 ->
   p_days_to_shortage p = Some (Py.int (days_remaining v))
   /\ p_expected_shortage_date p = Some (Qfloor (now_days rt + days_remaining v)))
  /\ (30 <= days_remaining v ->
      p_days_to_shortage p = None /\ p_expected_shortage_date p = None).
Proof.
  cbv zeta. unfold _calculate_risk. cbv zeta.
  split; intro H.
  - apply PyFacts.ltb_lt in H. rewrite H. split; reflexivity.
  - apply PyFacts.ltb_ge in H. rewrite H. split; reflexivity.
Qed.




(** X13. Empty stock.  With [current_units = 0] the prediction is CRITICAL
    whatever the usage, the returned score is 1.0 (0.999 rounded), the days
    to shortage are 0 and the shortage date is today. *)
Theorem empty_stock_is_critical (rt : runtime) (avg_daily_usage : Q)
    (hospital_id blood_type : string) :
  let p := _calculate_risk rt 0 avg_daily_usage hospital_id blood_type in
  p_risk_level p = "CRITICAL"
  /\ p_risk_score p == 1
  /\ p_days_to_shortage p = Some 0%Z
  /\ p_expected_shortage_date p = Some (now_ordinal rt)
  /\ p_current_units p = 0%Z.
Proof.
  cbv zeta.
  assert (Hd : days_remaining (calculate_risk_locals 0 avg_daily_usage) == 0).
  { rewrite days_remaining_eq. unfold Qdiv. ring. }
  destruct (calculate_risk_returns rt 0 avg_daily_usage hospital_id blood_type)
    as [Hl Hs].
  destruct (calculate_risk_shortage rt 0 avg_daily_usage hospital_id blood_type)
    as [Hsome _].
  destruct Hsome as [Hk Hdate]; [rewrite Hd; reflexivity | ].
  pose proof (calculate_risk_branches 0 avg_daily_usage) as B. cbv zeta in B.
  destruct B as [[A [L S]] | [[A [A' [L S]]] | [[A [A' [L S]]] | [A [L S]]]]];
    try (rewrite Hd in A; exfalso; revert A; apply Qle_not_lt; discriminate).
  split; [now rewrite Hl | ].
  split.
  { rewrite Hs, S.
    rewrite (round_comp _ 0.999 2); [reflexivity | ].
    rewrite PyFacts.min_Qmin, Hd. reflexivity. }
  split.
  { rewrite Hk. apply f_equal. rewrite int_floor by (rewrite Hd; discriminate).
    now rewrite (Qfloor_comp _ _ Hd). }
  split; [ | reflexivity].
  rewrite Hdate. apply f_equal. unfold now_ordinal. apply Qfloor_comp.
  rewrite Hd. ring.
Qed.

(** ** The inventory endpoints *)

Import Inventory.

Lemma truthy_nonempty (s : string) : s <> "" -> Py.truthy (Some s) = true.
Proof.
  intro H. cbn. destruct (String.eqb_spec s ""); [contradiction | reflexivity].
Qed.

(** With both arguments given and not empty, the query selects by the key. *)
Lemma select_by_key (t : table) (h b : string) :
  h <> "" -> b <> "" ->
  select_inventory t (Some h) (Some b)
  = filter (fun r => Store.key_eqb (row_key r) (h, b)) t.
Proof.
  intros Hh Hb. unfold select_inventory. cbv zeta.
  rewrite (truthy_nonempty h Hh).
  rewrite in_order_same.
  - apply filter_ext. intro r.
    unfold Store.opt_filter. rewrite !truthy_nonempty by assumption.
    reflexivity.
  - intros r1 r2 H1 H2. apply filter_In in H1, H2.
    destruct H1 as [_ H1], H2 as [_ H2].
    apply andb_true_iff in H1, H2. destruct H1 as [_ H1], H2 as [_ H2].
    unfold Store.opt_filter in H1, H2.
    rewrite (truthy_nonempty b Hb) in H1, H2.
    apply String.eqb_eq in H1, H2. rewrite H1, H2.
    unfold Store.text_le. destruct (String.leb_total b b); assumption.
Qed.

Lemma key_eqb_sym (k1 k2 : Store.group_key) : Store.key_eqb k1 k2 = Store.key_eqb k2 k1.
Proof.
  unfold Store.key_eqb. now rewrite (String.eqb_sym (fst k1)), (String.eqb_sym (snd k1)).
Qed.

Lemma key_eqb_neq (k1 k2 : Store.group_key) : Store.key_eqb k1 k2 = false <-> k1 <> k2.
Proof.
  rewrite <- key_eqb_eq. destruct (Store.key_eqb k1 k2); split; congruence.
Qed.

(** The keys after an upsert: as before when the key was there, with the new
    key at the end otherwise. *)
Lemma upsert_keys (h b : string) (n : Z) (s1 s2 : string) (t : table) :
  map row_key (upsert h b n s1 s2 t)
  = if existsb (fun r => Store.key_eqb (h, b) (row_key r)) t
    then map row_key t
    else List.app (map row_key t) [(h, b)].
Proof.
  induction t as [ | r t IH]; [reflexivity | ].
  cbn [upsert existsb].
  destruct (Store.key_eqb (h, b) (row_key r)) eqn:E; cbn [orb map].
  - reflexivity.
  - rewrite IH.
    destruct (existsb (fun r0 => Store.key_eqb (h, b) (row_key r0)) t); reflexivity.
Qed.

Lemma upsert_keeps_key_unique (h b : string) (n : Z) (s1 s2 : string) (t : table) :
  NoDup (map row_key t) -> NoDup (map row_key (upsert h b n s1 s2 t)).
Proof.
  intro Hnd. rewrite upsert_keys.
  destruct (existsb (fun r => Store.key_eqb (h, b) (row_key r)) t) eqn:E;
    [exact Hnd | ].
  apply NoDup_app_remove_l with (l := []). cbn.
  apply Permutation_NoDup with (l := (h, b) :: map row_key t).
  - apply Permutation_cons_append.
  - constructor; [ | exact Hnd].
    intro Hin. apply in_map_iff in Hin. destruct Hin as [r [Hk Hr]].
    assert (Hex : existsb (fun r0 => Store.key_eqb (h, b) (row_key r0)) t = true).
    { apply existsb_exists. exists r. split; [exact Hr | ].
      apply key_eqb_eq. now symmetry. }
    congruence.
Qed.

Lemma filter_none {A : Type} (p : A -> bool) (l : list A) :
  (forall x, In x l -> p x = false) -> filter p l = [].
Proof.
  induction l as [ | x l IH]; cbn; intro H; [reflexivity | ].
  rewrite (H x) by now left. apply IH. intros y Hy. apply H. now right.
Qed.

(** The row of the key after an upsert. *)
Lemma upsert_row_of_key (h b : string) (n : Z) (s1 s2 : string) (t : table) :
  NoDup (map row_key t) ->
  filter (fun r => Store.key_eqb (row_key r) (h, b)) (upsert h b n s1 s2 t)
  = [ {| inv_hospital_id := h;
         inv_blood_type := b;
         current_units := n;
         last_updated :=
           if existsb (fun r => Store.key_eqb (h, b) (row_key r)) t then s2 else s1 |} ].
Proof.
  induction t as [ | r t IH]; intro Hnd.
  - cbn [upsert filter existsb]. unfold row_key at 1.
    cbn [inv_hospital_id inv_blood_type]. now rewrite key_eqb_refl.
  - cbn [upsert existsb]. inversion Hnd as [ | ? ? Hr Hnd']; subst.
    destruct (Store.key_eqb (h, b) (row_key r)) eqn:E.
    + apply key_eqb_eq in E. cbn [orb filter].
      assert (Hkey : Store.key_eqb
                       (row_key {| inv_hospital_id := inv_hospital_id r;
                                   inv_blood_type := inv_blood_type r;
                                   current_units := n;
                                   last_updated := s2 |}) (h, b) = true).
      { apply key_eqb_eq. now rewrite E. }
      rewrite Hkey.
      assert (Hnone : filter (fun r0 => Store.key_eqb (row_key r0) (h, b)) t = []).
      { apply filter_none. intros r0 H0. apply key_eqb_neq. intro Heq.
        apply Hr. rewrite <- E, <- Heq. now apply in_map. }
      rewrite Hnone. inversion E. reflexivity.
    + cbn [orb filter]. rewrite key_eqb_sym, E. now apply IH.
Qed.

(** The rows of any other key are untouched. *)
Lemma upsert_other_keys (h b : string) (n : Z) (s1 s2 : string) (t : table)
    (k : Store.group_key) :
  k <> (h, b) ->
  filter (fun r => Store.key_eqb (row_key r) k) (upsert h b n s1 s2 t)
  = filter (fun r => Store.key_eqb (row_key r) k) t.
Proof.
  intro Hk. induction t as [ | r t IH].
  - assert (E : Store.key_eqb (h, b) k = false).
    { apply key_eqb_neq. congruence. }
    cbn [upsert filter]. unfold row_key at 1.
    cbn [inv_hospital_id inv_blood_type]. now rewrite E.
  - cbn [upsert]. destruct (Store.key_eqb (h, b) (row_key r)) eqn:E.
    + apply key_eqb_eq in E. cbn [filter].
      assert (E1 : Store.key_eqb (row_key r) k = false).
      { apply key_eqb_neq. congruence. }
      rewrite E1.
      assert (E2 : Store.key_eqb
                     (row_key {| inv_hospital_id := inv_hospital_id r;
                                 inv_blood_type := inv_blood_type r;
                                 current_units := n;
                                 last_updated := s2 |}) k = false).
      { exact E1. }
      now rewrite E2.
    + cbn [filter]. now rewrite IH.
Qed.

Lemma upsert_length (h b : string) (n : Z) (s1 s2 : string) (t : table) :
  (List.length t <= List.length (upsert h b n s1 s2 t) <= List.length t + 1)%nat.
Proof.
  induction t as [ | r t IH]; cbn [upsert]; [cbn; lia | ].
  destruct (Store.key_eqb (h, b) (row_key r)); cbn [List.length]; lia.
Qed.

Lemma sqlite_integer_range (n : Z) :
  sqlite_integer n = true <-> (- 2 ^ 63 <= n < 2 ^ 63)%Z.
Proof.
  unfold sqlite_integer. rewrite andb_true_iff, Z.leb_le, Z.ltb_lt. tauto.
Qed.

(** X14. Write, then read.  On a table whose keys are unique (its primary key),
    an update for [(hospital_id, blood_type, units)] with both texts not
    empty and units that fit a 64-bit integer answers 200, and a read of
    that key then returns exactly one row, with those units and one of the
    two timestamps of the update; a read of any other key returns what it
    returned before.  With units outside that range the update answers 500
    with the text of the [OverflowError] and the table is as it was.  Either
    way the keys stay unique and the table grows by at most one row. *)
Theorem inventory_write_then_read (t : table) (h b : string) (n : Z) (s1 s2 : string) :
  NoDup (map row_key t) -> h <> "" -> b <> "" ->
  let data := {| ub_hospital_id := Some h;
                 ub_blood_type := Some b;
                 ub_current_units := Some n |} in
  let t' := fst (update_inventory t data s1 s2) in
  let answer := snd (update_inventory t data s1 s2) in
  ((- 2 ^ 63 <= n < 2 ^ 63)%Z ->
   answer = Updated data
   /\ (exists stamp,
          (stamp = s1 \/ stamp = s2)
          /\ inventory (get_inventory t' (Some h) (Some b))
             = [ {| inv_hospital_id := h; inv_blood_type := b;
                    current_units := n; last_updated := stamp |} ])
   /\ total_count (get_inventory t' (Some h) (Some b)) = 1%Z
   /\ (forall h' b',
          h' <> "" -> b' <> "" -> (h', b') <> (h, b) ->
          get_inventory t' (Some h') (Some b') = get_inventory t (Some h') (Some b')))
  /\ (~ (- 2 ^ 63 <= n < 2 ^ 63)%Z ->
      answer = UpdateError "Python int too large to convert to SQLite INTEGER"
      /\ t' = t)
  /\ NoDup (map row_key t')
  /\ (List.length t <= List.length t' <= List.length t + 1)%nat.
Proof.
  intros Hpk Hh Hb. cbv zeta. cbn [update_inventory ub_hospital_id ub_blood_type
                                    ub_current_units].
  pose proof (sqlite_integer_range n) as Hrange.
  destruct (sqlite_integer n); cbn [fst snd].
  - split; [intros _ | split; [intro Hout; exfalso; apply Hout; now apply Hrange | ]].
    + split; [reflexivity | ].
      assert (Hrow := upsert_row_of_key h b n s1 s2 t Hpk).
      split; [ | split ].
      * eexists. split; [ | unfold get_inventory; cbn [inventory];
                            rewrite select_by_key by assumption; exact Hrow].
        destruct (existsb _ t); auto.
      * unfold get_inventory. cbn [total_count].
        rewrite select_by_key by assumption. now rewrite Hrow.
      * intros h' b' Hh' Hb' Hne. unfold get_inventory.
        rewrite !select_by_key by assumption.
        now rewrite (upsert_other_keys h b n s1 s2 t (h', b') Hne).
    + split; [now apply upsert_keeps_key_unique | apply upsert_length].
  - split; [intro Hin; apply Hrange in Hin; discriminate Hin | ].
    split; [intros _; split; reflexivity | ].
    split; [exact Hpk | lia].
Qed.

(** The sample table: 45 units of O+ written for H001, then read. *)
Lemma inventory_write_then_read_witness :
  NoDup (map row_key Scenario.inventory)
  /\ total_count
       (get_inventory
          (fst (update_inventory Scenario.inventory
                  {| ub_hospital_id := Some "H001";
                     ub_blood_type := Some "O+";
                     ub_current_units := Some 45%Z |}
                  "2024-10-03T12:00:00.000001" "2024-10-03T12:00:00.000002"))
          (Some "H001") (Some "O+")) = 1%Z.
Proof.
  assert (Hpk : NoDup (map row_key Scenario.inventory)).
  { cbn. repeat (constructor; [cbn; intuition discriminate | ]). constructor. }
  split; [exact Hpk | ].
  destruct (inventory_write_then_read Scenario.inventory "H001" "O+" 45
              "2024-10-03T12:00:00.000001" "2024-10-03T12:00:00.000002" Hpk)
    as [Hin _]; try discriminate.
  destruct Hin as [_ [_ [Hcount _]]]; [lia | exact Hcount].
Defined.

Lemma upsert_twice (h b : string) (n1 n2 : Z) (s1 s2 s1' s2' : string) (t : table) :
  upsert h b n2 s1' s2' (upsert h b n1 s1 s2 t) = upsert h b n2 s2' s2' t.
Proof.
  induction t as [ | r t IH].
  - cbn [upsert]. unfold row_key at 1. cbn [inv_hospital_id inv_blood_type].
    now rewrite key_eqb_refl.
  - cbn [upsert]. destruct (Store.key_eqb (h, b) (row_key r)) eqn:E.
    + cbn [upsert]. unfold row_key at 1. cbn [inv_hospital_id inv_blood_type].
      fold (row_key r). now rewrite E.
    + cbn [upsert]. now rewrite E, IH.
Qed.

(** X15. The last write wins.  Two updates of the same key, each with units
    that fit a 64-bit integer, leave the table as the second one alone
    would, the row carrying the second update's units and its later
    timestamp; the first update's units are gone.  A second update whose
    units do not fit fails and leaves the table of the first. *)
Theorem inventory_last_write_wins (t : table) (h b : string) (n1 n2 : Z)
    (s1 s2 s1' s2' : string) :
  let body n := {| ub_hospital_id := Some h;
                   ub_blood_type := Some b;
                   ub_current_units := Some n |} in
  let t1 := fst (update_inventory t (body n1) s1 s2) in
  let t2 := fst (update_inventory t1 (body n2) s1' s2') in
  ((- 2 ^ 63 <= n1 < 2 ^ 63)%Z -> (- 2 ^ 63 <= n2 < 2 ^ 63)%Z ->
   t2 = fst (update_inventory t (body n2) s2' s2'))
  /\ (~ (- 2 ^ 63 <= n2 < 2 ^ 63)%Z -> t2 = t1).
Proof.
  cbv zeta. cbn [update_inventory ub_hospital_id ub_blood_type ub_current_units].
  pose proof (sqlite_integer_range n1) as H1.
  pose proof (sqlite_integer_range n2) as H2.
  split.
  - intros Hn1 Hn2. apply H1 in Hn1. apply H2 in Hn2. rewrite Hn1, Hn2.
    cbn [fst]. apply upsert_twice.
  - intro Hout. destruct (sqlite_integer n2); [ | reflexivity].
    exfalso. apply Hout. now apply H2.
Qed.

(** 45 units, then 40, of O+ for H001 on the sample table. *)
Lemma inventory_last_write_wins_witness :
  let body n := {| ub_hospital_id := Some "H001";
                   ub_blood_type := Some "O+";
                   ub_current_units := Some n |} in
  fst (update_inventory
         (fst (update_inventory Scenario.inventory (body 45%Z) "s1" "s2"))
         (body 40%Z) "s3" "s4")
  = fst (update_inventory Scenario.inventory (body 40%Z) "s4" "s4").
Proof.
  cbv zeta.
  apply (inventory_last_write_wins Scenario.inventory "H001" "O+" 45 40
           "s1" "s2" "s3" "s4"); lia.
Defined.

(** ** [predict_shortages] and [get_risks] *)

Import Shortages.

Lemma find_key (rk : Store.group_key) (ks : list Store.group_key) :
  find (fun k => Store.key_eqb rk k) ks
  = if existsb (fun k => Store.key_eqb rk k) ks then Some rk else None.
Proof.
  induction ks as [ | k ks IH]; cbn; [reflexivity | ].
  destruct (Store.key_eqb rk k) eqn:E; cbn.
  - apply key_eqb_eq in E. now subst.
  - exact IH.
Qed.

Lemma find_map {A B : Type} (p : B -> bool) (f : A -> B) (l : list A) :
  find p (map f l) = option_map f (find (fun a => p (f a)) l).
Proof.
  induction l as [ | a l IH]; cbn; [reflexivity | ].
  destruct (p (f a)); [reflexivity | exact IH].
Qed.

Lemma find_ext {A : Type} (p q : A -> bool) (l : list A) :
  (forall a, p a = q a) -> find p l = find q l.
Proof.
  intro H. induction l as [ | a l IH]; cbn; [reflexivity | ].
  rewrite H, IH. reflexivity.
Qed.

Lemma usages_of_nil (k : Store.group_key) (us : list Store.usage) :
  Analytics.usages_of k us = [] <-> ~ In k (map Analytics.usage_key us).
Proof.
  unfold Analytics.usages_of. split.
  - intros Hnil Hin. apply in_map_iff in Hin. destruct Hin as [u [Hk Hu]].
    assert (Hf : In u (filter (fun u0 => Store.key_eqb k (Analytics.usage_key u0)) us)).
    { apply filter_In. split; [exact Hu | ]. apply key_eqb_eq. now symmetry. }
    rewrite Hnil in Hf. contradiction.
  - intro Hnot. apply filter_none. intros u Hu. apply key_eqb_neq.
    intro Heq. apply Hnot. rewrite Heq. now apply in_map.
Qed.

Lemma merged_avg_is_recent_mean (us : list Store.usage) (row : inventory_row) :
  merged_avg_daily_usage (usage_frame us) row = recent_mean us row.
Proof.
  unfold merged_avg_daily_usage, usage_frame, recent_mean.
  rewrite find_map. cbn [ua_hospital_id ua_blood_type].
  rewrite (find_ext _ (fun k => Store.key_eqb (row_key row) k))
    by (intros [h b]; reflexivity).
  rewrite find_key.
  destruct (existsb (fun k => Store.key_eqb (row_key row) k)
              (Store.group_keys (map Analytics.usage_key us))) eqn:E.
  - cbn [option_map avg_daily_usage].
    destruct (map Store.units_used (Analytics.usages_of (row_key row) us)) eqn:Hg;
      [ | reflexivity].
    exfalso. apply map_eq_nil in Hg. apply usages_of_nil in Hg. apply Hg.
    apply existsb_exists in E. destruct E as [k [Hk Heq]].
    apply key_eqb_eq in Heq. subst k.
    exact (proj1 (group_keys_In _ _) Hk).
  - cbn [option_map].
    assert (Hnot : ~ In (row_key row) (map Analytics.usage_key us)).
    { intro Hin. apply (proj2 (group_keys_In _ _)) in Hin.
      assert (Hex : existsb (fun k => Store.key_eqb (row_key row) k)
                      (Store.group_keys (map Analytics.usage_key us)) = true).
      { apply existsb_exists. exists (row_key row). split; [exact Hin | ].
        apply key_eqb_refl. }
      congruence. }
    apply usages_of_nil in Hnot. now rewrite Hnot.
Qed.

Lemma usage_substituted (current_units avg : Q) :
  avg == 0 -> avg_daily_usage_used (calculate_risk_locals current_units avg) = 1.
Proof.
  intro H. unfold calculate_risk_locals. rewrite (Qeq_eq_bool _ _ H).
  repeat match goal with
  | |- context [Py.leb ?a ?b] => destruct (Py.leb a b)
  end; reflexivity.
Qed.

Lemma int_inject_Z (z : Z) : Py.int (inject_Z z) = z.
Proof. unfold Py.int. cbn. apply Z.quot_1_r. Qed.

Lemma usage_kept (current_units avg : Q) :
  ~ avg == 0 -> avg_daily_usage_used (calculate_risk_locals current_units avg) = avg.
Proof.
  intro H. unfold calculate_risk_locals.
  destruct (Qeq_bool avg 0) eqn:E; [apply Qeq_bool_eq in E; contradiction | ].
  repeat match goal with
  | |- context [Py.leb ?a ?b] => destruct (Py.leb a b)
  end; reflexivity.
Qed.

(** With no usage on record the days remaining are the units, a whole
    number, and the level follows from the units. *)
Lemma level_by_units (units : Z) :
  let v := calculate_risk_locals (inject_Z units) 0 in
  days_remaining v == inject_Z units
  /\ ((units <= 3)%Z -> risk_level v = "CRITICAL")
  /\ ((3 < units <= 7)%Z -> risk_level v = "HIGH")
  /\ ((7 < units <= 14)%Z -> risk_level v = "MEDIUM")
  /\ ((14 < units)%Z -> risk_level v = "LOW").
Proof.
  cbv zeta.
  assert (Hd : days_remaining (calculate_risk_locals (inject_Z units) 0)
               == inject_Z units).
  { rewrite days_remaining_eq. change (Qeq_bool 0 0) with true. cbn match. field. }
  split; [exact Hd | ].
  pose proof (calculate_risk_branches (inject_Z units) 0) as B. cbv zeta in B.
  set (v := calculate_risk_locals (inject_Z units) 0) in *.
  set (d := days_remaining v) in *. clearbody d.
  repeat split; intro Hu;
    destruct B as [[A [L _]] | [[A [A' [L _]]] | [[A [A' [L _]]] | [A [L _]]]]];
    try exact L; exfalso; rewrite Hd in *;
    repeat match goal with
    | H : inject_Z _ <= inject_Z _ |- _ => rewrite <- Zle_Qle in H
    | H : inject_Z _ < inject_Z _ |- _ => rewrite <- Zlt_Qlt in H
    | H : inject_Z _ <= ?q |- _ =>
        change q with (inject_Z 3) in H || change q with (inject_Z 7) in H
        || change q with (inject_Z 14) in H
    | H : ?q < inject_Z _ |- _ =>
        change q with (inject_Z 3) in H || change q with (inject_Z 7) in H
        || change q with (inject_Z 14) in H
    end; lia.
Qed.

(** The rows the inventory query selects, whatever order they come in. *)
Lemma select_inventory_perm (inv : table) (hospital_id blood_type : option string) :
  Permutation
    (filter (fun r => Store.opt_filter hospital_id (inv_hospital_id r)
                      && Store.opt_filter blood_type (inv_blood_type r))
            inv)
    (select_inventory inv hospital_id blood_type).
Proof.
  unfold select_inventory. cbv zeta.
  destruct (Py.truthy hospital_id); [apply in_order_perm | reflexivity].
Qed.

(** X16. One prediction per inventory row.  [predict_shortages] returns exactly
    one prediction for each inventory row that passes the two optional
    filters, under the row's hospital, blood type and units.  A row whose key
    has no usage record of the last 30 days is estimated at one unit a day:
    the returned average is 1, the level follows from the units (CRITICAL up
    to 3, HIGH up to 7, MEDIUM up to 14, LOW above) and, with fewer than 30
    units, the days to shortage are the units.  For a row with such records
    the returned average is their mean to two decimals, and 1 if that mean
    is 0. *)
Theorem predictions_follow_inventory (rt : runtime) (inv : table) (db : Store.database)
    (hospital_id blood_type : option string) :
  let wanted row :=
    Store.opt_filter hospital_id (inv_hospital_id row)
    && Store.opt_filter blood_type (inv_blood_type row) in
  let recent :=
    filter (usage_selected rt hospital_id blood_type) (Store.blood_usage_history db) in
  let predictions := predict_shortages rt inv db hospital_id blood_type in
  let predicts row p :=
    let units := current_units row in
    let used := map Store.units_used (Analytics.usages_of (row_key row) recent) in
    let mean := inject_Z (Py.sumZ used) / inject_Z (Z.of_nat (List.length used)) in
    p_hospital_id p = inv_hospital_id row
    /\ p_blood_type p = inv_blood_type row
    /\ p_current_units p = units
    /\ (used = [] ->
        p_avg_daily_usage p == 1
        /\ ((units <= 3)%Z -> p_risk_level p = "CRITICAL")
        /\ ((3 < units <= 7)%Z -> p_risk_level p = "HIGH")
        /\ ((7 < units <= 14)%Z -> p_risk_level p = "MEDIUM")
        /\ ((14 < units)%Z -> p_risk_level p = "LOW")
        /\ ((0 <= units < 30)%Z -> p_days_to_shortage p = Some units))
    /\ (used <> [] ->
        (~ mean == 0 -> Qabs (p_avg_daily_usage p - mean) <= 0.005)
        /\ (mean == 0 -> p_avg_daily_usage p == 1)) in
  List.length predictions = List.length (filter wanted inv)
  /\ (forall row, In row inv -> wanted row = true ->
        exists p, In p predictions /\ predicts row p)
  /\ (forall p, In p predictions ->
        exists row, In row inv /\ wanted row = true /\ predicts row p).
Proof.
  intros wanted recent predictions predicts.
  pose proof (select_inventory_perm inv hospital_id blood_type) as Hperm.
  fold wanted in Hperm.
  assert (Hrow : forall row,
             predicts row
               (_calculate_risk rt (inject_Z (current_units row))
                  (merged_avg_daily_usage (usage_frame recent) row)
                  (inv_hospital_id row) (inv_blood_type row))).
  { intro row. subst predicts. cbv zeta.
    rewrite merged_avg_is_recent_mean.
    split; [reflexivity | ]. split; [reflexivity | ].
    split; [apply int_inject_Z | ].
    unfold recent_mean.
    set (used := map Store.units_used (Analytics.usages_of (row_key row) recent)).
    split.
    - intro Hnone. rewrite Hnone.
      destruct (level_by_units (current_units row)) as [Hd [L1 [L2 [L3 L4]]]].
      assert (Hused : avg_daily_usage_used
                        (calculate_risk_locals (inject_Z (current_units row)) 0) = 1).
      { apply usage_substituted. reflexivity. }
      split.
      { unfold _calculate_risk. cbn [p_avg_daily_usage]. rewrite Hused. reflexivity. }
      split; [exact L1 | ]. split; [exact L2 | ]. split; [exact L3 | ].
      split; [exact L4 | ].
      intros [H0 H30].
      destruct (calculate_risk_shortage rt (inject_Z (current_units row)) 0
                  (inv_hospital_id row) (inv_blood_type row)) as [Hsome _].
      destruct Hsome as [Hk _].
      + rewrite Hd. change 30 with (inject_Z 30). rewrite <- Zlt_Qlt. exact H30.
      + rewrite Hk. apply f_equal.
        rewrite int_floor.
        * rewrite (Qfloor_comp _ _ Hd). apply Qfloor_Z.
        * rewrite Hd. change 0 with (inject_Z 0). rewrite <- Zle_Qle. exact H0.
    - intro Hsome. destruct used as [ | z zs]; [now elim Hsome | ].
      set (mean := inject_Z (Py.sumZ (z :: zs))
                   / inject_Z (Z.of_nat (List.length (z :: zs)))).
      split; intro Hmean.
      + unfold _calculate_risk. cbn [p_avg_daily_usage].
        rewrite (usage_kept _ _ Hmean). apply RoundFacts.round_near_2.
      + unfold _calculate_risk. cbn [p_avg_daily_usage].
        rewrite (usage_substituted _ _ Hmean). reflexivity. }
  subst predictions. unfold predict_shortages. fold recent.
  split; [ | split ].
  - rewrite length_map. symmetry. now apply Permutation_length.
  - intros row Hin Hw.
    exists (_calculate_risk rt (inject_Z (current_units row))
              (merged_avg_daily_usage (usage_frame recent) row)
              (inv_hospital_id row) (inv_blood_type row)).
    split; [ | apply Hrow].
    apply in_map_iff. exists row. split; [reflexivity | ].
    apply (Permutation_in _ Hperm). apply filter_In. now split.
  - intros p Hp. apply in_map_iff in Hp. destruct Hp as [row [<- Hin]].
    apply (Permutation_in _ (Permutation_sym Hperm)) in Hin.
    apply filter_In in Hin. destruct Hin as [Hin Hw].
    exists row. split; [exact Hin | ]. split; [exact Hw | apply Hrow].
Qed.

(** The sample inventory asked for H001: its O- row has no units and no usage
    on record. *)
Lemma predictions_follow_inventory_witness :
  exists p,
    In p (predict_shortages Scenario.rt Scenario.inventory Samples.db (Some "H001") None)
    /\ p_blood_type p = "O-"
    /\ p_avg_daily_usage p == 1
    /\ p_risk_level p = "CRITICAL"
    /\ p_days_to_shortage p = Some 0%Z.
Proof.
  destruct (predictions_follow_inventory Scenario.rt Scenario.inventory Samples.db
              (Some "H001") None) as [_ [Hrows _]].
  destruct (Hrows (Scenario.inv_row "H001" "O-" 0 "2024-10-01T08:00:00"))
    as [p [Hp [_ [Hb [_ [Hnone _]]]]]].
  - right. left. reflexivity.
  - reflexivity.
  - destruct (Hnone eq_refl) as [Havg [Hcrit [_ [_ [_ Hdays]]]]].
    exists p. split; [exact Hp | ]. split; [exact Hb | ]. split; [exact Havg | ].
    split; [apply Hcrit; cbn; lia | apply Hdays; cbn; lia].
Defined.

Lemma predicted_level_is_known (rt : runtime) (current_units avg : Q) (h b : string) :
  In (p_risk_level (_calculate_risk rt current_units avg h b))
     ["LOW"; "MEDIUM"; "HIGH"; "CRITICAL"].
Proof.
  destruct (calculate_risk_returns rt current_units avg h b) as [-> _].
  destruct (risk_score_by_level current_units avg)
    as [[L _] | [[L _] | [[L _] | [L _]]]]; rewrite L; cbn; tauto.
Qed.

(** X17. [get_risks] by level.  With a level given (ASCII, not empty) the answer
    holds exactly the predictions whose level is the given text in capitals,
    so the spelling of the argument does not matter; [total_count] is their
    number; a text that is none of the four level names in any spelling
    gives an empty list.  Without a level, or with an empty one, all
    predictions come back. *)
Theorem get_risks_by_level (rt : runtime) (inv : table) (db : Store.database)
    (hospital_id blood_type : option string) (level : string) :
  is_ascii level = true -> level <> "" ->
  let all := predict_shortages rt inv db hospital_id blood_type in
  let response := get_risks rt inv db hospital_id blood_type (Some level) in
  (forall p, In p (risks response) <-> In p all /\ p_risk_level p = upper level)
  /\ Shortages.total_count response = Z.of_nat (List.length (risks response))
  /\ (~ In (upper level) ["LOW"; "MEDIUM"; "HIGH"; "CRITICAL"] ->
      risks response = [])
  /\ (forall level',
         level' <> "" -> upper level' = upper level ->
         get_risks rt inv db hospital_id blood_type (Some level') = response)
  /\ risks (get_risks rt inv db hospital_id blood_type None) = all
  /\ risks (get_risks rt inv db hospital_id blood_type (Some "")) = all.
Proof.
  intros _ Hne. cbv zeta. unfold get_risks.
  rewrite (truthy_nonempty level Hne). cbn [risks Shortages.total_count].
  split; [ | split; [reflexivity | split; [ | split; [ | split; reflexivity]]]].
  - intro p. rewrite filter_In, String.eqb_eq. tauto.
  - intro Hunknown. apply filter_none. intros p Hp.
    apply String.eqb_neq. intro Heq. apply Hunknown. rewrite <- Heq.
    unfold predict_shortages in Hp. apply in_map_iff in Hp.
    destruct Hp as [row [<- _]]. apply predicted_level_is_known.
  - intros level' Hne' Hup. rewrite (truthy_nonempty level' Hne'), Hup. reflexivity.
Qed.

(** The sample inventory asked for 'critical' in small letters. *)
Lemma get_risks_by_level_witness :
  upper "critical" = "CRITICAL"
  /\ forall p,
       In p (risks (get_risks Scenario.rt Scenario.inventory Samples.db None None
                              (Some "critical"))) ->
       p_risk_level p = "CRITICAL".
Proof.
  split; [reflexivity | ].
  intros p Hp.
  destruct (get_risks_by_level Scenario.rt Scenario.inventory Samples.db None None
              "critical") as [Hin _]; [reflexivity | discriminate | ].
  apply Hin in Hp. exact (proj2 Hp).
Defined.

(** ** [search_donors] *)

Import Search.

(** The selection of [search_donors], as conditions on a donor. *)
Lemma donor_selected_iff (blood_type : option string) (is_available : option bool)
    (d : Store.donor) :
  donor_selected blood_type is_available d = true
  <-> (forall bt, blood_type = Some bt -> bt <> "" -> Store.donor_blood_type d = bt)
      /\ (forall a, is_available = Some a ->
                    Store.is_available d = if a then 1%Z else 0%Z).
Proof.
  unfold donor_selected, Store.opt_filter. rewrite andb_true_iff. split.
  - intros [Hbt Hav]. split.
    + intros bt -> Hne. rewrite (truthy_nonempty bt Hne) in Hbt.
      now apply String.eqb_eq.
    + intros a ->. now apply Z.eqb_eq.
  - intros [Hbt Hav]. split.
    + destruct blood_type as [bt | ]; [ | reflexivity].
      destruct (Py.truthy (Some bt)) eqn:E; [ | reflexivity].
      apply String.eqb_eq, Hbt; [reflexivity | ].
      intros ->. discriminate E.
    + destruct is_available as [a | ]; [ | reflexivity].
      apply Z.eqb_eq. now apply Hav.
Qed.

(** Membership in the answer of [search_donors]. *)
Lemma search_donors_In (rt : runtime) (db : Store.database)
    (blood_type : option string) (location : option (Q * Q)) (radius : Q)
    (is_available : option bool) (f : found_donor) :
  In f (search_donors rt db blood_type location radius is_available) <->
  In (fd_donor f) (Store.donors db)
  /\ donor_selected blood_type is_available (fd_donor f) = true
  /\ fd_distance_km f
     = match location with
       | Some (lat, lng) =>
           Some (haversine_km rt lat lng (Store.location_lat (fd_donor f))
                              (Store.location_lng (fd_donor f)))
       | None => None
       end
  /\ (forall km, fd_distance_km f = Some km -> km <= radius).
Proof.
  revert radius f.
  intros radius f. unfold search_donors.
    set (donors_df := filter (donor_selected blood_type is_available) (Store.donors db)).
    assert (Hdf : forall d, In d donors_df <->
                            In d (Store.donors db)
                            /\ donor_selected blood_type is_available d = true).
    { intro d. apply filter_In. }
    destruct location as [[lat lng] | ].
    - destruct donors_df as [ | d0 ds] eqn:Hnil.
      + cbn [map In]. split; [contradiction | ].
        intros [Hd [Hsel _]]. apply (Hdf (fd_donor f)). now split.
      + rewrite <- Hnil in *. clear Hnil. rewrite in_map_iff. split.
        * intros [[d km] [<- Hin]]. apply filter_In in Hin.
          destruct Hin as [Hin Hle]. apply in_map_iff in Hin.
          destruct Hin as [d' [Heq Hd']]. inversion Heq; subst. cbn in *.
          apply PyFacts.leb_le in Hle. apply Hdf in Hd'.
          repeat split; try tauto.
          intros km' Hkm. inversion Hkm; subst. exact Hle.
        * intros [Hd [Hsel [Hdist Hle]]]. destruct f as [d dist]. cbn in *.
          subst dist.
          exists (d, haversine_km rt lat lng (Store.location_lat d) (Store.location_lng d)).
          split; [reflexivity | ]. apply filter_In. split.
          -- apply in_map_iff. exists d. split; [reflexivity | ]. apply Hdf. now split.
          -- apply PyFacts.leb_le. cbn. now apply Hle.
    - rewrite in_map_iff. split.
      + intros [d [<- Hd]]. apply Hdf in Hd. cbn. repeat split; try tauto.
        intros km Hkm. discriminate Hkm.
      + intros [Hd [Hsel [Hdist _]]]. destruct f as [d dist]. cbn in *. subst dist.
        exists d. split; [reflexivity | ]. apply Hdf. now split.
Qed.

(** X18. What [search_donors] returns.  A donor is returned exactly when it is in
    the store, has the given blood type (when one is given and not empty),
    has the given availability (when one is given) and, when a location is
    given, lies within the radius of it; the record carries the distance
    then, and no distance otherwise.  So a larger radius never loses a
    donor. *)
Theorem search_donors_selects (rt : runtime) (db : Store.database)
    (blood_type : option string) (location : option (Q * Q)) (radius_km : Q)
    (is_available : option bool) :
  let found := search_donors rt db blood_type location radius_km is_available in
  let distance d :=
    match location with
    | Some (lat, lng) =>
        Some (haversine_km rt lat lng (Store.location_lat d) (Store.location_lng d))
    | None => None
    end in
  (forall f, In f found <->
             In (fd_donor f) (Store.donors db)
             /\ donor_selected blood_type is_available (fd_donor f) = true
             /\ fd_distance_km f = distance (fd_donor f)
             /\ (forall km, fd_distance_km f = Some km -> km <= radius_km))
  /\ (forall radius_km' f,
         radius_km <= radius_km' -> In f found ->
         In f (search_donors rt db blood_type location radius_km' is_available)).
Proof.
  cbv zeta. split; [intro f; apply search_donors_In | ].
  intros radius' f Hle Hf. apply search_donors_In. apply search_donors_In in Hf.
  destruct Hf as [Hd [Hsel [Hdist Hkm]]].
  repeat split; try assumption.
  intros km Hk. apply Qle_trans with radius_km; [now apply Hkm | exact Hle].
Qed.

(** The available donors within 5 km of the sample hospital are found
    within 20 km as well. *)
Lemma search_donors_selects_witness :
  Forall (fun f =>
            In f (search_donors Samples.rt Samples.db None (Some (30.05, 31.24)) 20
                                (Some true)))
         (search_donors Samples.rt Samples.db None (Some (30.05, 31.24)) 5 (Some true)).
Proof.
  apply Forall_forall. intros f Hf.
  apply (proj2 (search_donors_selects Samples.rt Samples.db None
                  (Some (30.05, 31.24)) 5 (Some true)) 20 f);
    [intro H; discriminate H | exact Hf].
Defined.

(** X19. The endpoint's reading of its arguments.  When the latitude or the
    longitude is missing or is 0, no location is passed on: the answer is the
    one for a request without coordinates, so no donor is dropped for its
    distance and the radius has no effect.  An [is_available] text other
    than 'true' in small letters (and not empty) selects the donors whose
    flag is 0; an empty or missing one selects all. *)
Theorem search_endpoint_arguments (rt : runtime) (db : Store.database)
    (blood_type : option string) (latitude longitude radius_km : option Q)
    (is_available : option string) :
  (float_truthy latitude = false \/ float_truthy longitude = false ->
   search_donors_endpoint rt db blood_type latitude longitude radius_km is_available
   = search_donors_endpoint rt db blood_type None None None is_available)
  /\ (forall text,
         is_available = Some text -> text <> "" -> text <> "true" ->
         Forall (fun f => Store.is_available (fd_donor f) = 0%Z)
                (donors (search_donors_endpoint rt db blood_type latitude longitude
                                                radius_km is_available)))
  /\ (is_available = Some "true" ->
      Forall (fun f => Store.is_available (fd_donor f) = 1%Z)
             (donors (search_donors_endpoint rt db blood_type latitude longitude
                                             radius_km is_available)))
  /\ (is_available = None \/ is_available = Some "" ->
      search_donors_endpoint rt db blood_type latitude longitude radius_km is_available
      = search_donors_endpoint rt db blood_type latitude longitude radius_km None).
Proof.
  split; [ | split; [ | split ]].
  - intro Hzero. unfold search_donors_endpoint.
    assert (E : float_truthy latitude && float_truthy longitude = false).
    { destruct Hzero as [-> | ->]; [reflexivity | apply andb_false_r]. }
    rewrite E. cbn [float_truthy andb]. unfold search_donors.
    destruct (filter _ (Store.donors db)); reflexivity.
  - intros text -> Hne Htrue. unfold search_donors_endpoint. cbn [donors].
    rewrite (truthy_nonempty text Hne).
    apply Forall_forall. intros f Hf.
    apply search_donors_In in Hf.
    destruct Hf as [_ [Hsel _]]. apply donor_selected_iff in Hsel.
    destruct Hsel as [_ Hav]. rewrite (Hav _ eq_refl).
    destruct (String.eqb_spec text "true"); [contradiction | reflexivity].
  - intros ->. unfold search_donors_endpoint. cbn [donors].
    apply Forall_forall. intros f Hf.
    apply search_donors_In in Hf.
    destruct Hf as [_ [Hsel _]]. apply donor_selected_iff in Hsel.
    destruct Hsel as [_ Hav]. now rewrite (Hav _ eq_refl).
  - intros [-> | ->]; reflexivity.
Qed.

(** A request at latitude 0: the answer is the one without coordinates. *)
Lemma search_endpoint_arguments_witness :
  search_donors_endpoint Samples.rt Samples.db (Some "O-") (Some 0) (Some 31.24)
                         (Some 5) None
  = search_donors_endpoint Samples.rt Samples.db (Some "O-") None None None None.
Proof.
  apply (proj1 (search_endpoint_arguments Samples.rt Samples.db (Some "O-")
                  (Some 0) (Some 31.24) (Some 5) None)).
  left. reflexivity.
Defined.

(** ** [generate_heatmap] *)

Import Heatmap.

Lemma inject_Z_le_half (u k : Z) : inject_Z u <= inject_Z k + 0.5 <-> (u <= k)%Z.
Proof.
  split; intro H.
  - destruct (Z_le_gt_dec u k) as [Hle | Hgt]; [exact Hle | exfalso].
    assert (Hk : (k + 1 <= u)%Z) by lia.
    rewrite Zle_Qle, inject_Z_plus in Hk. change (inject_Z 1) with 1 in Hk. lra.
  - rewrite Zle_Qle in H. lra.
Qed.

(** The demand tests of the loop, as bounds on the units. *)
Lemma demand_tests (u : Z) :
  (Py.leb 0.9 (demand_of u) = true <-> (u <= 5)%Z)
  /\ (Py.leb 0.75 (demand_of u) = true <-> (u <= 12)%Z)
  /\ (Py.leb 0.5 (demand_of u) = true <-> (u <= 25)%Z).
Proof.
  unfold demand_of, Py.max, Qdiv. change (/ 50) with (1 # 50).
  pose proof (inject_Z_le_half u 12) as H12.
  change (inject_Z 12) with 12 in H12.
  assert (H5 : inject_Z u <= 5 <-> (u <= 5)%Z).
  { change 5 with (inject_Z 5). symmetry. rewrite Zle_Qle. reflexivity. }
  assert (H25 : inject_Z u <= 25 <-> (u <= 25)%Z).
  { change 25 with (inject_Z 25). symmetry. rewrite Zle_Qle. reflexivity. }
  rewrite <- H5, <- H12, <- H25. rewrite !PyFacts.leb_le.
  repeat split; intro H; py_cases; py_cases_hyps; lra.
Qed.

Lemma demand_of_range (u : Z) :
  0.1 <= demand_of u /\ ((0 <= u)%Z -> demand_of u <= 1).
Proof.
  unfold demand_of, Py.max, Qdiv. change (/ 50) with (1 # 50).
  split.
  - py_cases; lra.
  - intro H. rewrite Zle_Qle in H. change (inject_Z 0) with 0 in H. py_cases; lra.
Qed.

(** The risk branch with its tests on the units. *)
Lemma area_risk_by_units (u density : Z) :
  area_risk (demand_of u) density
  = if (u <=? 5)%Z || (density <? 5)%Z then "CRITICAL"
    else if (u <=? 12)%Z || (density <? 10)%Z then "HIGH"
    else if (u <=? 25)%Z then "MEDIUM"
    else "LOW".
Proof.
  destruct (demand_tests u) as [T5 [T12 T25]].
  unfold area_risk.
  replace (Py.leb 0.9 (demand_of u)) with (u <=? 5)%Z
    by (apply eq_true_iff_eq; rewrite T5; apply Z.leb_le).
  replace (Py.leb 0.75 (demand_of u)) with (u <=? 12)%Z
    by (apply eq_true_iff_eq; rewrite T12; apply Z.leb_le).
  replace (Py.leb 0.5 (demand_of u)) with (u <=? 25)%Z
    by (apply eq_true_iff_eq; rewrite T25; apply Z.leb_le).
  reflexivity.
Qed.

Lemma with_draws_rows (random : nat -> Z * Z) (i : nat) (inv : table) :
  map fst (with_draws random i inv) = inv.
Proof.
  revert i. induction inv as [ | r inv IH]; intro i; cbn; [reflexivity | ].
  now rewrite IH.
Qed.

Lemma Forall2_map_fst {A B C : Type} (P : A -> C -> Prop) (f : A * B -> C)
    (l : list (A * B)) :
  (forall x, In x l -> P (fst x) (f x)) -> Forall2 P (map fst l) (map f l).
Proof.
  induction l as [ | x l IH]; cbn; intro H; constructor; auto.
Qed.

(** X20. The areas of the heatmap.  There is one area per inventory row, in
    order, under the row's hospital.  Its level follows from the row's units
    and the number of available donors in the whole store: with fewer than 5
    such donors every area is CRITICAL; with fewer than 10 an area is
    CRITICAL up to 5 units and HIGH above; with 10 or more it is CRITICAL up
    to 5 units, HIGH from 6 to 12, MEDIUM from 13 to 25 and LOW from 26.  The
    returned demand score is at least 0.1, and at most 1 for units that are
    not negative.  The coordinates are the base point plus a whole multiple
    of 0.1 degrees, so the latitude is a latitude only for a draw between
    -1200 and 599. *)
Theorem heatmap_areas (random : nat -> Z * Z) (inv : table) (db : Store.database)
    (bounds : option (Q * Q * Q * Q)) (blood_type : option string) :
  let density := available_donors db in
  Forall2 (fun row a =>
             let u := current_units row in
             area_hospital_id a = inv_hospital_id row
             /\ donor_density a = density
             /\ ((density < 5)%Z -> risk_level a = "CRITICAL")
             /\ ((5 <= density < 10)%Z ->
                 ((u <= 5)%Z -> risk_level a = "CRITICAL")
                 /\ ((5 < u)%Z -> risk_level a = "HIGH"))
             /\ ((10 <= density)%Z ->
                 ((u <= 5)%Z -> risk_level a = "CRITICAL")
                 /\ ((5 < u <= 12)%Z -> risk_level a = "HIGH")
                 /\ ((12 < u <= 25)%Z -> risk_level a = "MEDIUM")
                 /\ ((25 < u)%Z -> risk_level a = "LOW"))
             /\ 0.1 <= demand_score a
             /\ ((0 <= u)%Z -> demand_score a <= 1)
             /\ exists draw : Z,
                 area_latitude a == 30.0444 + inject_Z draw * 0.1
                 /\ (-90 <= area_latitude a -> area_latitude a <= 90 ->
                     (-1200 <= draw <= 599)%Z))
          inv (areas (generate_heatmap random inv db bounds blood_type)).
Proof.
  cbv zeta. unfold generate_heatmap. cbn [areas].
  rewrite <- (with_draws_rows random 0 inv) at 1.
  apply Forall2_map_fst. intros [row [r1 r2]] _.
  cbn [fst snd area_hospital_id donor_density risk_level demand_score area_latitude].
  fold (available_donors db).
  destruct (demand_of_range (current_units row)) as [Dlo Dhi].
  assert (E10 : inject_Z 10 / inject_Z (10 ^ Z.of_nat 2) == 0.1) by reflexivity.
  assert (E100 : inject_Z 100 / inject_Z (10 ^ Z.of_nat 2) == 1) by reflexivity.
  split; [reflexivity | ]. split; [reflexivity | ].
  rewrite area_risk_by_units.
  split; [ | split; [ | split; [ | split; [ | split ]]]].
  - intro Hd. apply Z.ltb_lt in Hd. rewrite Hd, orb_true_r. reflexivity.
  - intros [Hd5 Hd10].
    destruct (Z.ltb_spec (available_donors db) 5); [lia | ].
    destruct (Z.ltb_spec (available_donors db) 10); [ | lia].
    rewrite !orb_false_r, orb_true_r.
    destruct (Z.leb_spec (current_units row) 5); split; intro; (reflexivity || lia).
  - intro Hd.
    destruct (Z.ltb_spec (available_donors db) 5); [lia | ].
    destruct (Z.ltb_spec (available_donors db) 10); [lia | ].
    rewrite !orb_false_r.
    destruct (Z.leb_spec (current_units row) 5);
      destruct (Z.leb_spec (current_units row) 12);
      destruct (Z.leb_spec (current_units row) 25);
      repeat split; intro; (reflexivity || lia).
  - destruct (round_between 10 100 (Py.min (demand_of (current_units row)) 1) 2)
      as [H1 _].
    + rewrite E10. unfold Py.min. py_cases; lra.
    + rewrite E100. unfold Py.min. py_cases; lra.
    + rewrite E10 in H1.
      apply Qle_trans with (Py.round (Py.min (demand_of (current_units row)) 1) 2);
        [exact H1 | ].
      apply RoundFacts.round_mono. unfold Py.min. py_cases; lra.
  - intro Hu. specialize (Dhi Hu).
    destruct (round_between 10 100 (demand_of (current_units row)) 2) as [_ H2].
    + rewrite E10. exact Dlo.
    + rewrite E100. exact Dhi.
    + now rewrite E100 in H2.
  - exists r1. split; [reflexivity | ].
    intros Hlo Hhi.
    assert (Hr1 : -1200.444 <= inject_Z r1 <= 599.556) by (split; lra).
    destruct Hr1 as [Ha Hb]. split.
    + destruct (Z_le_gt_dec (-1200) r1) as [H | H]; [exact H | exfalso].
      assert (Hk : (r1 <= -1201)%Z) by lia.
      rewrite Zle_Qle in Hk. change (inject_Z (-1201)) with (-1201) in Hk. lra.
    + destruct (Z_le_gt_dec r1 599) as [H | H]; [exact H | exfalso].
      assert (Hk : (600 <= r1)%Z) by lia.
      rewrite Zle_Qle in Hk. change (inject_Z 600) with 600 in Hk. lra.
Qed.

(** The sample store has 3 available donors: every area is CRITICAL. *)
Lemma heatmap_areas_witness :
  (available_donors Samples.db < 5)%Z
  /\ Forall (fun a => risk_level a = "CRITICAL")
            (areas (generate_heatmap Scenario.random Scenario.inventory Samples.db
                                     None None)).
Proof.
  assert (Hd : (available_donors Samples.db < 5)%Z) by reflexivity.
  split; [exact Hd | ].
  pose proof (heatmap_areas Scenario.random Scenario.inventory Samples.db None None) as H.
  cbv zeta in H.
  induction H as [ | row a rows areas0 [_ [_ [Hc _]]] _ IH]; constructor.
  - exact (Hc Hd).
  - exact IH.
Defined.

Lemma filter_map_length {A B : Type} (p : B -> bool) (f : A -> B) (l : list A) :
  List.length (filter p (map f l)) = List.length (filter (fun a => p (f a)) l).
Proof.
  induction l as [ | a l IH]; cbn; [reflexivity | ].
  destruct (p (f a)); cbn; now rewrite IH.
Qed.

Lemma with_draws_filter_length (random : nat -> Z * Z) (i : nat) (inv : table)
    (q : inventory_row -> bool) :
  List.length (filter (fun x => q (fst x)) (with_draws random i inv))
  = List.length (filter q inv).
Proof.
  revert i. induction inv as [ | r inv IH]; intro i; cbn; [reflexivity | ].
  destruct (q r); cbn; now rewrite IH.
Qed.

Lemma with_draws_length (random : nat -> Z * Z) (i : nat) (inv : table) :
  List.length (with_draws random i inv) = List.length inv.
Proof.
  rewrite <- (with_draws_rows random i inv) at 2. now rewrite length_map.
Qed.

(** X21. The counts of the heatmap.  [total_areas] is the number of inventory
    rows.  [high_risk_areas] never exceeds it; with fewer than 10 available
    donors in the store it equals it, whatever the stocks; with 10 or more
    it is the number of rows with at most 12 units. *)
Theorem heatmap_counts (random : nat -> Z * Z) (inv : table) (db : Store.database)
    (bounds : option (Q * Q * Q * Q)) (blood_type : option string) :
  let h := generate_heatmap random inv db bounds blood_type in
  total_areas h = Z.of_nat (List.length inv)
  /\ (0 <= high_risk_areas h <= total_areas h)%Z
  /\ ((available_donors db < 10)%Z -> high_risk_areas h = total_areas h)
  /\ ((10 <= available_donors db)%Z ->
      high_risk_areas h
      = Z.of_nat (List.length (filter (fun r => (current_units r <=? 12)%Z) inv))).
Proof.
  cbv zeta. unfold generate_heatmap. cbn [total_areas high_risk_areas].
  fold (available_donors db).
  rewrite length_map, with_draws_length, filter_map_length.
  cbn [risk_level fst].
  set (high := fun x : inventory_row * (Z * Z) => _).
  assert (Hhigh : forall x,
             high x = (current_units (fst x) <=? 12)%Z || (available_donors db <? 10)%Z).
  { intro x. subst high. cbv beta. rewrite area_risk_by_units.
    destruct (Z.leb_spec (current_units (fst x)) 5);
      destruct (Z.leb_spec (current_units (fst x)) 12);
      destruct (Z.leb_spec (current_units (fst x)) 25);
      destruct (Z.ltb_spec (available_donors db) 5);
      destruct (Z.ltb_spec (available_donors db) 10);
      try lia; reflexivity. }
  rewrite (filter_ext _ _ Hhigh).
  rewrite (with_draws_filter_length random 0 inv
             (fun r => (current_units r <=? 12)%Z || (available_donors db <? 10)%Z)).
  split; [reflexivity | ]. split; [ | split ].
  - pose proof (filter_length_le
                  (fun r => (current_units r <=? 12)%Z || (available_donors db <? 10)%Z)
                  inv). lia.
  - intro Hd. apply Z.ltb_lt in Hd. rewrite Hd. f_equal.
    rewrite (filter_ext _ (fun _ => true)) by (intro; apply orb_true_r).
    clear. induction inv as [ | r inv IH]; cbn; [reflexivity | now rewrite IH].
  - intro Hd. apply Z.ltb_ge in Hd. rewrite Hd. f_equal.
    now rewrite (filter_ext _ (fun r => (current_units r <=? 12)%Z))
      by (intro; apply orb_false_r).
Qed.

Lemma heatmap_counts_witness :
  (available_donors Samples.db < 10)%Z
  /\ high_risk_areas (generate_heatmap Scenario.random Scenario.inventory Samples.db
                                       None None)
     = total_areas (generate_heatmap Scenario.random Scenario.inventory Samples.db
                                     None None).
Proof.
  assert (Hd : (available_donors Samples.db < 10)%Z) by reflexivity.
  split; [exact Hd | ].
  apply (heatmap_counts Scenario.random Scenario.inventory Samples.db None None).
  exact Hd.
Defined.

(** ** The endpoint [match_emergency] *)

Import Emergency.

(** With the five fields present the validation loop finds nothing. *)
Lemma match_emergency_complete (rt : runtime) (srt : sort_values)
    (raised : distance_error) (db : Store.database)
    (data : emergency_body) (hospital_id blood_type : string) (units_needed : Z)
    (loc : location_body) (urgency : string) :
  eb_hospital_id data = Some hospital_id ->
  eb_blood_type_needed data = Some blood_type ->
  eb_units_needed data = Some units_needed ->
  eb_location data = Some loc ->
  eb_urgency_level data = Some urgency ->
  match_emergency rt srt raised db data
  = match query_donors db (_get_compatible_blood_types blood_type) with
    | [] =>
        Matched {| request_id := _generate_request_id rt;
                   matched_donors := [];
                   total_matches := 0;
                   message := Some "No available donors found";
                   urgency_level := None |}
    | donors_df =>
        subscript (lb_latitude loc) "latitude" (fun hospital_lat =>
        subscript (lb_longitude loc) "longitude" (fun hospital_lng =>
          match first_error raised hospital_lat hospital_lng donors_df with
          | Some text => InternalError text
          | None =>
              Matched (match_donors rt srt db hospital_id blood_type units_needed
                                    {| latitude := hospital_lat;
                                       longitude := hospital_lng |}
                                    urgency)
          end))
    end.
Proof.
  intros Hh Hb Hu Hl Hg. destruct data as [h b u l g]. cbn in *. subst.
  reflexivity.
Qed.

(** The first distance that raises is the distance to one of the donors, and
    there is none exactly when no distance raises. *)
Lemma first_error_donor (raised : distance_error) (lat lng : Q)
    (donors_df : list Store.donor) (text : string) :
  first_error raised lat lng donors_df = Some text ->
  exists d, In d donors_df
            /\ raised lat lng (Store.location_lat d) (Store.location_lng d) = Some text.
Proof.
  induction donors_df as [ | d ds IH]; cbn [first_error]; [discriminate | ].
  destruct (raised lat lng (Store.location_lat d) (Store.location_lng d)) eqn:E.
  - intro H. injection H as <-. exists d. split; [now left | exact E].
  - intro H. destruct (IH H) as [d' [Hin Hd']]. exists d'. split; [now right | exact Hd'].
Qed.

Lemma first_error_none (raised : distance_error) (lat lng : Q)
    (donors_df : list Store.donor) :
  first_error raised lat lng donors_df = None
  <-> forall d, In d donors_df ->
                raised lat lng (Store.location_lat d) (Store.location_lng d) = None.
Proof.
  induction donors_df as [ | d ds IH]; cbn [first_error].
  - split; [intros _ d [] | reflexivity].
  - destruct (raised lat lng (Store.location_lat d) (Store.location_lng d)) eqn:E.
    + split; [discriminate | ]. intro H. rewrite <- E. apply H. now left.
    + rewrite IH. split.
      * intros H d' [<- | Hin]; [exact E | now apply H].
      * intros H d' Hin. apply H. now right.
Qed.

(** X22. The answers of [match_emergency].  A body that lacks a required field
    is answered 400 with the name of the first such field in the order
    hospital_id, blood_type_needed, units_needed, location, urgency_level,
    whatever else it holds.  With all five fields present the answer is
    never 400: if no compatible donor is available it is the 200 answer with
    'No available donors found', even when the location lacks its latitude
    or longitude, since these are read only once a donor was found; if such a
    donor exists, a location without latitude (or, with latitude, without
    longitude) is answered 500 with the [KeyError] text; with a complete
    location the answer is the result of [match_donors] when the distance to
    every such donor can be computed, and a 500 with the text of the
    [ValueError] of one of these donors when the distance to some donor
    cannot. *)
Theorem match_emergency_answers (rt : runtime) (srt : sort_values)
    (raised : distance_error) (db : Store.database) (data : emergency_body) :
  let answer := match_emergency rt srt raised db data in
  (eb_hospital_id data = None ->
   answer = BadRequest "Missing required field: hospital_id")
  /\ (eb_hospital_id data <> None -> eb_blood_type_needed data = None ->
      answer = BadRequest "Missing required field: blood_type_needed")
  /\ (eb_hospital_id data <> None -> eb_blood_type_needed data <> None ->
      eb_units_needed data = None ->
      answer = BadRequest "Missing required field: units_needed")
  /\ (eb_hospital_id data <> None -> eb_blood_type_needed data <> None ->
      eb_units_needed data <> None -> eb_location data = None ->
      answer = BadRequest "Missing required field: location")
  /\ (eb_hospital_id data <> None -> eb_blood_type_needed data <> None ->
      eb_units_needed data <> None -> eb_location data <> None ->
      eb_urgency_level data = None ->
      answer = BadRequest "Missing required field: urgency_level")
  /\ (forall hospital_id blood_type units_needed loc urgency,
         eb_hospital_id data = Some hospital_id ->
         eb_blood_type_needed data = Some blood_type ->
         eb_units_needed data = Some units_needed ->
         eb_location data = Some loc ->
         eb_urgency_level data = Some urgency ->
         let donors_df := query_donors db (_get_compatible_blood_types blood_type) in
         (donors_df = [] ->
          exists result,
            answer = Matched result
            /\ matched_donors result = []
            /\ message result = Some "No available donors found")
         /\ (donors_df <> [] ->
             (lb_latitude loc = None -> answer = InternalError "'latitude'")
             /\ (lb_latitude loc <> None -> lb_longitude loc = None ->
                 answer = InternalError "'longitude'")
             /\ (forall lat lng,
                    lb_latitude loc = Some lat -> lb_longitude loc = Some lng ->
                    let fails d :=
                      raised lat lng (Store.location_lat d) (Store.location_lng d) in
                    ((forall d, In d donors_df -> fails d = None) ->
                     answer
                     = Matched (match_donors rt srt db hospital_id blood_type
                                  units_needed
                                  {| latitude := lat; longitude := lng |} urgency))
                    /\ ((exists d, In d donors_df /\ fails d <> None) ->
                        exists d text,
                          In d donors_df /\ fails d = Some text
                          /\ answer = InternalError text)))).
Proof.
  cbv zeta.
  split; [ | split; [ | split; [ | split; [ | split ]]]].
  1-5: destruct data as [[h | ] [b | ] [u | ] [l | ] [g | ]]; cbn;
       intros; try congruence; reflexivity.
  intros hospital_id blood_type units_needed loc urgency Hh Hb Hu Hl Hg.
  rewrite (match_emergency_complete rt srt raised db data hospital_id blood_type
             units_needed loc urgency Hh Hb Hu Hl Hg).
  destruct (query_donors db (_get_compatible_blood_types blood_type)) as [ | d ds].
  - split; [ | congruence]. intros _.
    eexists. split; [reflexivity | split; reflexivity].
  - split; [discriminate | ]. intros _.
    split; [ | split ].
    + intros ->. reflexivity.
    + intros Hlat ->. destruct (lb_latitude loc); [reflexivity | congruence].
    + intros lat lng -> ->. cbn [subscript].
      destruct (first_error raised lat lng (d :: ds)) as [text | ] eqn:E.
      * split.
        -- intro Hnone. apply first_error_none in Hnone. congruence.
        -- intros _. destruct (first_error_donor _ _ _ _ _ E) as [d' [Hin Hd']].
           exists d', text. auto.
      * split; [reflexivity | ].
        intros [d' [Hin Hd']]. exfalso. apply Hd'.
        now apply (proj1 (first_error_none _ _ _ _) E).
Qed.

(** A body without units, on the sample store. *)
Lemma match_emergency_answers_witness :
  match_emergency Samples.rt ties_kept (fun _ _ _ _ => None) Samples.db
    {| eb_hospital_id := Some "H001";
       eb_blood_type_needed := Some "O-";
       eb_units_needed := None;
       eb_location := None;
       eb_urgency_level := Some "HIGH" |}
  = BadRequest "Missing required field: units_needed".
Proof.
  apply (proj1 (proj2 (proj2
           (match_emergency_answers Samples.rt ties_kept (fun _ _ _ _ => None)
              Samples.db
              {| eb_hospital_id := Some "H001";
                 eb_blood_type_needed := Some "O-";
                 eb_units_needed := None;
                 eb_location := None;
                 eb_urgency_level := Some "HIGH" |}))));
    (discriminate || reflexivity).
Defined.

(** ** WasteAnalyzer: the recommendations and the empty selection *)

Lemma get_status_critical (rate : Q) : get_status rate = "CRITICAL" -> 0.20 <= rate.
Proof.
  unfold get_status. py_cases; intro H; try discriminate H. exact E1.
Qed.

Lemma recommendations_structure (df : list waste_row) :
  let recs := _generate_waste_recommendations df in
  recs <> []
  /\ (forall r, In r df -> 0.15 < waste_rate r ->
                In (HighWasteRate (waste_rate r) (wg_blood_type (group r))
                                  (wg_hospital_id (group r))) recs)
  /\ (In OverallAboveThreshold recs <-> 0.10 < Py.mean (map waste_rate df))
  /\ (In WithinLimits recs <->
      (forall r, In r df -> waste_rate r <= 0.15)
      /\ Py.mean (map waste_rate df) <= 0.10).
Proof.
  cbv zeta. unfold _generate_waste_recommendations. cbv zeta.
  set (high := map (fun r => HighWasteRate (waste_rate r) (wg_blood_type (group r))
                                           (wg_hospital_id (group r)))
                   (filter (fun r => Py.ltb 0.15 (waste_rate r)) df)).
  assert (Hhigh : forall x, In x high <->
                            exists r, In r df /\ 0.15 < waste_rate r
                                      /\ x = HighWasteRate (waste_rate r)
                                               (wg_blood_type (group r))
                                               (wg_hospital_id (group r))).
  { intro x. subst high. rewrite in_map_iff. split.
    - intros [r [<- Hr]]. apply filter_In in Hr. destruct Hr as [Hr Hlt].
      apply PyFacts.ltb_lt in Hlt. now exists r.
    - intros [r [Hr [Hlt ->]]]. exists r. split; [reflexivity | ].
      apply filter_In. split; [exact Hr | now apply PyFacts.ltb_lt]. }
  destruct (Py.ltb 0.10 (Py.mean (map waste_rate df))) eqn:Emean;
    [apply PyFacts.ltb_lt in Emean | apply PyFacts.ltb_ge in Emean].
  - (* the mean is above 0.10 *)
    assert (Hrecs : forall x, In x (List.app high [OverallAboveThreshold]) <->
                              In x high \/ x = OverallAboveThreshold).
    { intro x. rewrite in_app_iff. cbn. intuition congruence. }
    destruct (List.app high [OverallAboveThreshold]) as [ | x0 rest] eqn:Happ.
    { exfalso. apply (app_cons_not_nil high [] OverallAboveThreshold).
      now symmetry. }
    split; [discriminate | ]. split; [ | split ].
    + intros r Hr Hlt. apply Hrecs. left. apply Hhigh. now exists r.
    + split; [intros _; exact Emean | intros _; apply Hrecs; now right].
    + split.
      * intro Hin. apply Hrecs in Hin. destruct Hin as [Hin | Hin]; [ | discriminate].
        apply Hhigh in Hin. destruct Hin as [r [_ [_ Heq]]]. discriminate.
      * intros [_ Hle]. lra.
  - (* the mean is at most 0.10 *)
    rewrite app_nil_r.
    destruct high as [ | x0 rest] eqn:Hh.
    + split; [discriminate | ]. split; [ | split ].
      * intros r Hr Hlt. exfalso.
        apply (proj2 (Hhigh (HighWasteRate (waste_rate r) (wg_blood_type (group r))
                                           (wg_hospital_id (group r))))).
        now exists r.
      * split; [ | intro; lra]. cbn. intros [H | []]. discriminate.
      * split; [ | intros; now left].
        intros _. split; [ | exact Emean].
        intros r Hr. apply Qnot_lt_le. intro Hlt.
        apply (proj2 (Hhigh (HighWasteRate (waste_rate r) (wg_blood_type (group r))
                                           (wg_hospital_id (group r))))).
        now exists r.
    + split; [discriminate | ]. split; [ | split ].
      * intros r Hr Hlt. apply Hhigh. now exists r.
      * split; [ | intro; lra]. intro Hin. apply Hhigh in Hin.
        destruct Hin as [r [_ [_ Heq]]]. discriminate.
      * split.
        -- intro Hin. apply Hhigh in Hin. destruct Hin as [r [_ [_ Heq]]].
           discriminate.
        -- intros [Hall _]. exfalso.
           destruct (proj1 (Hhigh x0) (or_introl eq_refl)) as [r [Hr [Hlt _]]].
           specialize (Hall r Hr). lra.
Qed.

Lemma group_movements_nil (ms : list Store.movement) :
  group_movements ms = [] <-> ms = [].
Proof.
  unfold group_movements. split.
  - intro H. apply map_eq_nil in H. destruct ms as [ | m ms]; [reflexivity | ].
    exfalso.
    assert (Hk : In (movement_key m) (Store.group_keys (map movement_key (m :: ms)))).
    { apply group_keys_In. now left. }
    rewrite H in Hk. exact Hk.
  - intros ->. reflexivity.
Qed.

(** The 'within limits' entry stands alone. *)
Lemma within_limits_alone (df : list waste_row) :
  In WithinLimits (_generate_waste_recommendations df) ->
  _generate_waste_recommendations df = [WithinLimits].
Proof.
  unfold _generate_waste_recommendations. cbv zeta.
  set (recs := List.app _ _).
  assert (Hno : ~ In WithinLimits recs).
  { subst recs. rewrite in_app_iff, in_map_iff.
    intros [[r [Heq _]] | Hin]; [discriminate Heq | ].
    destruct (Py.ltb _ _); cbn in Hin; intuition discriminate. }
  destruct recs as [ | x recs]; [reflexivity | ].
  intro H. now elim Hno.
Qed.

(** X23. What the analysis reports besides the rates.  With no movement selected
    the result is empty throughout: no rates, an overall rate of 0, no
    totals and no recommendation at all.  With some movement selected the
    totals are the sums over the selected movements and there is always at
    least one recommendation: every group whose rate is above 0.15, so every
    group of status CRITICAL, has its high-waste entry; the 'within limits'
    entry, when there, is the only entry, and it is absent when some group
    is above 0.15.  For units that are counts (not negative) the overall
    entry is there when the mean of the group rates is above 0.10 and absent
    when it is below (stated up to a millionth around 0.10, where the float
    mean decides), and 'within limits' is the answer when no group is above
    0.15 and the mean is below 0.10. *)
Theorem waste_report (db : Store.database)
    (hospital_id blood_type start_date end_date : option string) :
  let selected :=
    filter (movement_selected hospital_id blood_type start_date end_date)
           (Store.inventory_movements db) in
  let df := waste_frame (group_movements selected) in
  let result := calculate_waste_rates db hospital_id blood_type start_date end_date in
  (selected = [] ->
   waste_rates result = [] /\ overall_waste_rate result == 0
   /\ recommendations result = []
   /\ total_expired_units result = None /\ total_collected_units result = None)
  /\ (selected <> [] ->
      recommendations result <> []
      /\ total_expired_units result
         = Some (Py.sumZ (map Store.units_expired selected))
      /\ total_collected_units result
         = Some (Py.sumZ (map Store.units_collected selected))
      /\ (forall r, In r df -> 0.15 < waste_rate r ->
                    In (HighWasteRate (waste_rate r) (wg_blood_type (group r))
                                      (wg_hospital_id (group r)))
                       (recommendations result))
      /\ (forall r, In r df -> status r = "CRITICAL" ->
                    In (HighWasteRate (waste_rate r) (wg_blood_type (group r))
                                      (wg_hospital_id (group r)))
                       (recommendations result))
      /\ (In WithinLimits (recommendations result) ->
          recommendations result = [WithinLimits])
      /\ ((exists r, In r df /\ 0.15 < waste_rate r) ->
          ~ In WithinLimits (recommendations result))
      /\ (Forall (fun m => (0 <= Store.units_expired m)%Z
                           /\ (0 <= Store.units_collected m)%Z) selected ->
          (0.10 + 0.000001 < Py.mean (map waste_rate df) ->
           In OverallAboveThreshold (recommendations result))
          /\ (Py.mean (map waste_rate df) < 0.10 - 0.000001 ->
              ~ In OverallAboveThreshold (recommendations result))
          /\ ((forall r, In r df -> waste_rate r <= 0.15) ->
              Py.mean (map waste_rate df) < 0.10 - 0.000001 ->
              recommendations result = [WithinLimits]))).
Proof.
  intros selected df result. split.
  - intro Hnil. subst result df. unfold calculate_waste_rates. fold selected.
    rewrite Hnil. cbn. repeat split; reflexivity.
  - intro Hsome.
    assert (Hrecs : recommendations result = _generate_waste_recommendations df
                    /\ total_expired_units result
                       = Some (Py.sumZ (map (fun r => total_expired (group r)) df))
                    /\ total_collected_units result
                       = Some (Py.sumZ (map (fun r => total_collected (group r)) df))).
    { subst result df. unfold calculate_waste_rates. fold selected.
      destruct (group_movements selected) as [ | g gs] eqn:Hg.
      - apply group_movements_nil in Hg. contradiction.
      - repeat split; reflexivity. }
    destruct Hrecs as [-> [-> ->]].
    destruct (waste_frame_totals selected) as [He Hc]. fold df in He, Hc.
    rewrite He, Hc.
    destruct (recommendations_structure df) as [Hne [Hhigh [Hover Hwithin]]].
    pose proof (within_limits_alone df) as Halone.
    set (mean := Py.mean (map waste_rate df)) in *. clearbody mean.
    split; [exact Hne | ]. split; [reflexivity | ]. split; [reflexivity | ].
    split; [exact Hhigh | ].
    split.
    { intros r Hr Hcrit. apply Hhigh; [exact Hr | ].
      destruct (waste_frame_rows selected r Hr) as [_ [_ [_ [_ Hs]]]].
      rewrite Hs in Hcrit. apply get_status_critical in Hcrit. lra. }
    split; [exact Halone | ].
    split.
    { intros [r [Hr Hlt]] Hin. apply Hwithin in Hin. destruct Hin as [Hall _].
      specialize (Hall r Hr). lra. }
    intros _.
    split; [intro Hm; apply Hover; lra | ].
    split; [intros Hm Hin; apply Hover in Hin; lra | ].
    intros Hall Hm. apply Halone. apply Hwithin. split; [exact Hall | lra].
Qed.

(** The sample store: the AB- group of H002 is CRITICAL and is named. *)
Lemma waste_report_witness :
  In (HighWasteRate (9 # 21) "AB-" "H002")
     (recommendations (calculate_waste_rates Samples.db None None None None)).
Proof.
  destruct (waste_report Samples.db None None None None) as [_ Hsome].
  destruct Hsome as [_ [_ [_ [_ [Hcrit _]]]]]; [discriminate | ].
  apply (Hcrit {| group := {| wg_hospital_id := "H002"; wg_blood_type := "AB-";
                              total_collected := 20; total_used := 10;
                              total_expired := 9 |};
                  waste_rate := 9 # 21; status := "CRITICAL" |}).
  - cbn. right. left. reflexivity.
  - reflexivity.
Defined.

(** ** DemandForecaster: the horizon and the confidence *)

Lemma sumQ_nonneg (l : list Q) : Forall (fun x => 0 <= x) l -> 0 <= Py.sumQ l.
Proof.
  unfold Py.sumQ. induction 1 as [ | x l Hx _ IH]; cbn; [discriminate | lra].
Qed.

(** X24. The forecast against the horizon.  Each further day adds the average
    daily demand and nothing else: the event adjustment is one fixed amount
    per event in the 30-day window, not scaled by the horizon, so it is
    already there in full for a horizon of 0 days.  Without an event in the
    window the forecast is the average times the days.  If the average and
    the days are not negative and no event in the window has an impact below
    1, the forecast is at least the average times the days. *)
Theorem forecast_against_horizon (row : demand_group) (days k : Z)
    (events_df : list Store.event) :
  let adjustment :=
    Py.sumQ (map (fun e => avg_daily_demand row * (Store.impact_level e - 1.0))
                 events_df) in
  total_forecast row (days + k) events_df
  == total_forecast row days events_df + avg_daily_demand row * inject_Z k
  /\ total_forecast row 0 events_df == adjustment
  /\ total_forecast row days [] == avg_daily_demand row * inject_Z days
  /\ (0 <= avg_daily_demand row -> (0 <= days)%Z ->
      Forall (fun e => 1 <= Store.impact_level e) events_df ->
      0 <= avg_daily_demand row * inject_Z days <= total_forecast row days events_df).
Proof.
  cbv zeta. unfold total_forecast.
  rewrite !(fold_left_adjustment
              (fun e => avg_daily_demand row * (Store.impact_level e - 1.0))).
  split; [rewrite inject_Z_plus; ring | ].
  split; [change (inject_Z 0) with 0; ring | ].
  split; [cbn; unfold Py.sumQ; cbn; ring | ].
  intros Havg Hdays Himpact.
  assert (Hadj : 0 <= Py.sumQ (map (fun e => avg_daily_demand row
                                             * (Store.impact_level e - 1.0))
                                   events_df)).
  { apply sumQ_nonneg, Forall_map.
    apply (Forall_impl _ (P := fun e => 1 <= Store.impact_level e));
      [ | exact Himpact].
    intros e He. apply Qmult_le_0_compat; lra. }
  rewrite Zle_Qle in Hdays. change (inject_Z 0) with 0 in Hdays.
  pose proof (Qmult_le_0_compat _ _ Havg Hdays).
  split; lra.
Qed.

(** An average of 13 a day, 7 days, one event of impact 1.5. *)
Lemma forecast_against_horizon_witness :
  let row := {| dg_hospital_id := "H001"; dg_blood_type := "O+";
                avg_daily_demand := 13; Analytics.days_of_data := 2;
                peak_usage := 14 |} in
  13 * 7 <= total_forecast row 7 [Samples.event "Marathon" "2024-10-20" 1.5].
Proof.
  cbv zeta.
  apply (forecast_against_horizon
           {| dg_hospital_id := "H001"; dg_blood_type := "O+";
              avg_daily_demand := 13; Analytics.days_of_data := 2;
              peak_usage := 14 |}
           7 0 [Samples.event "Marathon" "2024-10-20" 1.5]).
  - discriminate.
  - lia.
  - repeat constructor. discriminate.
Defined.

(** X25. The entries of the forecast.  The entries stand in ascending order of
    (hospital, blood type), the order in which the grouped query returns its
    rows, one entry per key, and their keys are the keys of the usage
    records of the trailing 90 days.  An entry is for the requested days,
    its confidence is 0.85 exactly when more than 60 of these records have
    its key (records, not distinct days), and 0.65 otherwise, and its list of
    peak days is always empty. *)
Theorem forecast_entries (rt : runtime) (db : Store.database)
    (hospital_id blood_type : option string) (days : Z) :
  let selected :=
    filter (Analytics.usage_selected rt hospital_id blood_type)
           (Store.blood_usage_history db) in
  let result := forecast_demand rt db hospital_id blood_type days in
  let key f := (f_hospital_id f, f_blood_type f) in
  (forall k, In k (map key result) <-> In k (map Analytics.usage_key selected))
  /\ NoDup (map key result)
  /\ Sorted (fun k1 k2 => Store.key_leb k1 k2 = true) (map key result)
  /\ Forall (fun f =>
               let records := Analytics.usages_of (key f) selected in
               records <> []
               /\ f_days f = days
               /\ ((60 < List.length records)%nat -> f_confidence_level f = 0.85)
               /\ ((List.length records <= 60)%nat -> f_confidence_level f = 0.65)
               /\ f_peak_days f = [])
            result.
Proof.
  intros selected result key.
  pose proof (forecast_keys rt db hospital_id blood_type days) as Hkeys.
  fold selected in Hkeys. fold result in Hkeys.
  change (map (fun f => (f_hospital_id f, f_blood_type f)) result)
    with (map key result) in Hkeys.
  rewrite Hkeys.
  split; [intro k; apply group_keys_In | ].
  split; [apply group_keys_NoDup | ].
  split; [apply group_keys_ascending | ].
  subst result. unfold forecast_demand. fold selected.
  apply Forall_map, Forall_forall. intros row Hrow.
  subst key.
  cbn [f_hospital_id f_blood_type f_days f_confidence_level f_peak_days].
  destruct (group_usage_rows _ row Hrow) as [Hkey [_ Hcount]].
  rewrite Hcount, length_map.
  split; [now apply usages_of_key | ].
  split; [reflexivity | ].
  split; [ | split; [ | reflexivity]]; intro H;
    match goal with
    | |- context [(60 <? ?n)%Z] => destruct (Z.ltb_spec 60 n)
    end; (reflexivity || lia).
Qed.

(** ** GeoDistance: bounds, longitudes and meridians *)

Module GeoMore.

Import Geo.
Local Open Scope R_scope.

Lemma atan2_quadrant (y x : R) : 0 <= y -> 0 <= x -> 0 <= atan2 y x <= PI / 2.
Proof.
  intros Hy Hx. split; [now apply GeoFacts.atan2_nonneg | ].
  unfold atan2. pose proof PI_RGT_0 as Hpi.
  destruct (Rlt_dec 0 x) as [Hpos | Hnpos].
  - pose proof (atan_bound (y / x)) as [_ Hb]. lra.
  - destruct (Rlt_dec x 0); [lra | ].
    destruct (Rlt_dec 0 y); [lra | ].
    destruct (Rlt_dec y 0); lra.
Qed.

(** X26. A distance returned for valid coordinates is at most half the
    circumference of the sphere, [6371 * PI] km, and not negative. *)
Theorem haversine_at_most_half_turn (lat1 lon1 lat2 lon2 d : R) :
  valid_coordinates lat1 lon1 -> valid_coordinates lat2 lon2 ->
  _haversine_distance lat1 lon1 lat2 lon2 = Some d ->
  0 <= d <= 6371 * PI.
Proof.
  intros [Hlat1 _] [Hlat2 _].
  destruct (GeoFacts.haversine_a_range lat1 lon1 lat2 lon2 Hlat1 Hlat2) as [H0 H1].
  rewrite GeoFacts.haversine_unfold.
  rewrite !GeoFacts.py_sqrt_nonneg by lra.
  intro Hd. injection Hd as <-.
  pose proof (atan2_quadrant (sqrt (haversine_a lat1 lon1 lat2 lon2))
                (sqrt (1 - haversine_a lat1 lon1 lat2 lon2))
                (sqrt_pos _) (sqrt_pos _)) as [Hlo Hhi].
  split; lra.
Qed.

(** From Cairo to a point in the South Pacific. *)
Lemma haversine_at_most_half_turn_witness :
  exists d, _haversine_distance 30 31 (-45) (-120) = Some d /\ 0 <= d <= 6371 * PI.
Proof.
  assert (Hp : valid_coordinates 30 31) by (unfold valid_coordinates; lra).
  assert (Hq : valid_coordinates (-45) (-120)) by (unfold valid_coordinates; lra).
  destruct (GeoFacts.haversine_a_range 30 31 (-45) (-120) (proj1 Hp) (proj1 Hq))
    as [H0 H1].
  eexists. split.
  - rewrite GeoFacts.haversine_unfold.
    rewrite !GeoFacts.py_sqrt_nonneg by lra. reflexivity.
  - apply (haversine_at_most_half_turn 30 31 (-45) (-120) _ Hp Hq).
    rewrite GeoFacts.haversine_unfold.
    rewrite !GeoFacts.py_sqrt_nonneg by lra. reflexivity.
Defined.

Lemma same_point (lat lon : R) : _haversine_distance lat lon lat lon = Some 0.
Proof.
  rewrite GeoFacts.haversine_unfold.
  assert (Ha : haversine_a lat lon lat lon = 0).
  { unfold haversine_a. rewrite !Rminus_diag.
    replace (0 / 2) with 0 by lra. rewrite sin_0. ring. }
  rewrite Ha, Rminus_0_r.
  rewrite !GeoFacts.py_sqrt_nonneg by lra.
  rewrite sqrt_0, sqrt_1. f_equal.
  unfold atan2. destruct (Rlt_dec 0 1); [ | lra].
  replace (0 / 1) with 0 by lra. rewrite atan_0. ring.
Qed.

(** X30. The distance from a point to itself is 0, and the distance is the
    same in both directions; both hold for all arguments, and a call raises
    in one direction exactly when it raises in the other. *)
Theorem haversine_symmetric :
  (forall lat lon, _haversine_distance lat lon lat lon = Some 0)
  /\ (forall lat1 lon1 lat2 lon2,
         _haversine_distance lat1 lon1 lat2 lon2
         = _haversine_distance lat2 lon2 lat1 lon1).
Proof.
  split; [exact same_point | ].
  intros lat1 lon1 lat2 lon2. rewrite !GeoFacts.haversine_unfold.
  now rewrite (GeoFacts.haversine_a_sym lat1 lon1 lat2 lon2).
Qed.

Lemma sin_sq_abs (x : R) : sin (Rabs x) ^ 2 = sin x ^ 2.
Proof.
  unfold Rabs. destruct (Rcase_abs x); [rewrite sin_neg; ring | reflexivity].
Qed.

(** The angle of the point [(cos h, sin h)] in the first quadrant. *)
Lemma atan2_sin_cos (h : R) : 0 <= h <= PI / 2 -> atan2 (sin h) (cos h) = h.
Proof.
  intros [H0 H2]. pose proof PI_RGT_0 as Hpi. unfold atan2.
  destruct (Rlt_dec 0 (cos h)) as [Hc | Hc].
  - assert (Hlt : h < PI / 2).
    { destruct H2 as [Hlt | Heq]; [exact Hlt | ].
      rewrite Heq, cos_PI2 in Hc. lra. }
    change (sin h / cos h) with (tan h). apply atan_tan. lra.
  - assert (Heq : h = PI / 2).
    { destruct H2 as [Hlt | Heq]; [ | exact Heq].
      exfalso. apply Hc. apply cos_gt_0; lra. }
    subst h. rewrite cos_PI2, sin_PI2.
    destruct (Rlt_dec 0 0); [lra | ].
    destruct (Rlt_dec 0 1); [reflexivity | lra].
Qed.

(** X28. Along a meridian the distance is the radius times the difference of the
    latitudes in radians: about 111.19 km per degree. *)
Theorem haversine_along_meridian (lat1 lat2 lon : R) :
  -90 <= lat1 <= 90 -> -90 <= lat2 <= 90 ->
  _haversine_distance lat1 lon lat2 lon
  = Some (6371 * (PI / 180 * Rabs (lat2 - lat1))).
Proof.
  intros H1 H2. pose proof PI_RGT_0 as Hpi.
  destruct (GeoFacts.radians_latitude lat1 H1) as [Ha1 Hb1].
  destruct (GeoFacts.radians_latitude lat2 H2) as [Ha2 Hb2].
  set (h := Rabs ((radians lat2 - radians lat1) / 2)).
  assert (Hh : 0 <= h <= PI / 2).
  { subst h. split; [apply Rabs_pos | ]. apply Rabs_le. lra. }
  assert (Ha : haversine_a lat1 lon lat2 lon = sin h ^ 2).
  { unfold haversine_a. rewrite Rminus_diag.
    replace (0 / 2) with 0 by lra. rewrite sin_0.
    subst h. rewrite sin_sq_abs. ring. }
  assert (Hs : 0 <= sin h) by (apply sin_ge_0; lra).
  assert (Hc : 0 <= cos h) by (apply cos_ge_0; lra).
  assert (H1a : 1 - sin h ^ 2 = cos h ^ 2).
  { pose proof (sin2_cos2 h) as Hsc. unfold Rsqr in Hsc. lra. }
  rewrite GeoFacts.haversine_unfold, Ha, H1a.
  rewrite !GeoFacts.py_sqrt_nonneg by (apply pow2_ge_0).
  rewrite !sqrt_pow2 by assumption.
  rewrite (atan2_sin_cos h Hh). f_equal.
  subst h. unfold radians.
  replace ((lat2 * (PI / 180) - lat1 * (PI / 180)) / 2)
    with ((lat2 - lat1) * (PI / 360)) by field.
  rewrite Rabs_mult, (Rabs_right (PI / 360)) by lra.
  field.
Qed.

(** Cairo to the equator along the meridian of 31 degrees east. *)
Lemma haversine_along_meridian_witness :
  _haversine_distance 30 31 0 31 = Some (6371 * (PI / 180 * Rabs (0 - 30))).
Proof.
  apply haversine_along_meridian; lra.
Defined.

End GeoMore.
